(** * libjaylink: the transport abstraction layer (libjaylink/transport.c)

    A shallow embedding of the framing functions of transport.c
    (transport_start_write, transport_start_read,
    transport_start_write_read, usb_recv, usb_send, transport_write,
    transport_read) and the properties of the framing state, of the bytes
    handed to the USB backend and of the bytes handed back to the caller;
    of the functions that open and close a device (initialize_handle,
    cleanup_handle, transport_open, transport_close) and of what they hold
    of the system; and of jaylink_fine_io (libjaylink/fine.c), a command
    built on the layer.

    Integers of the C code are values of [Z]; every store into a
    [uint16_t] or [uint8_t] object is written with its wrap-around.  Memory
    areas (the transport buffer, the buffers of the caller) are lists of
    bytes; a pointer into an area is the area with an offset, or the part
    of the area from the pointer on when the area is only read. *)

From Stdlib Require Import ZArith List Lia Bool String.
From Stdlib Require Import Strings.Byte.
Import ListNotations.
Local Open Scope Z_scope.

(** ** Constants and integer types *)

Definition USB_TIMEOUT : Z := 1000.
Definition NUM_TIMEOUTS : Z := 2.
Definition CHUNK_SIZE : Z := 2048.
Definition BUFFER_SIZE : Z := CHUNK_SIZE.

Definition UINT16_MAX : Z := 65535.

(** Conversion to [uint16_t] and to [uint8_t]. *)
Definition uint16_t (z : Z) : Z := z mod 65536.
Definition uint8_t (z : Z) : Z := z mod 256.

(** The values a [uint16_t] object can hold. *)
Definition is_uint16 (z : Z) : Prop := 0 <= z <= UINT16_MAX.

(** Modelled from the spec: MIN is a macro of libjaylink-internal.h, a
    header that is not among the sources at hand.  It is taken as the
    smaller of its two arguments, [((a) < (b)) ? (a) : (b)]: transport.c
    uses it for the bytes that fill the buffer "up to the next multiple"
    of the chunk size and for "the requested subset" of a chunk received
    (section 4.2). *)
Definition MIN (a b : Z) : Z := if a <? b then a else b.

(** enum jaylink_error (libjaylink.h). *)
Inductive jaylink_error : Set :=
| JAYLINK_OK
| JAYLINK_ERR
| JAYLINK_ERR_MALLOC
| JAYLINK_ERR_ARG
| JAYLINK_ERR_TIMEOUT.

Definition jaylink_error_code (e : jaylink_error) : Z :=
  match e with
  | JAYLINK_OK => 0
  | JAYLINK_ERR => -1
  | JAYLINK_ERR_MALLOC => -2
  | JAYLINK_ERR_ARG => -3
  | JAYLINK_ERR_TIMEOUT => -4
  end.

Definition jaylink_error_eqb (a b : jaylink_error) : bool :=
  jaylink_error_code a =? jaylink_error_code b.

(** ** Memory areas *)

(** [memcpy dst off src n]: the area [dst] after [n] bytes of [src] were
    copied to offset [off] of it. *)
Definition memcpy (dst : list byte) (off : nat) (src : list byte) (n : nat)
  : list byte :=
  firstn off dst ++ firstn n src ++ skipn (off + n) dst.

(** ** libusb

    The status codes of libusb_bulk_transfer that transport.c tells apart
    are LIBUSB_SUCCESS and LIBUSB_ERROR_TIMEOUT; every other code is a
    failure of the transfer. *)
Inductive libusb_error : Set :=
| LIBUSB_SUCCESS
| LIBUSB_ERROR_IO
| LIBUSB_ERROR_NO_DEVICE
| LIBUSB_ERROR_TIMEOUT
| LIBUSB_ERROR_OVERFLOW
| LIBUSB_ERROR_PIPE
| LIBUSB_ERROR_OTHER.

Definition libusb_error_name (e : libusb_error) : string :=
  match e with
  | LIBUSB_SUCCESS => "LIBUSB_SUCCESS"
  | LIBUSB_ERROR_IO => "LIBUSB_ERROR_IO"
  | LIBUSB_ERROR_NO_DEVICE => "LIBUSB_ERROR_NO_DEVICE"
  | LIBUSB_ERROR_TIMEOUT => "LIBUSB_ERROR_TIMEOUT"
  | LIBUSB_ERROR_OVERFLOW => "LIBUSB_ERROR_OVERFLOW"
  | LIBUSB_ERROR_PIPE => "LIBUSB_ERROR_PIPE"
  | LIBUSB_ERROR_OTHER => "LIBUSB_ERROR_OTHER"
  end%string.

Definition is_timeout (e : libusb_error) : bool :=
  match e with LIBUSB_ERROR_TIMEOUT => true | _ => false end.

Definition is_success (e : libusb_error) : bool :=
  match e with LIBUSB_SUCCESS => true | _ => false end.

(** The device behind the two bulk endpoints.  It is given by what it will
    do with the bulk transfers still to come: for each transfer on the IN
    endpoint the status and the bytes it delivers, for each transfer on the
    OUT endpoint the status and the number of bytes it takes.  Once these
    are used up the device is gone and every transfer fails with
    LIBUSB_ERROR_NO_DEVICE.  [out_transfers] records the transfers made on
    the OUT endpoint, oldest first: the bytes offered and how many of them
    were taken. *)
Record libusb_device_handle : Type := mk_usb {
  in_pending : list (libusb_error * list byte);
  out_pending : list (libusb_error * Z);
  out_transfers : list (list byte * Z)
}.

(** What a transfer on the IN endpoint asking for [len] bytes stores and
    reports, for the outcome [o] the device has for it: never more than
    [len] bytes. *)
Definition bulk_in_data (len : Z) (o : libusb_error * list byte) : list byte :=
  firstn (Z.to_nat len) (snd o).

(** How many of the [len] bytes offered a transfer on the OUT endpoint
    reports as transferred: between 0 and [len]. *)
Definition bulk_out_count (len : Z) (o : libusb_error * Z) : Z :=
  Z.max 0 (Z.min len (snd o)).

(** ** Logging *)

(** Modelled from the spec: log_err, log_warn and log_dbg and
    struct jaylink_context belong to log.c and libjaylink-internal.h, which
    are not among the sources at hand; the specification has logging as an
    outside interface and says of a misuse only that it is "logged, not
    fatal" (sections 1 and 3).  The context of a device is taken as the
    calls of the three functions made on it, oldest first, each with its
    level, its format and its arguments.  Whether a call prints depends on
    the log level of the context and is not part of the model. *)
Inductive log_level : Set := LOG_LEVEL_ERROR | LOG_LEVEL_WARNING | LOG_LEVEL_DEBUG.

Inductive log_arg : Set :=
| ArgU (u : Z)
| ArgS (s : string).

Record log_entry : Set := mk_log {
  log_lvl : log_level;
  log_fmt : string;
  log_args : list log_arg
}.

Definition jaylink_context : Set := list log_entry.

(** ** The device handle *)

(** Modelled from the spec: struct jaylink_device_handle is declared in
    libjaylink-internal.h, which is not among the sources at hand.  The
    record has the fields transport.c uses once the device is open, under
    the names transport.c gives them; five of them are the framing state
    of section 3 of the specification: [write_length] (bytes still
    expected for the write operation), [write_pos] (bytes staged in the
    buffer), [read_length] (bytes the device has still to deliver),
    [bytes_available] (bytes received and not yet handed to the caller)
    and [read_pos] (where these start in the buffer).  They are taken as
    [uint16_t] objects, like every length transport.c takes or computes;
    on a well-formed handle no store into them wraps around.  [buffer] is
    the area of BUFFER_SIZE bytes initialize_handle allocates, and [ctx]
    stands for devh->dev->ctx.  [usb_send_calls] is no field of the C
    structure: it records, oldest first, the bytes each call of usb_send
    was given. *)
Record jaylink_device_handle : Type := mk_devh {
  ctx : jaylink_context;
  usb_devh : libusb_device_handle;
  buffer : list byte;
  read_length : Z;
  bytes_available : Z;
  read_pos : Z;
  write_length : Z;
  write_pos : Z;
  usb_send_calls : list (list byte)
}.

Definition set_ctx (d : jaylink_device_handle) (c : jaylink_context) :=
  mk_devh c (usb_devh d) (buffer d) (read_length d) (bytes_available d)
    (read_pos d) (write_length d) (write_pos d) (usb_send_calls d).
Definition set_usb_devh (d : jaylink_device_handle) (u : libusb_device_handle) :=
  mk_devh (ctx d) u (buffer d) (read_length d) (bytes_available d)
    (read_pos d) (write_length d) (write_pos d) (usb_send_calls d).
Definition set_buffer (d : jaylink_device_handle) (b : list byte) :=
  mk_devh (ctx d) (usb_devh d) b (read_length d) (bytes_available d)
    (read_pos d) (write_length d) (write_pos d) (usb_send_calls d).
Definition set_read_length (d : jaylink_device_handle) (v : Z) :=
  mk_devh (ctx d) (usb_devh d) (buffer d) v (bytes_available d)
    (read_pos d) (write_length d) (write_pos d) (usb_send_calls d).
Definition set_bytes_available (d : jaylink_device_handle) (v : Z) :=
  mk_devh (ctx d) (usb_devh d) (buffer d) (read_length d) v
    (read_pos d) (write_length d) (write_pos d) (usb_send_calls d).
Definition set_read_pos (d : jaylink_device_handle) (v : Z) :=
  mk_devh (ctx d) (usb_devh d) (buffer d) (read_length d) (bytes_available d)
    v (write_length d) (write_pos d) (usb_send_calls d).
Definition set_write_length (d : jaylink_device_handle) (v : Z) :=
  mk_devh (ctx d) (usb_devh d) (buffer d) (read_length d) (bytes_available d)
    (read_pos d) v (write_pos d) (usb_send_calls d).
Definition set_write_pos (d : jaylink_device_handle) (v : Z) :=
  mk_devh (ctx d) (usb_devh d) (buffer d) (read_length d) (bytes_available d)
    (read_pos d) (write_length d) v (usb_send_calls d).
Definition set_usb_send_calls (d : jaylink_device_handle) (l : list (list byte)) :=
  mk_devh (ctx d) (usb_devh d) (buffer d) (read_length d) (bytes_available d)
    (read_pos d) (write_length d) (write_pos d) l.

Definition log (lvl : log_level) (d : jaylink_device_handle) (fmt : string)
  (args : list log_arg) : jaylink_device_handle :=
  set_ctx d (ctx d ++ [mk_log lvl fmt args]).

Definition log_err := log LOG_LEVEL_ERROR.
Definition log_warn := log LOG_LEVEL_WARNING.
Definition log_dbg := log LOG_LEVEL_DEBUG.

(** The five cursors of a handle. *)
Definition framing (d : jaylink_device_handle) : Z * Z * Z * Z * Z :=
  (read_length d, bytes_available d, read_pos d, write_length d, write_pos d).

(** The end of initialize_handle (lines 139 to 153), after the endpoints
    were found: [mem] is the area malloc(BUFFER_SIZE) returned. *)
Definition initialize_handle (c : jaylink_context) (u : libusb_device_handle)
  (mem : list byte) : jaylink_device_handle :=
  mk_devh c u mem 0 0 0 0 0 [].

(** ** Starting an operation *)

(** transport_start_write (transport.c, lines 272 to 297).  [has_command]
    is not used. *)
Definition transport_start_write (devh : jaylink_device_handle) (length : Z)
  (has_command : bool) : jaylink_error * jaylink_device_handle :=
  if length =? 0 then (JAYLINK_ERR_ARG, devh)
  else
    let devh := log_dbg devh "Starting write operation (length = %u bytes)."
                  [ArgU length] in
    let devh :=
      if write_pos devh =? 0 then devh
      else log_warn devh "Last write operation left %u bytes in the buffer."
             [ArgU (write_pos devh)] in
    let devh :=
      if write_length devh =? 0 then devh
      else log_warn devh "Last write operation was not performed." [] in
    let devh := set_write_length devh length in
    let devh := set_write_pos devh 0 in
    (JAYLINK_OK, devh).

(** transport_start_read (lines 312 to 336). *)
Definition transport_start_read (devh : jaylink_device_handle) (length : Z)
  : jaylink_error * jaylink_device_handle :=
  if length =? 0 then (JAYLINK_ERR_ARG, devh)
  else
    let devh := log_dbg devh "Starting read operation (length = %u bytes)."
                  [ArgU length] in
    let devh :=
      if bytes_available devh =? 0 then devh
      else log_warn devh "Last read operation left %u bytes in the buffer."
             [ArgU (bytes_available devh)] in
    let devh :=
      if read_length devh =? 0 then devh
      else log_warn devh "Last read operation left %u bytes on the device."
             [ArgU (read_length devh)] in
    let devh := set_read_length devh length in
    let devh := set_bytes_available devh 0 in
    let devh := set_read_pos devh 0 in
    (JAYLINK_OK, devh).

(** transport_start_write_read (lines 358 to 396); [write_length_] and
    [read_length_] are its arguments write_length and read_length. *)
Definition transport_start_write_read (devh : jaylink_device_handle)
  (write_length_ read_length_ : Z) (has_command : bool)
  : jaylink_error * jaylink_device_handle :=
  if (read_length_ =? 0) || (write_length_ =? 0) then (JAYLINK_ERR_ARG, devh)
  else
    let devh :=
      log_dbg devh "Starting write / read operation (length = %u / %u bytes)."
        [ArgU write_length_; ArgU read_length_] in
    let devh :=
      if write_pos devh =? 0 then devh
      else log_warn devh "Last write operation left %u bytes in the buffer."
             [ArgU (write_pos devh)] in
    let devh :=
      if write_length devh =? 0 then devh
      else log_warn devh "Last write operation was not performed." [] in
    let devh :=
      if bytes_available devh =? 0 then devh
      else log_warn devh "Last read operation left %u bytes in the buffer."
             [ArgU (bytes_available devh)] in
    let devh :=
      if read_length devh =? 0 then devh
      else log_warn devh "Last read operation left %u bytes on the device."
             [ArgU (read_length devh)] in
    let devh := set_write_length devh write_length_ in
    let devh := set_write_pos devh 0 in
    let devh := set_read_length devh read_length_ in
    let devh := set_bytes_available devh 0 in
    let devh := set_read_pos devh 0 in
    (JAYLINK_OK, devh).

(** ** The USB backend: usb_recv and usb_send *)

Definition set_in_pending (u : libusb_device_handle)
  (p : list (libusb_error * list byte)) : libusb_device_handle :=
  mk_usb p (out_pending u) (out_transfers u).

(** The while loop of usb_recv (lines 410 to 428).  [pending] is what the
    device still has for the IN endpoint; [buf] and [off] are the area and
    the offset the pointer [buffer] of usb_recv points to.  Every turn of the loop is one
    call of libusb_bulk_transfer asking for CHUNK_SIZE bytes.  The first
    component of the result is the value returned from inside the loop, if
    any; the last one is [transferred]. *)
Fixpoint usb_recv_loop (pending : list (libusb_error * list byte))
  (devh : jaylink_device_handle) (buf : list byte) (off : nat)
  (tries transferred : Z)
  : option jaylink_error * jaylink_device_handle * list byte * Z :=
  if negb (tries =? 0) && (transferred =? 0) then
    match pending with
    | [] =>
        let devh := log_err devh "Failed to receive data from device: %s."
                      [ArgS (libusb_error_name LIBUSB_ERROR_NO_DEVICE)] in
        (Some JAYLINK_ERR, devh, buf, 0)
    | o :: pending' =>
        let ret := fst o in
        let data := bulk_in_data CHUNK_SIZE o in
        let devh := set_usb_devh devh (set_in_pending (usb_devh devh) pending') in
        let buf := memcpy buf off data (List.length data) in
        let transferred := Z.of_nat (List.length data) in
        if is_timeout ret then
          let devh := log_warn devh "Failed to receive data from device: %s."
                        [ArgS (libusb_error_name ret)] in
          usb_recv_loop pending' devh buf off (tries - 1) transferred
        else if negb (is_success ret) then
          let devh := log_err devh "Failed to receive data from device: %s."
                        [ArgS (libusb_error_name ret)] in
          (Some JAYLINK_ERR, devh, buf, transferred)
        else
          let devh := log_dbg devh "Received %u bytes from device."
                        [ArgU transferred] in
          usb_recv_loop pending' devh buf off tries transferred
    end
  else (None, devh, buf, transferred).

(** usb_recv (lines 398 to 439): the status, the handle, the area [buffer]
    points into and the value stored to [*length] (0 stands for a
    [*length] left as it was, when the status is not JAYLINK_OK). *)
Definition usb_recv (devh : jaylink_device_handle) (buf : list byte) (off : nat)
  : jaylink_error * jaylink_device_handle * list byte * Z :=
  let '(early, devh, buf, transferred) :=
    usb_recv_loop (in_pending (usb_devh devh)) devh buf off NUM_TIMEOUTS 0 in
  match early with
  | Some e => (e, devh, buf, 0)
  | None =>
      if negb (transferred =? 0) then (JAYLINK_OK, devh, buf, uint16_t transferred)
      else
        let devh := log_err devh "Receiving data from device timed out." [] in
        (JAYLINK_ERR_TIMEOUT, devh, buf, 0)
  end.

Definition bulk_out (u : libusb_device_handle) (p : list (libusb_error * Z))
  (offered : list byte) (transferred : Z) : libusb_device_handle :=
  mk_usb (in_pending u) p (out_transfers u ++ [(offered, transferred)]).

(** The while loop of usb_send (lines 452 to 474).  [pending] is what the
    device still has for the OUT endpoint; [buf] is the memory from the
    pointer [buffer] on.  The last component of the result is [length]. *)
Fixpoint usb_send_loop (pending : list (libusb_error * Z))
  (devh : jaylink_device_handle) (buf : list byte) (tries length : Z)
  : option jaylink_error * jaylink_device_handle * Z :=
  if negb (tries =? 0) && negb (length =? 0) then
    let req := MIN CHUNK_SIZE length in
    let offered := firstn (Z.to_nat req) buf in
    match pending with
    | [] =>
        let devh := set_usb_devh devh (bulk_out (usb_devh devh) [] offered 0) in
        let devh := log_err devh "Failed to send data to device: %s."
                      [ArgS (libusb_error_name LIBUSB_ERROR_NO_DEVICE)] in
        (Some JAYLINK_ERR, devh, length)
    | o :: pending' =>
        let ret := fst o in
        let transferred := bulk_out_count req o in
        let devh :=
          set_usb_devh devh (bulk_out (usb_devh devh) pending' offered transferred) in
        if is_success ret then
          let buf := skipn (Z.to_nat transferred) buf in
          let length := uint16_t (length - transferred) in
          let devh := log_dbg devh "Sent %u bytes to device." [ArgU transferred] in
          usb_send_loop pending' devh buf NUM_TIMEOUTS length
        else if is_timeout ret then
          let devh := log_warn devh "Failed to send data to device: %s."
                        [ArgS (libusb_error_name ret)] in
          let buf := skipn (Z.to_nat transferred) buf in
          let length := uint16_t (length - transferred) in
          let devh := log_dbg devh "Sent %u bytes to device." [ArgU transferred] in
          usb_send_loop pending' devh buf (tries - 1) length
        else
          let devh := log_err devh "Failed to send data to device: %s."
                        [ArgS (libusb_error_name ret)] in
          (Some JAYLINK_ERR, devh, length)
    end
  else (None, devh, length).

(** usb_send (lines 441 to 482); the bytes it is given are recorded in
    [usb_send_calls] first. *)
Definition usb_send (devh : jaylink_device_handle) (buf : list byte) (length : Z)
  : jaylink_error * jaylink_device_handle :=
  let devh :=
    set_usb_send_calls devh (usb_send_calls devh ++ [firstn (Z.to_nat length) buf]) in
  let '(early, devh, length) :=
    usb_send_loop (out_pending (usb_devh devh)) devh buf NUM_TIMEOUTS length in
  match early with
  | Some e => (e, devh)
  | None =>
      if length =? 0 then (JAYLINK_OK, devh)
      else
        let devh := log_err devh "Sending data to device timed out." [] in
        (JAYLINK_ERR_TIMEOUT, devh)
  end.

(** ** transport_write *)

(** transport_write (lines 505 to 589).  [buf] is the memory from the
    pointer [buffer] on. *)
Definition transport_write (devh : jaylink_device_handle) (buf : list byte)
  (length : Z) : jaylink_error * jaylink_device_handle :=
  if length >? write_length devh then
    let devh :=
      log_err devh
        "Requested to write %u bytes but only %u bytes are expected for the write operation."
        [ArgU length; ArgU (write_length devh)] in
    (JAYLINK_ERR_ARG, devh)
  else if length <? write_length devh then
    if write_pos devh + length >? BUFFER_SIZE then
      let devh := log_err devh "Write request is too large for the buffer." [] in
      (JAYLINK_ERR_ARG, devh)
    else
      let devh :=
        set_buffer devh
          (memcpy (buffer devh) (Z.to_nat (write_pos devh)) buf (Z.to_nat length)) in
      let devh := set_write_length devh (uint16_t (write_length devh - length)) in
      let devh := set_write_pos devh (uint16_t (write_pos devh + length)) in
      let devh := log_dbg devh "Wrote %u bytes into buffer." [ArgU length] in
      (JAYLINK_OK, devh)
  else
    let devh := set_write_length devh 0 in
    if write_pos devh =? 0 then usb_send devh buf length
    else
      let num_chunks := uint8_t (write_pos devh / CHUNK_SIZE) in
      let num_chunks :=
        if write_pos devh mod CHUNK_SIZE =? 0 then num_chunks
        else uint8_t (num_chunks + 1) in
      let fill_bytes := uint16_t (num_chunks * CHUNK_SIZE - write_pos devh) in
      let tmp := MIN length fill_bytes in
      let '(devh, buf, length) :=
        if tmp =? 0 then (devh, buf, length)
        else
          let devh :=
            set_buffer devh
              (memcpy (buffer devh) (Z.to_nat (write_pos devh)) buf (Z.to_nat tmp)) in
          let devh := log_dbg devh "Buffer filled up with %u bytes." [ArgU tmp] in
          (devh, skipn (Z.to_nat tmp) buf, uint16_t (length - tmp)) in
      let '(ret, devh) :=
        usb_send devh (buffer devh) (uint16_t (write_pos devh + tmp)) in
      let devh := set_write_pos devh 0 in
      match ret with
      | JAYLINK_OK =>
          if length =? 0 then (JAYLINK_OK, devh)
          else usb_send devh buf length
      | _ => (ret, devh)
      end.

(** ** transport_read *)

(** The while loop of transport_read (lines 649 to 703).  [buf] and [off] are the area of the
    caller and the offset the pointer [buffer] has reached in it.  A turn
    of the loop that receives data takes at least one byte off [length],
    so [Z.to_nat length] turns are enough; the result is [None] when
    [fuel] turns were not. *)
Fixpoint transport_read_loop (fuel : nat) (devh : jaylink_device_handle)
  (buf : list byte) (off : nat) (length : Z)
  : option (jaylink_error * jaylink_device_handle * list byte) :=
  if length =? 0 then Some (JAYLINK_OK, devh, buf)
  else
    match fuel with
    | O => None
    | S fuel =>
        let '(ret, devh, buf, bytes_received) :=
          if length <? CHUNK_SIZE then
            let '(ret, devh, scratch, n) := usb_recv devh (buffer devh) 0 in
            (ret, set_buffer devh scratch, buf, n)
          else usb_recv devh buf off in
        match ret with
        | JAYLINK_OK =>
            if bytes_received >? read_length devh then
              let devh :=
                log_err devh "Expected %u bytes from device but %u bytes received."
                  [ArgU (read_length devh); ArgU bytes_received] in
              Some (JAYLINK_ERR, devh, buf)
            else if length <? CHUNK_SIZE then
              let tmp := MIN bytes_received length in
              let buf := memcpy buf off (buffer devh) (Z.to_nat tmp) in
              let devh :=
                if bytes_received >? length then
                  let devh :=
                    set_bytes_available devh (uint16_t (bytes_received - tmp)) in
                  set_read_pos devh tmp
                else devh in
              let off := (off + Z.to_nat tmp)%nat in
              let length := uint16_t (length - tmp) in
              let devh := log_dbg devh "Read %u bytes from buffer." [ArgU tmp] in
              let devh :=
                set_read_length devh (uint16_t (read_length devh - bytes_received)) in
              transport_read_loop fuel devh buf off length
            else
              let off := (off + Z.to_nat bytes_received)%nat in
              let length := uint16_t (length - bytes_received) in
              let devh := log_dbg devh "Read %u bytes from device."
                            [ArgU bytes_received] in
              let devh :=
                set_read_length devh (uint16_t (read_length devh - bytes_received)) in
              transport_read_loop fuel devh buf off length
        | _ => Some (ret, devh, buf)
        end
    end.

(** transport_read (lines 608 to 706): the status, the handle and the
    area of the caller [buffer] points to. *)
Definition transport_read (devh : jaylink_device_handle) (buf : list byte)
  (length : Z) : option (jaylink_error * jaylink_device_handle * list byte) :=
  if length >? read_length devh + bytes_available devh then
    let devh :=
      log_err devh
        "Requested to read %u bytes but only %u bytes are expected for the read operation."
        [ArgU length; ArgU (read_length devh)] in
    Some (JAYLINK_ERR_ARG, devh, buf)
  else if length <=? bytes_available devh then
    let buf :=
      memcpy buf 0 (skipn (Z.to_nat (read_pos devh)) (buffer devh)) (Z.to_nat length) in
    let devh := set_bytes_available devh (uint16_t (bytes_available devh - length)) in
    let devh := set_read_pos devh (uint16_t (read_pos devh + length)) in
    let devh := log_dbg devh "Read %u bytes from buffer." [ArgU length] in
    Some (JAYLINK_OK, devh, buf)
  else
    let '(devh, buf, off, length) :=
      if bytes_available devh =? 0 then (devh, buf, 0%nat, length)
      else
        let buf :=
          memcpy buf 0 (skipn (Z.to_nat (read_pos devh)) (buffer devh))
            (Z.to_nat (bytes_available devh)) in
        let off := Z.to_nat (bytes_available devh) in
        let length := uint16_t (length - bytes_available devh) in
        let devh := log_dbg devh "Read %u bytes from buffer to flush it."
                      [ArgU (bytes_available devh)] in
        let devh := set_bytes_available devh 0 in
        let devh := set_read_pos devh 0 in
        (devh, buf, off, length) in
    transport_read_loop (Z.to_nat length) devh buf off length.

(** ** Running a sequence of calls *)

(** transport_write called once for each area of [calls], with the size of
    the area as [length]: the statuses, in call order, and the handle. *)
Fixpoint transport_writes (devh : jaylink_device_handle) (calls : list (list byte))
  : list jaylink_error * jaylink_device_handle :=
  match calls with
  | [] => ([], devh)
  | c :: calls =>
      let '(ret, devh) := transport_write devh c (Z.of_nat (List.length c)) in
      let '(rets, devh) := transport_writes devh calls in
      (ret :: rets, devh)
  end.

(** transport_read called once for each area of [calls], with the size of
    the area as [length]: the statuses and the areas as the calls left
    them, in call order, and the handle. *)
Fixpoint transport_reads (devh : jaylink_device_handle) (calls : list (list byte))
  : option (list jaylink_error * list (list byte) * jaylink_device_handle) :=
  match calls with
  | [] => Some ([], [], devh)
  | c :: calls =>
      match transport_read devh c (Z.of_nat (List.length c)) with
      | None => None
      | Some (ret, devh, c') =>
          match transport_reads devh calls with
          | None => None
          | Some (rets, bufs, devh) => Some (ret :: rets, c' :: bufs, devh)
          end
      end
  end.

(** ** Opening and closing a device: transport_open and transport_close *)

(** USB interface numbers of J-Link and of J-Link OB devices. *)
Definition USB_INTERFACE_NUMBER : Z := 0.
Definition USB_INTERFACE_NUMBER_OB : Z := 2.

(** libusb.h: the direction bit of an endpoint address. *)
Definition LIBUSB_ENDPOINT_IN : Z := 128.

(** The descriptors of libusb, with the fields initialize_handle reads.
    The entry [i] of [interface] stands for
    [config->interface[i].altsetting[0]]; bNumInterfaces and bNumEndpoints
    are the sizes of the arrays. *)
Record libusb_endpoint_descriptor : Set := mk_endpoint {
  bEndpointAddress : Z
}.

Record libusb_interface_descriptor : Set := mk_interface {
  bInterfaceNumber : Z;
  endpoint : list libusb_endpoint_descriptor
}.

Record libusb_config_descriptor : Set := mk_config {
  interface : list libusb_interface_descriptor
}.

(** A device as libusb has it, given by what its functions will answer:
    the status and the descriptor of libusb_get_active_config_descriptor,
    the status of libusb_open, of libusb_claim_interface and of
    libusb_release_interface, and the handle libusb_open yields. *)
Record libusb_device : Type := mk_libusb_device {
  bus_number : Z;
  device_address : Z;
  active_config : libusb_error * libusb_config_descriptor;
  open_status : libusb_error;
  claim_status : libusb_error;
  release_status : libusb_error;
  opened : libusb_device_handle
}.

(** The calls that take or give back a resource, as transport.c makes
    them: the functions of libusb with their status, malloc with whether
    it returned an area, and free. *)
Inductive resource_call : Set :=
| Get_active_config_descriptor (ret : libusb_error)
| Free_config_descriptor
| Malloc (ok : bool)
| Free
| Libusb_open (ret : libusb_error)
| Libusb_close
| Claim_interface (n : Z) (ret : libusb_error)
| Release_interface (n : Z) (ret : libusb_error).

(** What a program can hold of them. *)
Inductive resource : Set :=
| Config_descriptor
| Transport_buffer
| Usb_handle
| Interface (n : Z).

Definition resource_eqb (a b : resource) : bool :=
  match a, b with
  | Config_descriptor, Config_descriptor => true
  | Transport_buffer, Transport_buffer => true
  | Usb_handle, Usb_handle => true
  | Interface n, Interface m => n =? m
  | _, _ => false
  end.

(** [give_back r held]: [held] without [r], or [None] when [r] is not
    held. *)
Fixpoint give_back (r : resource) (held : list resource) : option (list resource) :=
  match held with
  | [] => None
  | x :: held =>
      if resource_eqb r x then Some held
      else match give_back r held with
           | Some l => Some (x :: l)
           | None => None
           end
  end.

(** What is held after the calls [cs], when [held] was held before; [None]
    when a call gives back what is not held.  A call that fails takes
    nothing, and an interface that could not be released is still held. *)
Fixpoint held_after (held : list resource) (cs : list resource_call)
  : option (list resource) :=
  match cs with
  | [] => Some held
  | c :: cs =>
      let take r (ok : bool) :=
        if ok then held_after (r :: held) cs else held_after held cs in
      let give r :=
        match give_back r held with
        | Some held => held_after held cs
        | None => None
        end in
      match c with
      | Get_active_config_descriptor ret => take Config_descriptor (is_success ret)
      | Free_config_descriptor => give Config_descriptor
      | Malloc ok => take Transport_buffer ok
      | Free => give Transport_buffer
      | Libusb_open ret => take Usb_handle (is_success ret)
      | Libusb_close => give Usb_handle
      | Claim_interface n ret => take (Interface n) (is_success ret)
      | Release_interface n ret =>
          if is_success ret then give (Interface n) else held_after held cs
      end
  end.

Module Session.

(** struct jaylink_device: the fields transport_open and transport_close
    use ([ctx] is kept in the handle). *)
Record jaylink_device : Type := mk_device {
  onboard_device : bool;
  usb_dev : libusb_device
}.

(** struct jaylink_device_handle as transport_open and transport_close
    use it: the fields of the framing functions ([devh]), and with them
    the device, the interface number and the addresses of the two
    endpoints.  [calls] is no field of the C structure: it records, oldest
    first, the calls that took or gave back a resource. *)
Record handle : Type := mk_handle {
  dev : jaylink_device;
  interface_number : Z;
  endpoint_in : Z;
  endpoint_out : Z;
  devh : jaylink_device_handle;
  calls : list resource_call
}.

Definition set_interface_number (h : handle) (n : Z) : handle :=
  mk_handle (dev h) n (endpoint_in h) (endpoint_out h) (devh h) (calls h).
Definition set_endpoint_in (h : handle) (a : Z) : handle :=
  mk_handle (dev h) (interface_number h) a (endpoint_out h) (devh h) (calls h).
Definition set_endpoint_out (h : handle) (a : Z) : handle :=
  mk_handle (dev h) (interface_number h) (endpoint_in h) a (devh h) (calls h).
Definition set_devh (h : handle) (d : jaylink_device_handle) : handle :=
  mk_handle (dev h) (interface_number h) (endpoint_in h) (endpoint_out h) d (calls h).
Definition call (h : handle) (c : resource_call) : handle :=
  mk_handle (dev h) (interface_number h) (endpoint_in h) (endpoint_out h) (devh h)
    (calls h ++ [c]).

Definition log_err (h : handle) (fmt : string) (args : list log_arg) : handle :=
  set_devh h (log LOG_LEVEL_ERROR (devh h) fmt args).
Definition log_dbg (h : handle) (fmt : string) (args : list log_arg) : handle :=
  set_devh h (log LOG_LEVEL_DEBUG (devh h) fmt args).

(** The first loop of initialize_handle (lines 85 to 93): the descriptor
    [desc] points to when the loop is left with [found_interface] set. *)
Fixpoint find_interface (interface : list libusb_interface_descriptor) (number : Z)
  : option libusb_interface_descriptor :=
  match interface with
  | [] => None
  | desc :: interface =>
      if bInterfaceNumber desc =? number then Some desc
      else find_interface interface number
  end.

(** The second loop of initialize_handle (lines 105 to 115): the handle,
    [found_endpoint_in] and [found_endpoint_out]. *)
Fixpoint find_endpoints (endpoint : list libusb_endpoint_descriptor) (h : handle)
  (found_endpoint_in found_endpoint_out : bool) : handle * bool * bool :=
  match endpoint with
  | [] => (h, found_endpoint_in, found_endpoint_out)
  | epdesc :: endpoint =>
      if negb (Z.land (bEndpointAddress epdesc) LIBUSB_ENDPOINT_IN =? 0) then
        find_endpoints endpoint (set_endpoint_in h (bEndpointAddress epdesc))
          true found_endpoint_out
      else
        find_endpoints endpoint (set_endpoint_out h (bEndpointAddress epdesc))
          found_endpoint_in true
  end.

(** initialize_handle (lines 58 to 154).  [mem] is what malloc returns:
    the area, or [None] for NULL; the empty area stands for a [buffer]
    that is NULL. *)
Definition initialize_handle (h : handle) (mem : option (list byte))
  : jaylink_error * handle :=
  let h :=
    if onboard_device (dev h) then set_interface_number h USB_INTERFACE_NUMBER_OB
    else set_interface_number h USB_INTERFACE_NUMBER in
  let '(ret, config) := active_config (usb_dev (dev h)) in
  let h := call h (Get_active_config_descriptor ret) in
  if negb (is_success ret) then
    let h := log_err h "Failed to get configuration descriptor: %s."
               [ArgS (libusb_error_name ret)] in
    (JAYLINK_ERR, h)
  else
    match find_interface (interface config) (interface_number h) with
    | None =>
        let h := log_err h "Interface %u not found." [ArgU (interface_number h)] in
        let h := call h Free_config_descriptor in
        (JAYLINK_ERR, h)
    | Some desc =>
        let '(h, found_endpoint_in, found_endpoint_out) :=
          find_endpoints (endpoint desc) h false false in
        let h := call h Free_config_descriptor in
        if negb found_endpoint_in then
          let h := log_err h "Interface IN endpoint not found." [] in
          (JAYLINK_ERR, h)
        else if negb found_endpoint_out then
          let h := log_err h "Interface OUT endpoint not found." [] in
          (JAYLINK_ERR, h)
        else
          let h := log_dbg h "Using endpoint %02x (IN) and %02x (OUT)."
                     [ArgU (endpoint_in h); ArgU (endpoint_out h)] in
          match mem with
          | None =>
              let h := call h (Malloc false) in
              let h := set_devh h (set_buffer (devh h) []) in
              let h := log_err h "Transport buffer malloc failed." [] in
              (JAYLINK_ERR_MALLOC, h)
          | Some area =>
              let h := call h (Malloc true) in
              let h := set_devh h (set_buffer (devh h) area) in
              let h := set_devh h (set_read_length (devh h) 0) in
              let h := set_devh h (set_bytes_available (devh h) 0) in
              let h := set_devh h (set_read_pos (devh h) 0) in
              let h := set_devh h (set_write_length (devh h) 0) in
              let h := set_devh h (set_write_pos (devh h) 0) in
              (JAYLINK_OK, h)
          end
    end.

(** cleanup_handle (lines 156 to 159). *)
Definition cleanup_handle (h : handle) : handle := call h Free.

(** transport_open (lines 172 to 217). *)
Definition transport_open (h : handle) (mem : option (list byte))
  : jaylink_error * handle :=
  let h := log_dbg h "Trying to open device (bus:address = %03u:%03u)."
             [ArgU (bus_number (usb_dev (dev h)));
              ArgU (device_address (usb_dev (dev h)))] in
  let '(ret, h) := initialize_handle h mem in
  match ret with
  | JAYLINK_OK =>
      let ret := open_status (usb_dev (dev h)) in
      let h := call h (Libusb_open ret) in
      if negb (is_success ret) then
        let h := log_err h "Failed to open device: %s."
                   [ArgS (libusb_error_name ret)] in
        let h := cleanup_handle h in
        (JAYLINK_ERR, h)
      else
        let ret := claim_status (usb_dev (dev h)) in
        let h := call h (Claim_interface (interface_number h) ret) in
        if negb (is_success ret) then
          let h := log_err h "Failed to claim interface: %s."
                     [ArgS (libusb_error_name ret)] in
          let h := cleanup_handle h in
          let h := call h Libusb_close in
          (JAYLINK_ERR, h)
        else
          let h := log_dbg h "Device opened successfully." [] in
          let h := set_devh h (set_usb_devh (devh h) (opened (usb_dev (dev h)))) in
          (JAYLINK_OK, h)
  | _ =>
      let h := log_err h "Initialize device handle failed." [] in
      (ret, h)
  end.

(** transport_close (lines 230 to 255). *)
Definition transport_close (h : handle) : jaylink_error * handle :=
  let h := log_dbg h "Closing device (bus:address = %03u:%03u)."
             [ArgU (bus_number (usb_dev (dev h)));
              ArgU (device_address (usb_dev (dev h)))] in
  let ret := release_status (usb_dev (dev h)) in
  let h := call h (Release_interface (interface_number h) ret) in
  let h := call h Libusb_close in
  let h := cleanup_handle h in
  if negb (is_success ret) then
    let h := log_err h "Failed to release interface: %s."
               [ArgS (libusb_error_name ret)] in
    (JAYLINK_ERR, h)
  else (JAYLINK_OK, h).

(** The calls made between two states of a handle. *)
Definition calls_since (h h' : handle) : list resource_call :=
  skipn (List.length (calls h)) (calls h').

(** The endpoint is an IN endpoint. *)
Definition is_in (e : libusb_endpoint_descriptor) : bool :=
  negb (Z.land (bEndpointAddress e) LIBUSB_ENDPOINT_IN =? 0).

(** [e] is the last endpoint of [endpoint] whose direction is [d]. *)
Definition last_endpoint (d : bool) (endpoint : list libusb_endpoint_descriptor)
  (e : libusb_endpoint_descriptor) : Prop :=
  exists front back,
    endpoint = front ++ e :: back /\ is_in e = d /\
    Forall (fun x => is_in x = negb d) back.

(** [desc] is the first interface of [interface] with the number [n]. *)
Definition first_interface (n : Z) (interface : list libusb_interface_descriptor)
  (desc : libusb_interface_descriptor) : Prop :=
  exists pre post,
    interface = pre ++ desc :: post /\ bInterfaceNumber desc = n /\
    Forall (fun d => bInterfaceNumber d <> n) pre.

End Session.

(** ** FINE I/O: jaylink_fine_io (libjaylink/fine.c) *)

Definition CMD_FINE_IO : byte := xe0.

(** Conversion to [uint32_t]. *)
Definition uint32_t (z : Z) : Z := z mod 4294967296.

Section fine.

(** buffer_set_u32 and buffer_get_u32 (buffer.c) and jaylink_strerror
    (error.c) are not among the sources at hand.  jaylink_fine_io is given
    for whatever functions they are: [buffer_set_u32 buf value offset] is
    the area [buf] after the call, [buffer_get_u32 buf offset] the value
    returned. *)
Variable buffer_set_u32 : list byte -> Z -> nat -> list byte.
Variable buffer_get_u32 : list byte -> nat -> Z.
Variable jaylink_strerror : jaylink_error -> string.

(** The 13 bytes of the command as jaylink_fine_io puts them together in
    its local array, which holds [buf] at first (fine.c, lines 76 to
    79). *)
Definition fine_io_command (buf : list byte) (out_length in_length other_param : Z)
  : list byte :=
  let buf := memcpy buf 0 [CMD_FINE_IO] 1 in
  let buf := buffer_set_u32 buf out_length 1 in
  let buf := buffer_set_u32 buf in_length 5 in
  buffer_set_u32 buf other_param 9.

(** jaylink_fine_io (fine.c, lines 57 to 121).  A pointer is [None] when it
    is NULL; [out_length], [in_length] and [other_param] are [uint32_t]
    values; [buf] is what the local array holds at first.  The result is
    the status, the handle and the area [in] points to; it is [None] when a
    transport_read ran out of fuel. *)
Definition jaylink_fine_io (devh : option jaylink_device_handle)
  (out in_ : option (list byte)) (out_length in_length other_param : Z)
  (buf : list byte)
  : option (jaylink_error * option jaylink_device_handle * option (list byte)) :=
  match devh, out, in_ with
  | Some devh, Some out, Some in_ =>
      let '(ret, devh) :=
        transport_start_write_read devh (uint16_t (uint32_t (13 + out_length)))
          (uint16_t (uint32_t (4 + in_length))) true in
      match ret with
      | JAYLINK_OK =>
          let buf := memcpy buf 0 [CMD_FINE_IO] 1 in
          let buf := buffer_set_u32 buf out_length 1 in
          let buf := buffer_set_u32 buf in_length 5 in
          let buf := buffer_set_u32 buf other_param 9 in
          let '(ret, devh) := transport_write devh buf 13 in
          match ret with
          | JAYLINK_OK =>
              let '(ret, devh) := transport_write devh out (uint16_t out_length) in
              match ret with
              | JAYLINK_OK =>
                  match transport_read devh in_ (uint16_t in_length) with
                  | None => None
                  | Some (ret, devh, in_) =>
                      match ret with
                      | JAYLINK_OK =>
                          match transport_read devh buf 4 with
                          | None => None
                          | Some (ret, devh, buf) =>
                              let status := buffer_get_u32 buf 0 in
                              match ret with
                              | JAYLINK_OK => Some (JAYLINK_OK, Some devh, Some in_)
                              | _ =>
                                  let devh :=
                                    log_err devh "transport_read() failed: %s"
                                      [ArgS (jaylink_strerror ret)] in
                                  Some (ret, Some devh, Some in_)
                              end
                          end
                      | _ =>
                          let devh :=
                            log_err devh "transport_read() failed: %s"
                              [ArgS (jaylink_strerror ret)] in
                          Some (ret, Some devh, Some in_)
                      end
                  end
              | _ =>
                  let devh :=
                    log_err devh "transport_write() failed: %s"
                      [ArgS (jaylink_strerror ret)] in
                  Some (ret, Some devh, Some in_)
              end
          | _ =>
              let devh :=
                log_err devh "transport_write() failed: %s"
                  [ArgS (jaylink_strerror ret)] in
              Some (ret, Some devh, Some in_)
          end
      | _ =>
          let devh :=
            log_err devh "transport_start_write_read() failed: %s"
              [ArgS (jaylink_strerror ret)] in
          Some (ret, Some devh, Some in_)
      end
  | _, _, _ => Some (JAYLINK_ERR_ARG, devh, in_)
  end.

End fine.

(** ** Well-formed handles and the states the layer can be in *)

(** What initialize_handle establishes and every function of the layer
    keeps: the buffer has BUFFER_SIZE bytes, the cursors hold [uint16_t]
    values, and the bytes staged for writing and the bytes buffered for
    reading lie inside the buffer. *)
Record handle_ok (d : jaylink_device_handle) : Prop := mk_handle_ok {
  ok_buffer : Z.of_nat (List.length (buffer d)) = BUFFER_SIZE;
  ok_read_length : is_uint16 (read_length d);
  ok_bytes_available : is_uint16 (bytes_available d);
  ok_read_pos : is_uint16 (read_pos d);
  ok_write_length : is_uint16 (write_length d);
  ok_write_pos : is_uint16 (write_pos d);
  ok_read_window : read_pos d + bytes_available d <= BUFFER_SIZE;
  ok_write_window : write_pos d <= BUFFER_SIZE
}.

(** The handles the layer can be in: the handle initialize_handle leaves,
    and the handle after any call of a function of the layer.  The lengths
    are [uint16_t] values, and the area a caller gives to transport_write
    has the bytes it asks to write. *)
Inductive reachable : jaylink_device_handle -> Prop :=
| reach_init (c : jaylink_context) (u : libusb_device_handle) (mem : list byte) :
    Z.of_nat (List.length mem) = BUFFER_SIZE ->
    reachable (initialize_handle c u mem)
| reach_start_write (d : jaylink_device_handle) (n : Z) (has_command : bool) :
    reachable d -> is_uint16 n ->
    reachable (snd (transport_start_write d n has_command))
| reach_start_read (d : jaylink_device_handle) (n : Z) :
    reachable d -> is_uint16 n ->
    reachable (snd (transport_start_read d n))
| reach_start_write_read (d : jaylink_device_handle) (w r : Z) (has_command : bool) :
    reachable d -> is_uint16 w -> is_uint16 r ->
    reachable (snd (transport_start_write_read d w r has_command))
| reach_write (d : jaylink_device_handle) (buf : list byte) (length : Z) :
    reachable d -> is_uint16 length ->
    (Z.to_nat length <= List.length buf)%nat ->
    reachable (snd (transport_write d buf length))
| reach_read (d : jaylink_device_handle) (buf : list byte) (length : Z)
    (ret : jaylink_error) (d' : jaylink_device_handle) (buf' : list byte) :
    reachable d -> is_uint16 length ->
    transport_read d buf length = Some (ret, d', buf') ->
    reachable d'.

(** The handles a write operation of [n] bytes goes through: the handle
    transport_start_write or transport_start_write_read leaves, and the
    handle after any further call of transport_write. *)
Inductive write_started (n : Z) : jaylink_device_handle -> Prop :=
| ws_start_write (devh : jaylink_device_handle) (has_command : bool) :
    is_uint16 n -> n <> 0 ->
    write_started n (snd (transport_start_write devh n has_command))
| ws_start_write_read (devh : jaylink_device_handle) (r : Z) (has_command : bool) :
    is_uint16 n -> n <> 0 -> is_uint16 r -> r <> 0 ->
    write_started n (snd (transport_start_write_read devh n r has_command))
| ws_write (devh : jaylink_device_handle) (buf : list byte) (length : Z) :
    write_started n devh -> is_uint16 length ->
    write_started n (snd (transport_write devh buf length)).

(** ** What changed between two states of a handle *)

(** The entries logged between two states of a handle. *)
Definition logged_since (d d' : jaylink_device_handle) : list log_entry :=
  skipn (List.length (ctx d)) (ctx d').

(** A warning was logged between [d] and [d']. *)
Definition warned (d d' : jaylink_device_handle) : Prop :=
  exists e, In e (logged_since d d') /\ log_lvl e = LOG_LEVEL_WARNING.

(** [d'] is [d] but for the log: no transfer was made, no cursor moved, no
    byte of the buffer changed. *)
Definition only_logged (d d' : jaylink_device_handle) : Prop :=
  usb_devh d' = usb_devh d /\ buffer d' = buffer d /\ framing d' = framing d /\
  usb_send_calls d' = usb_send_calls d.

(** [d'] is [d] after transfers on the IN endpoint that left [rest]
    pending: but for the log nothing else changed. *)
Definition received (d d' : jaylink_device_handle)
  (rest : list (libusb_error * list byte)) : Prop :=
  usb_devh d' = set_in_pending (usb_devh d) rest /\
  buffer d' = buffer d /\ framing d' = framing d /\
  usb_send_calls d' = usb_send_calls d.

(** [d'] is [d] after transfers on the OUT endpoint: but for the log, what
    is pending on the OUT endpoint and what was recorded, nothing
    changed. *)
Definition sent (d d' : jaylink_device_handle) : Prop :=
  in_pending (usb_devh d') = in_pending (usb_devh d) /\
  buffer d' = buffer d /\ framing d' = framing d.

(** The bytes given to the calls of usb_send made between [d] and [d'], in
    call order. *)
Definition bytes_sent (d d' : jaylink_device_handle) : list byte :=
  List.concat (skipn (List.length (usb_send_calls d)) (usb_send_calls d')).

(** [a] is the beginning of [b]. *)
Definition is_prefix (a b : list byte) : Prop := exists t, b = a ++ t.

(** The transfers made on the OUT endpoint between two states of a handle,
    oldest first. *)
Definition transfers_since (d d' : jaylink_device_handle) : list (list byte * Z) :=
  skipn (List.length (out_transfers (usb_devh d))) (out_transfers (usb_devh d')).

(** The bytes of a transfer on the OUT endpoint that the device took: the
    first [transferred] of the bytes offered. *)
Definition taken (t : list byte * Z) : list byte :=
  firstn (Z.to_nat (snd t)) (fst t).

(** A transfer on the OUT endpoint offers one byte at least and one chunk
    at most, and the device takes no more than it was offered. *)
Definition chunk_transfer (t : list byte * Z) : Prop :=
  1 <= Z.of_nat (List.length (fst t)) <= CHUNK_SIZE /\
  0 <= snd t <= Z.of_nat (List.length (fst t)).

(** What a handle holds for the read direction: the cursors and what is
    pending on the IN endpoint. *)
Definition read_side (d : jaylink_device_handle)
  : Z * Z * Z * list (libusb_error * list byte) :=
  (read_length d, bytes_available d, read_pos d, in_pending (usb_devh d)).

(** What a handle holds for the write direction: the cursors, what is
    pending on the OUT endpoint, the transfers made on it and the calls of
    usb_send. *)
Definition write_side (d : jaylink_device_handle)
  : Z * Z * list (libusb_error * Z) * list (list byte * Z) * list (list byte) :=
  (write_length d, write_pos d, out_pending (usb_devh d),
   out_transfers (usb_devh d), usb_send_calls d).

(** The warnings among the entries of a log. *)
Definition warnings (es : list log_entry) : list log_entry :=
  filter (fun e => match log_lvl e with LOG_LEVEL_WARNING => true | _ => false end) es.

(** ** Sequences of calls and of transfers *)

(** Each call of [calls] that does not complete the operation, of which
    [rem] bytes are outstanding and [pos] bytes are staged, puts its bytes
    into the buffer without running over its end. *)
Fixpoint staged_within (pos rem : Z) (calls : list (list byte)) : bool :=
  match calls with
  | [] => true
  | c :: calls =>
      let l := Z.of_nat (List.length c) in
      if l <? rem then
        (pos + l <=? BUFFER_SIZE) && staged_within (pos + l) (rem - l) calls
      else staged_within 0 (rem - l) calls
  end.

(** What the device has for a transfer on the IN endpoint that delivers
    the area [c] with LIBUSB_SUCCESS. *)
Definition ok_chunk (c : list byte) : libusb_error * list byte := (LIBUSB_SUCCESS, c).

(** Areas a transfer on the IN endpoint can deliver and usb_recv can
    report: one byte at least, one chunk at most. *)
Definition ok_chunks (chunks : list (list byte)) : Prop :=
  Forall (fun c => 1 <= Z.of_nat (List.length c) <= CHUNK_SIZE) chunks.

(** The bytes received and not yet handed to the caller. *)
Definition buffered (d : jaylink_device_handle) : list byte :=
  firstn (Z.to_nat (bytes_available d))
    (skipn (Z.to_nat (read_pos d)) (buffer d)).

(** The bytes a read operation has still to hand to the caller, when the
    device delivers the areas of [chunks] next: the bytes buffered and the
    bytes to come. *)
Definition expected (d : jaylink_device_handle) (chunks : list (list byte))
  : list byte :=
  buffered d ++ List.concat chunks.

(** The handle is well-formed, the next transfers on the IN endpoint
    deliver the areas of [chunks], and these are the bytes the read
    operation still expects from the device. *)
Definition read_inv (d : jaylink_device_handle) (chunks : list (list byte))
  (rest : list (libusb_error * list byte)) : Prop :=
  handle_ok d /\
  in_pending (usb_devh d) = map ok_chunk chunks ++ rest /\
  ok_chunks chunks /\
  Z.of_nat (List.length (List.concat chunks)) = read_length d.

(** A transfer on the IN endpoint that delivers no byte and does not fail:
    it succeeds or it times out. *)
Definition empty_transfer (o : libusb_error * list byte) : Prop :=
  snd o = [] /\ is_success (fst o) || is_timeout (fst o) = true.

(** How many of the transfers of [l] time out. *)
Definition timeouts {A : Type} (l : list (libusb_error * A)) : Z :=
  Z.of_nat (List.length (filter (fun o => is_timeout (fst o)) l)).

(** No transfer of [l] fails, and no two in a row time out. *)
Fixpoint timeouts_apart (l : list (libusb_error * Z)) : bool :=
  match l with
  | [] => true
  | o :: l' =>
      (is_success (fst o) || is_timeout (fst o))
      && match l' with
         | [] => true
         | o' :: _ => negb (is_timeout (fst o) && is_timeout (fst o'))
         end
      && timeouts_apart l'
  end.

(** The bytes the transfers of [l] on the OUT endpoint take together, when
    each of them takes what the device has for it. *)
Definition moved (l : list (libusb_error * Z)) : Z :=
  fold_right Z.add 0 (map snd l).

(** Each transfer of [l] on the OUT endpoint takes between no byte and a
    chunk. *)
Definition chunk_counts (l : list (libusb_error * Z)) : Prop :=
  Forall (fun o => 0 <= snd o <= CHUNK_SIZE) l.

(** ** Devices and handles of the examples *)

(** A handle as initialize_handle leaves it, with an empty log and a zeroed
    buffer, on the device [u]. *)
Definition fresh_handle (u : libusb_device_handle) : jaylink_device_handle :=
  initialize_handle [] u (repeat x00 (Z.to_nat BUFFER_SIZE)).

(** A device that is gone: every transfer fails. *)
Definition no_device : libusb_device_handle := mk_usb [] [] [].

(** A device that delivers the areas of [chunks], one for each transfer on
    the IN endpoint, and is gone then. *)
Definition device_with (chunks : list (list byte)) : libusb_device_handle :=
  mk_usb (map ok_chunk chunks) [] [].

(** A device that lets each of its next two transfers on the OUT endpoint
    time out after it took one byte. *)
Definition slow_device : libusb_device_handle :=
  mk_usb [] [(LIBUSB_ERROR_TIMEOUT, 1); (LIBUSB_ERROR_TIMEOUT, 1)] [].

(** A device whose next transfer on the IN endpoint times out after it
    delivered one byte. *)
Definition late_device : libusb_device_handle :=
  mk_usb [(LIBUSB_ERROR_TIMEOUT, [x2a])] [] [].

(** A device that takes every byte of its next three transfers on the OUT
    endpoint. *)
Definition accepting_device : libusb_device_handle :=
  mk_usb [] [(LIBUSB_SUCCESS, CHUNK_SIZE); (LIBUSB_SUCCESS, CHUNK_SIZE);
             (LIBUSB_SUCCESS, CHUNK_SIZE)] [].

(** A device whose next transfer on the IN endpoint delivers six bytes. *)
Definition six_byte_device : libusb_device_handle :=
  device_with [[x0a; x0b; x0c; x0d; x0e; x0f]].

(** A device that delivers five bytes in two transfers on the IN
    endpoint. *)
Definition five_byte_device : libusb_device_handle :=
  device_with [[x0a; x0b; x0c]; [x0d; x0e]].

(** The handle after a write of three and a read of five bytes were
    declared. *)
Definition started_handle : jaylink_device_handle :=
  snd (transport_start_write_read (fresh_handle no_device) 3 5 true).

(** The handle an abandoned write / read operation leaves behind: two of
    the five bytes declared were written, none of the seven was read. *)
Definition stale_handle : jaylink_device_handle :=
  snd (transport_write
         (snd (transport_start_write_read (fresh_handle no_device) 5 7 true))
         [x01; x02] 2).

(** The handle after a write of 4000 bytes was declared and 2000 of them
    were written. *)
Definition half_written_handle : jaylink_device_handle :=
  snd (transport_write
         (snd (transport_start_write (fresh_handle no_device) 4000 true))
         (repeat x01 2000) 2000).

(** The handle after a write of three bytes was declared and the bytes
    01 02 were written. *)
Definition staged_handle : jaylink_device_handle :=
  snd (transport_write
         (snd (transport_start_write (fresh_handle accepting_device) 3 true))
         [x01; x02] 2).

(** The handle after a write of 2049 bytes was declared and the first of
    them was written; the device is gone. *)
Definition one_staged_handle : jaylink_device_handle :=
  snd (transport_write
         (snd (transport_start_write (fresh_handle no_device) 2049 true))
         [x01] 1).

(** The handle after five bytes were declared and received and two of them
    were read: three bytes are buffered. *)
Definition buffered_handle : jaylink_device_handle :=
  match
    transport_read
      (snd (transport_start_read
              (fresh_handle (device_with [[x0a; x0b; x0c; x0d; x0e]])) 5))
      [x00; x00] 2
  with
  | Some (_, d, _) => d
  | None => fresh_handle no_device
  end.

(** A device that takes one byte of its next transfer on the OUT endpoint,
    lets the following one time out after one more byte and takes the rest
    with a third one. *)
Definition halting_device : libusb_device_handle :=
  mk_usb [] [(LIBUSB_SUCCESS, 1); (LIBUSB_ERROR_TIMEOUT, 1); (LIBUSB_SUCCESS, 2)] [].

(** A device whose first transfer on the IN endpoint times out without
    data and whose second one delivers three bytes. *)
Definition waking_device : libusb_device_handle :=
  mk_usb [(LIBUSB_ERROR_TIMEOUT, []); (LIBUSB_SUCCESS, [x0a; x0b; x0c])] [] [].


(** The handle after a write of ten bytes was declared. *)
Definition ten_byte_write_handle : jaylink_device_handle :=
  snd (transport_start_write (fresh_handle no_device) 10 true).

(** For the examples: a buffer_set_u32 that stores the four bytes of
    [value] at [offset], the least significant one first, a buffer_get_u32
    that reads them back and a jaylink_strerror that names the status. *)
Definition byte_of_Z (z : Z) : byte :=
  match Byte.of_N (Z.to_N (z mod 256)) with
  | Some b => b
  | None => x00
  end.

Definition example_set_u32 (buf : list byte) (value : Z) (offset : nat) : list byte :=
  memcpy buf offset
    [byte_of_Z value; byte_of_Z (value / 256); byte_of_Z (value / 65536);
     byte_of_Z (value / 16777216)] 4.

Definition example_get_u32 (buf : list byte) (offset : nat) : Z :=
  match map (fun b => Z.of_N (Byte.to_N b)) (firstn 4 (skipn offset buf)) with
  | [b0; b1; b2; b3] => b0 + 256 * b1 + 65536 * b2 + 16777216 * b3
  | _ => 0
  end.

Definition example_strerror (e : jaylink_error) : string :=
  match e with
  | JAYLINK_OK => "no error"
  | JAYLINK_ERR => "unspecified error"
  | JAYLINK_ERR_MALLOC => "memory allocation error"
  | JAYLINK_ERR_ARG => "invalid argument"
  | JAYLINK_ERR_TIMEOUT => "timeout occurred"
  end%string.


(** A J-Link with an interface 1 before the interface 0, which has an IN
    endpoint 81, an OUT endpoint 01 and a second IN endpoint 82; every
    function of libusb succeeds on it. *)
Definition example_usb_device : libusb_device :=
  mk_libusb_device 1 5
    (LIBUSB_SUCCESS,
     mk_config [mk_interface 1 [mk_endpoint 131];
                mk_interface 0 [mk_endpoint 129; mk_endpoint 1; mk_endpoint 130]])
    LIBUSB_SUCCESS LIBUSB_SUCCESS LIBUSB_SUCCESS accepting_device.

(** The same device when its interface is claimed by another program. *)
Definition busy_usb_device : libusb_device :=
  mk_libusb_device 1 5 (active_config example_usb_device)
    LIBUSB_SUCCESS LIBUSB_ERROR_OTHER LIBUSB_SUCCESS accepting_device.

(** A handle before transport_open: nothing is held, and the fields
    transport_open sets hold whatever they hold. *)
Definition closed_handle (d : libusb_device) : Session.handle :=
  Session.mk_handle (Session.mk_device false d) 255 255 255
    (mk_devh [] no_device [] 7 7 7 7 7 []) [].

(** A device whose transfers on the IN endpoint time out, succeed without
    a byte and time out again, before one delivers a byte. *)
Definition idle_device : libusb_device_handle :=
  mk_usb [(LIBUSB_ERROR_TIMEOUT, []); (LIBUSB_SUCCESS, []);
          (LIBUSB_ERROR_TIMEOUT, []); (LIBUSB_SUCCESS, [x2a])] [] [].

(** A device that takes one byte with each transfer on the OUT endpoint
    and lets every other one of them time out. *)
Definition stuttering_device : libusb_device_handle :=
  mk_usb [] [(LIBUSB_ERROR_TIMEOUT, 1); (LIBUSB_SUCCESS, 1);
             (LIBUSB_ERROR_TIMEOUT, 1); (LIBUSB_SUCCESS, 1)] [].

(** A device whose next transfer fails without moving a byte, on either
    endpoint. *)
Definition failing_device : libusb_device_handle :=
  mk_usb [(LIBUSB_ERROR_IO, [])] [(LIBUSB_ERROR_IO, 0)] [].

(** A device that takes one byte with a successful transfer on the OUT
    endpoint and lets the next two time out, after one byte and after no
    byte. *)
Definition tiring_device : libusb_device_handle :=
  mk_usb [] [(LIBUSB_SUCCESS, 1); (LIBUSB_ERROR_TIMEOUT, 1);
             (LIBUSB_ERROR_TIMEOUT, 0)] [].

(** A device whose first transfer on the OUT endpoint times out after one
    byte and whose second one takes three bytes. *)
Definition hesitant_device : libusb_device_handle :=
  mk_usb [] [(LIBUSB_ERROR_TIMEOUT, 1); (LIBUSB_SUCCESS, 3)] [].

(** ** Properties the specification states and the code does not have *)

(** The content claim for writing as the specification has it, whatever
    the calls return: the bytes given to usb_send are the bytes given to
    transport_write. *)
Definition write_content_claim : Prop :=
  forall (devh0 : jaylink_device_handle) (n : Z) (has_command : bool)
         (calls : list (list byte)),
    handle_ok devh0 -> is_uint16 n -> 1 <= n ->
    Z.of_nat (List.length (List.concat calls)) = n ->
    staged_within 0 n calls = true ->
    bytes_sent devh0
      (snd (transport_writes (snd (transport_start_write devh0 n has_command)) calls))
    = List.concat calls.

(** The split claim for reading as the specification has it: the device
    delivers [n] bytes or more, in areas of a chunk at most, and the calls
    hand out the first [n] of them. *)
Definition read_split_claim : Prop :=
  forall (devh0 : jaylink_device_handle) (n : Z) (chunks calls : list (list byte)),
    handle_ok devh0 -> is_uint16 n -> 1 <= n ->
    in_pending (usb_devh devh0) = map ok_chunk chunks -> ok_chunks chunks ->
    n <= Z.of_nat (List.length (List.concat chunks)) ->
    Z.of_nat (List.length (List.concat calls)) = n ->
    exists rets bufs d',
      transport_reads (snd (transport_start_read devh0 n)) calls
        = Some (rets, bufs, d') /\
      List.concat bufs = firstn (Z.to_nat n) (List.concat chunks).

(** The flush as the specification has it, whatever the first usb_send
    returns: the block that ends at the chunk boundary is sent by one call
    and the bytes behind the boundary, if any, by a second one. *)
Definition flush_claim : Prop :=
  forall (devh : jaylink_device_handle) (buf : list byte) (length : Z),
    handle_ok devh -> length = write_length devh ->
    (Z.to_nat length <= List.length buf)%nat -> write_pos devh <> 0 ->
    let data := firstn (Z.to_nat length) buf in
    let fill := MIN length (CHUNK_SIZE - write_pos devh) in
    usb_send_calls (snd (transport_write devh buf length))
    = usb_send_calls devh
      ++ (firstn (Z.to_nat (write_pos devh)) (buffer devh)
          ++ firstn (Z.to_nat fill) data)
         :: (if fill <? length then [skipn (Z.to_nat fill) data] else []).

(** The reading of the retry policy in which usb_send, like usb_recv, takes
    a transfer that timed out after it moved [k] bytes, one at least, for a
    success and makes no further transfer. *)
Definition send_timeout_with_data_is_success : Prop :=
  forall (devh : jaylink_device_handle) (buf : list byte) (length k : Z)
         (rest : list (libusb_error * Z)),
    is_uint16 length -> 1 <= k <= MIN CHUNK_SIZE length ->
    out_pending (usb_devh devh) = (LIBUSB_ERROR_TIMEOUT, k) :: rest ->
    fst (usb_send devh buf length) = JAYLINK_OK /\
    out_pending (usb_devh (snd (usb_send devh buf length))) = rest.

(** The bound on the cursors of a write operation as the specification
    has it: staged and outstanding bytes together fit into the buffer. *)
Definition write_bound_claim : Prop :=
  forall (n : Z) (d : jaylink_device_handle),
    write_started n d -> write_pos d + write_length d <= BUFFER_SIZE.

(** * Properties *)

(** ** Arithmetic of the integer types *)

Lemma uint16_t_id (z : Z) : is_uint16 z -> uint16_t z = z.
Proof. unfold is_uint16, UINT16_MAX, uint16_t. intros H. apply Z.mod_small. lia. Qed.

Lemma MIN_spec (a b : Z) : MIN a b = Z.min a b.
Proof. unfold MIN. destruct (Z.ltb_spec a b); lia. Qed.

(** ** Arguments beyond the declared length (C5) and beyond the buffer (C10) *)

Lemma only_logged_log (lvl : log_level) (d : jaylink_device_handle) (fmt : string)
  (args : list log_arg) : only_logged d (log lvl d fmt args).
Proof. repeat split. Qed.

(** C5. In every state of the handle, transport_write with a length above
    write_length and transport_read with a length above
    read_length + bytes_available return JAYLINK_ERR_ARG; the handle
    differs from the one before the call by one logged error only: no
    transfer was made on the device, no cursor moved, the buffer and the
    area of the caller are as they were. *)
Theorem length_exceeded_is_arg_error (devh : jaylink_device_handle)
  (buf : list byte) (length : Z) :
  (write_length devh < length ->
   fst (transport_write devh buf length) = JAYLINK_ERR_ARG /\
   only_logged devh (snd (transport_write devh buf length))) /\
  (read_length devh + bytes_available devh < length ->
   exists devh',
     transport_read devh buf length = Some (JAYLINK_ERR_ARG, devh', buf) /\
     only_logged devh devh').
Proof.
  split; intros H.
  - unfold transport_write.
    destruct (Z.gtb_spec length (write_length devh)) as [_|Hn]; [|lia].
    split; [reflexivity|apply only_logged_log].
  - unfold transport_read.
    destruct (Z.gtb_spec length (read_length devh + bytes_available devh))
      as [_|Hn]; [|lia].
    eexists; split; [reflexivity|apply only_logged_log].
Qed.

Lemma length_exceeded_is_arg_error_witness :
  (write_length started_handle < 4 /\
   read_length started_handle + bytes_available started_handle < 6) /\
  fst (transport_write started_handle [x01; x02; x03; x04] 4) = JAYLINK_ERR_ARG /\
  exists devh',
    transport_read started_handle (repeat x00 6) 6
      = Some (JAYLINK_ERR_ARG, devh', repeat x00 6) /\
    only_logged started_handle devh'.
Proof.
  assert (Hw : write_length started_handle < 4) by (vm_compute; reflexivity).
  assert (Hr : read_length started_handle + bytes_available started_handle < 6)
    by (vm_compute; reflexivity).
  split; [split; assumption|].
  split.
  - exact (proj1 (proj1 (length_exceeded_is_arg_error started_handle
                           [x01; x02; x03; x04] 4) Hw)).
  - exact (proj2 (length_exceeded_is_arg_error started_handle (repeat x00 6) 6) Hr).
Defined.

(** C10. A call of transport_write that does not complete the operation
    (length below write_length) and whose bytes do not fit behind the
    staged ones (write_pos + length above BUFFER_SIZE) returns
    JAYLINK_ERR_ARG; only an error was logged, so no transfer was made and
    write_pos and write_length are as before.  transport_start_write
    itself accepts every nonzero length, whatever BUFFER_SIZE is. *)
Theorem buffered_write_overflow_is_arg_error (devh : jaylink_device_handle)
  (buf : list byte) (length : Z) :
  length < write_length devh ->
  BUFFER_SIZE < write_pos devh + length ->
  fst (transport_write devh buf length) = JAYLINK_ERR_ARG /\
  only_logged devh (snd (transport_write devh buf length)) /\
  write_pos (snd (transport_write devh buf length)) = write_pos devh /\
  write_length (snd (transport_write devh buf length)) = write_length devh /\
  (forall (d : jaylink_device_handle) (n : Z) (has_command : bool),
     n <> 0 ->
     fst (transport_start_write d n has_command) = JAYLINK_OK /\
     write_length (snd (transport_start_write d n has_command)) = n).
Proof.
  intros Hlt Hover. unfold transport_write.
  destruct (Z.gtb_spec length (write_length devh)) as [Hn|_]; [lia|].
  destruct (Z.ltb_spec length (write_length devh)) as [_|Hn]; [|lia].
  destruct (Z.gtb_spec (write_pos devh + length) BUFFER_SIZE) as [_|Hn]; [|lia].
  repeat split.
  - unfold transport_start_write.
    destruct (Z.eqb_spec n 0) as [Hn|_]; [contradiction|reflexivity].
  - unfold transport_start_write.
    destruct (Z.eqb_spec n 0) as [Hn|_]; [contradiction|reflexivity].
Qed.

Lemma buffered_write_overflow_is_arg_error_witness :
  (100 < write_length half_written_handle /\
   BUFFER_SIZE < write_pos half_written_handle + 100) /\
  fst (transport_write half_written_handle (repeat x02 100) 100) = JAYLINK_ERR_ARG /\
  write_pos (snd (transport_write half_written_handle (repeat x02 100) 100))
    = write_pos half_written_handle /\
  write_length (snd (transport_write half_written_handle (repeat x02 100) 100))
    = write_length half_written_handle.
Proof.
  assert (H1 : 100 < write_length half_written_handle) by (vm_compute; reflexivity).
  assert (H2 : BUFFER_SIZE < write_pos half_written_handle + 100)
    by (vm_compute; reflexivity).
  split; [split; assumption|].
  pose proof (buffered_write_overflow_is_arg_error half_written_handle
                (repeat x02 100) 100 H1 H2)
    as (Ha & _ & Hb & Hc & _).
  auto.
Defined.

(** ** Starting an operation over a stale state (C8) *)

Lemma logged_since_app (d d' : jaylink_device_handle) (es : list log_entry) :
  ctx d' = ctx d ++ es -> logged_since d d' = es.
Proof.
  intros H. unfold logged_since. rewrite H, skipn_app, skipn_all, Nat.sub_diag.
  reflexivity.
Qed.

(** One [let] of the goal at a time: its value gets a name. *)
Ltac name_let :=
  match goal with
  | |- context G [let x := ?v in @?f x] =>
      let d := fresh "d" in
      set (d := v);
      let g := context G [f d] in
      change g; cbv beta
  end.

Lemma only_logged_refl (d : jaylink_device_handle) : only_logged d d.
Proof. repeat split. Qed.

Lemma only_logged_trans (d1 d2 d3 : jaylink_device_handle) :
  only_logged d1 d2 -> only_logged d2 d3 -> only_logged d1 d3.
Proof.
  unfold only_logged. intros (A1 & A2 & A3 & A4) (B1 & B2 & B3 & B4).
  repeat split; congruence.
Qed.

Lemma only_logged_fields (d d' : jaylink_device_handle) :
  only_logged d d' ->
  read_length d' = read_length d /\ bytes_available d' = bytes_available d /\
  read_pos d' = read_pos d /\ write_length d' = write_length d /\
  write_pos d' = write_pos d.
Proof.
  unfold only_logged, framing. intros (_ & _ & H & _).
  injection H as -> -> -> -> ->. repeat split.
Qed.

(** The statement [if (x) log_warn(...)]. *)
Lemma warn_if_nonzero (x : Z) (d : jaylink_device_handle) (fmt : string)
  (args : list log_arg) :
  let d' := if x =? 0 then d else log_warn d fmt args in
  only_logged d d' /\
  ctx d' = ctx d ++ (if x =? 0 then [] else [mk_log LOG_LEVEL_WARNING fmt args]).
Proof.
  destruct (x =? 0); cbn zeta.
  - split; [apply only_logged_refl|now rewrite app_nil_r].
  - split; [apply only_logged_log|reflexivity].
Qed.

(** What is known of a handle named by [name_let] that is the result of
    [if (x) log_warn(...)]. *)
Ltac warn_steps :=
  repeat match goal with
         | dn := (if ?x =? 0 then ?d else log_warn ?d ?f ?a) |- _ =>
             let L := fresh "L" in
             let C := fresh "C" in
             destruct (warn_if_nonzero x d f a) as [L C];
             cbv zeta in L, C; fold dn in L, C; clearbody dn
         end.

Ltac use_only_logged :=
  repeat match goal with
         | H : only_logged ?a ?b, H' : only_logged ?b ?c |- _ =>
             lazymatch goal with
             | _ : only_logged a c |- _ => fail
             | _ => pose proof (only_logged_trans _ _ _ H H')
             end
         end.

Ltac in_solver :=
  first [ left; reflexivity
        | right; in_solver
        | apply in_or_app; left; in_solver
        | apply in_or_app; right; in_solver ].

(** A cursor [x] of the handle [devh] is nonzero ([Hs]) and the goal asks
    for a warning logged since [devh]: it is the warning about [x]. *)
Ltac show_warned devh Hs :=
  repeat match goal with
         | H : only_logged devh ?d |- _ =>
             let E := fresh "E" in
             pose proof (only_logged_fields _ _ H) as E; clear H;
             destruct E as (? & ? & ? & ? & ?)
         end;
  unfold warned, logged_since;
  repeat match goal with
         | H : ctx ?a = _ |- context [ctx ?a] => rewrite H
         end;
  rewrite <- ?app_assoc, skipn_app, skipn_all, Nat.sub_diag; cbn [skipn app];
  repeat match goal with
         | H : _ ?d = _ devh |- _ => rewrite H
         end;
  match type of Hs with
  | ?x <> 0 =>
      match goal with
      | |- context [if x =? 0 then [] else [?e]] =>
          exists e; rewrite (proj2 (Z.eqb_neq x 0) Hs);
          split; [in_solver|reflexivity]
      end
  end.

Lemma start_write_spec (devh : jaylink_device_handle) (w : Z) (has_command : bool) :
  w <> 0 ->
  exists d,
    transport_start_write devh w has_command
      = (JAYLINK_OK, set_write_pos (set_write_length d w) 0) /\
    only_logged devh d /\
    (write_pos devh <> 0 \/ write_length devh <> 0 -> warned devh d).
Proof.
  intros Hw. cbv beta delta [transport_start_write].
  rewrite (proj2 (Z.eqb_neq w 0) Hw).
  repeat name_let.
  assert (L0 : only_logged devh d) by apply only_logged_log.
  assert (C0 : ctx d = ctx devh ++ [mk_log LOG_LEVEL_DEBUG
    "Starting write operation (length = %u bytes)." [ArgU w]]) by reflexivity.
  clearbody d. warn_steps. use_only_logged.
  exists d1. split; [reflexivity|]. split; [assumption|].
  intros [Hs|Hs]; show_warned devh Hs.
Qed.

Lemma start_read_spec (devh : jaylink_device_handle) (r : Z) :
  r <> 0 ->
  exists d,
    transport_start_read devh r
      = (JAYLINK_OK, set_read_pos (set_bytes_available (set_read_length d r) 0) 0) /\
    only_logged devh d /\
    (bytes_available devh <> 0 \/ read_length devh <> 0 -> warned devh d).
Proof.
  intros Hr. cbv beta delta [transport_start_read].
  rewrite (proj2 (Z.eqb_neq r 0) Hr).
  repeat name_let.
  assert (L0 : only_logged devh d) by apply only_logged_log.
  assert (C0 : ctx d = ctx devh ++ [mk_log LOG_LEVEL_DEBUG
    "Starting read operation (length = %u bytes)." [ArgU r]]) by reflexivity.
  clearbody d. warn_steps. use_only_logged.
  exists d1. split; [reflexivity|]. split; [assumption|].
  intros [Hs|Hs]; show_warned devh Hs.
Qed.

Lemma start_write_read_spec (devh : jaylink_device_handle) (w r : Z)
  (has_command : bool) :
  w <> 0 -> r <> 0 ->
  exists d,
    transport_start_write_read devh w r has_command
      = (JAYLINK_OK,
         set_read_pos
           (set_bytes_available
              (set_read_length (set_write_pos (set_write_length d w) 0) r) 0) 0) /\
    only_logged devh d /\
    (write_pos devh <> 0 \/ write_length devh <> 0 \/
     bytes_available devh <> 0 \/ read_length devh <> 0 -> warned devh d).
Proof.
  intros Hw Hr. cbv beta delta [transport_start_write_read].
  rewrite (proj2 (Z.eqb_neq w 0) Hw), (proj2 (Z.eqb_neq r 0) Hr).
  cbv beta iota delta [orb].
  repeat name_let.
  assert (L0 : only_logged devh d) by apply only_logged_log.
  assert (C0 : ctx d = ctx devh ++ [mk_log LOG_LEVEL_DEBUG
    "Starting write / read operation (length = %u / %u bytes)."
    [ArgU w; ArgU r]]) by reflexivity.
  clearbody d. warn_steps. use_only_logged.
  exists d3. split; [reflexivity|]. split; [assumption|].
  intros [Hs|[Hs|[Hs|Hs]]]; show_warned devh Hs.
Qed.



(** ** Memory areas *)

Lemma length_memcpy (dst : list byte) (off : nat) (src : list byte) (n : nat) :
  (off + n <= List.length dst)%nat -> (n <= List.length src)%nat ->
  List.length (memcpy dst off src n) = List.length dst.
Proof.
  intros H1 H2. unfold memcpy.
  rewrite !length_app, !length_firstn, length_skipn. lia.
Qed.

Lemma firstn_memcpy (dst : list byte) (off : nat) (src : list byte) (n : nat) :
  (off <= List.length dst)%nat -> (n <= List.length src)%nat ->
  firstn (off + n) (memcpy dst off src n) = firstn off dst ++ firstn n src.
Proof.
  intros H1 H2. unfold memcpy.
  rewrite app_assoc.
  rewrite firstn_app.
  rewrite length_app, !length_firstn.
  replace (off + n - (Nat.min off (List.length dst) + Nat.min n (List.length src)))%nat
    with 0%nat by lia.
  rewrite firstn_O, app_nil_r.
  apply firstn_all2. rewrite length_app, !length_firstn. lia.
Qed.

Lemma memcpy_0_all (dst src : list byte) :
  (List.length src <= List.length dst)%nat ->
  memcpy dst 0 src (List.length src) = src ++ skipn (List.length src) dst.
Proof. intros H. unfold memcpy. cbn. now rewrite firstn_all. Qed.

(** ** Reading what is buffered (C9) *)

(** C9. On a well-formed handle, transport_read with a length of at most
    bytes_available returns JAYLINK_OK and copies the requested bytes from
    the buffer, starting at read_pos, to the area of the caller;
    bytes_available is lowered and read_pos is raised by the length; no
    transfer is made on the device and read_length, write_length,
    write_pos and the buffer are as before. *)
Theorem read_from_buffer (devh : jaylink_device_handle) (buf : list byte)
  (length : Z) :
  handle_ok devh ->
  0 <= length <= bytes_available devh ->
  exists devh' buf',
    transport_read devh buf length = Some (JAYLINK_OK, devh', buf') /\
    bytes_available devh' = bytes_available devh - length /\
    read_pos devh' = read_pos devh + length /\
    usb_devh devh' = usb_devh devh /\
    read_length devh' = read_length devh /\
    write_length devh' = write_length devh /\
    write_pos devh' = write_pos devh /\
    buffer devh' = buffer devh /\
    usb_send_calls devh' = usb_send_calls devh /\
    firstn (Z.to_nat length) buf'
      = firstn (Z.to_nat length) (skipn (Z.to_nat (read_pos devh)) (buffer devh)) /\
    skipn (Z.to_nat length) buf' = skipn (Z.to_nat length) buf.
Proof.
  intros Hok Hlen. destruct Hok. unfold is_uint16, UINT16_MAX, BUFFER_SIZE, CHUNK_SIZE in *.
  unfold transport_read.
  destruct (Z.gtb_spec length (read_length devh + bytes_available devh)); [lia|].
  destruct (Z.leb_spec length (bytes_available devh)); [|lia].
  eexists _, _. split; [reflexivity|].
  cbn [bytes_available read_pos usb_devh read_length write_length write_pos
       buffer usb_send_calls log_dbg log set_ctx set_read_pos set_bytes_available].
  rewrite !uint16_t_id by (unfold is_uint16, UINT16_MAX; lia).
  repeat match goal with |- _ /\ _ => split end; try reflexivity.
  - change (Z.to_nat length) with (0 + Z.to_nat length)%nat at 1.
    rewrite firstn_memcpy; [reflexivity|lia|].
    rewrite length_skipn. lia.
  - unfold memcpy. cbn [firstn app Nat.add].
    rewrite skipn_app, length_firstn, length_skipn.
    rewrite skipn_all2 by (rewrite length_firstn, length_skipn; lia).
    replace (Z.to_nat length - _)%nat with 0%nat by lia.
    reflexivity.
Qed.

Lemma buffered_handle_ok : handle_ok buffered_handle.
Proof.
  constructor; unfold is_uint16, UINT16_MAX, BUFFER_SIZE, CHUNK_SIZE;
    try (vm_compute; split; discriminate); vm_compute; try reflexivity;
    discriminate.
Qed.

Lemma read_from_buffer_witness :
  (handle_ok buffered_handle /\ 0 <= 3 <= bytes_available buffered_handle) /\
  exists devh' buf',
    transport_read buffered_handle [x00; x00; x00] 3
      = Some (JAYLINK_OK, devh', buf') /\
    bytes_available devh' = 0 /\ read_pos devh' = 5 /\
    usb_devh devh' = usb_devh buffered_handle /\
    buf' = [x0c; x0d; x0e].
Proof.
  assert (Hl : 0 <= 3 <= bytes_available buffered_handle)
    by (vm_compute; split; discriminate).
  split; [split; [exact buffered_handle_ok|exact Hl]|].
  destruct (read_from_buffer buffered_handle [x00; x00; x00] 3
              buffered_handle_ok Hl)
    as (devh' & buf' & E & A & B & C & _ & _ & _ & _ & _ & D & D').
  exists devh', buf'. split; [exact E|].
  split; [exact A|]. split; [exact B|]. split; [exact C|].
  vm_compute in E. injection E as _ E. symmetry. exact E.
Defined.

(** ** What a call of the backend changes *)

Lemma usb_send_loop_frame (pending : list (libusb_error * Z)) :
  forall (devh : jaylink_device_handle) (buf : list byte) (tries length : Z)
         (early : option jaylink_error) (devh' : jaylink_device_handle)
         (length' : Z),
    usb_send_loop pending devh buf tries length = (early, devh', length') ->
    sent devh devh' /\ usb_send_calls devh' = usb_send_calls devh.
Proof.
  induction pending as [|o pending IH]; intros devh buf tries length early devh' length';
    cbn [usb_send_loop]; destruct (negb (tries =? 0) && negb (length =? 0));
    try (intros [= <- <- <-]; repeat split).
  destruct (is_success (fst o)); [|destruct (is_timeout (fst o))].
  - intros H. apply IH in H. exact H.
  - intros H. apply IH in H. exact H.
  - intros [= <- <- <-]. repeat split.
Qed.

Lemma usb_send_frame (devh : jaylink_device_handle) (buf : list byte) (length : Z) :
  sent devh (snd (usb_send devh buf length)) /\
  usb_send_calls (snd (usb_send devh buf length))
    = usb_send_calls devh ++ [firstn (Z.to_nat length) buf].
Proof.
  unfold usb_send.
  match goal with
  | |- context [usb_send_loop ?p ?d ?b ?t ?l] =>
      destruct (usb_send_loop p d b t l) as [[early d'] l'] eqn:E
  end.
  apply usb_send_loop_frame in E. destruct E as [E1 E2].
  destruct early as [e|]; [|destruct (l' =? 0)]; cbn [snd]; split;
    try exact E1; try exact E2.
Qed.

Lemma usb_recv_loop_frame (pending : list (libusb_error * list byte)) :
  forall (devh : jaylink_device_handle) (buf : list byte) (off : nat)
         (tries transferred : Z) (early : option jaylink_error)
         (devh' : jaylink_device_handle) (buf' : list byte) (n : Z),
    usb_recv_loop pending devh buf off tries transferred = (early, devh', buf', n) ->
    exists rest, received devh devh' rest.
Proof.
  induction pending as [|o pending IH];
    intros devh buf off tries transferred early devh' buf' n;
    cbn [usb_recv_loop]; destruct (negb (tries =? 0) && (transferred =? 0));
    try (intros [= <- <- <- <-]; exists (in_pending (usb_devh devh));
         destruct devh as [c [pin pout tr] b rl ba rp wl wp sc]; repeat split).
  destruct (is_timeout (fst o)); [|destruct (negb (is_success (fst o)))].
  - intros H. apply IH in H. destruct H as (rest & A & B & C & D).
    exists rest. repeat split; assumption.
  - intros [= <- <- <- <-]. exists pending. repeat split.
  - intros H. apply IH in H. destruct H as (rest & A & B & C & D).
    exists rest. repeat split; assumption.
Qed.

Lemma usb_recv_frame (devh : jaylink_device_handle) (buf : list byte) (off : nat) :
  exists rest, received devh (snd (fst (fst (usb_recv devh buf off)))) rest.
Proof.
  unfold usb_recv.
  match goal with
  | |- context [usb_recv_loop ?p ?d ?b ?o ?t ?l] =>
      destruct (usb_recv_loop p d b o t l) as [[[early d'] b'] l'] eqn:E
  end.
  apply usb_recv_loop_frame in E. destruct E as (rest & E).
  exists rest.
  destruct early as [e|]; [|destruct (negb (l' =? 0))]; cbn [snd fst]; exact E.
Qed.

(** ** The retry policy of usb_recv and usb_send (C4) *)

Lemma usb_recv_loop_exit (pending : list (libusb_error * list byte))
  (devh : jaylink_device_handle) (buf : list byte) (off : nat)
  (tries transferred : Z) :
  tries = 0 \/ transferred <> 0 ->
  usb_recv_loop pending devh buf off tries transferred
    = (None, devh, buf, transferred).
Proof.
  intros H.
  assert (E : negb (tries =? 0) && (transferred =? 0) = false).
  { destruct H as [->|H]; [reflexivity|].
    apply Z.eqb_neq in H. rewrite H. apply andb_false_r. }
  destruct pending; cbn [usb_recv_loop]; rewrite E; reflexivity.
Qed.

Lemma usb_send_loop_exit (pending : list (libusb_error * Z))
  (devh : jaylink_device_handle) (buf : list byte) (tries length : Z) :
  tries = 0 \/ length = 0 ->
  usb_send_loop pending devh buf tries length = (None, devh, length).
Proof.
  intros H.
  assert (E : negb (tries =? 0) && negb (length =? 0) = false).
  { destruct H as [->| ->]; [reflexivity|]. apply andb_false_r. }
  destruct pending; cbn [usb_send_loop]; rewrite E; reflexivity.
Qed.

Lemma memcpy_nothing (buf : list byte) (off : nat) :
  memcpy buf off [] 0 = buf.
Proof.
  unfold memcpy. cbn [firstn app]. rewrite Nat.add_0_r. apply firstn_skipn.
Qed.

Lemma bulk_in_data_all (e : libusb_error) (data : list byte) :
  Z.of_nat (List.length data) <= CHUNK_SIZE ->
  bulk_in_data CHUNK_SIZE (e, data) = data.
Proof.
  intros H. unfold bulk_in_data. cbn [snd]. apply firstn_all2. lia.
Qed.

Lemma received_here (d : jaylink_device_handle)
  (rest : list (libusb_error * list byte)) (lvl : log_level) (fmt : string)
  (args : list log_arg) :
  received d (log lvl (set_usb_devh d (set_in_pending (usb_devh d) rest)) fmt args)
    rest.
Proof. repeat split. Qed.

Lemma received_trans (d1 d2 d3 : jaylink_device_handle)
  (r2 r3 : list (libusb_error * list byte)) :
  received d1 d2 r2 -> received d2 d3 r3 -> received d1 d3 r3.
Proof.
  unfold received. intros (A1 & A2 & A3 & A4) (B1 & B2 & B3 & B4).
  repeat split; try congruence.
  rewrite B1, A1. reflexivity.
Qed.

Lemma received_log (d d' : jaylink_device_handle)
  (rest : list (libusb_error * list byte)) (lvl : log_level) (fmt : string)
  (args : list log_arg) :
  received d d' rest -> received d (log lvl d' fmt args) rest.
Proof. intros (A1 & A2 & A3 & A4). repeat split; assumption. Qed.

(** usb_recv when the first transfer delivers [data], one byte at least,
    with LIBUSB_SUCCESS or with LIBUSB_ERROR_TIMEOUT. *)
Lemma usb_recv_data (devh : jaylink_device_handle) (buf : list byte) (off : nat)
  (e : libusb_error) (data : list byte) (rest : list (libusb_error * list byte)) :
  in_pending (usb_devh devh) = (e, data) :: rest ->
  is_success e || is_timeout e = true ->
  1 <= Z.of_nat (List.length data) <= CHUNK_SIZE ->
  exists devh',
    usb_recv devh buf off
      = (JAYLINK_OK, devh', memcpy buf off data (List.length data),
         Z.of_nat (List.length data)) /\
    received devh devh' rest.
Proof.
  intros Hp He Hd. unfold usb_recv. rewrite Hp.
  cbn [usb_recv_loop]. change (negb (NUM_TIMEOUTS =? 0) && (0 =? 0)) with true.
  cbv iota. cbv zeta. cbn [fst]. rewrite bulk_in_data_all by lia.
  assert (Hn : Z.of_nat (List.length data) <> 0) by lia.
  assert (Hu : uint16_t (Z.of_nat (List.length data)) = Z.of_nat (List.length data)).
  { apply uint16_t_id. unfold is_uint16, UINT16_MAX, CHUNK_SIZE in *. lia. }
  destruct e; try discriminate He; cbn [is_timeout is_success negb];
    rewrite usb_recv_loop_exit by (right; exact Hn);
    rewrite (proj2 (Z.eqb_neq _ _) Hn); cbn [negb]; rewrite Hu;
    eexists; (split; [reflexivity|apply received_here]).
Qed.

(** usb_recv when the first transfer times out without a byte: what is
    left is the loop with one try less. *)
Lemma usb_recv_timeout_once (devh : jaylink_device_handle) (buf : list byte)
  (off : nat) (rest : list (libusb_error * list byte)) :
  in_pending (usb_devh devh) = (LIBUSB_ERROR_TIMEOUT, []) :: rest ->
  exists d1,
    received devh d1 rest /\
    usb_recv_loop (in_pending (usb_devh devh)) devh buf off NUM_TIMEOUTS 0
      = usb_recv_loop rest d1 buf off 1 0.
Proof.
  intros Hp. rewrite Hp.
  cbn [usb_recv_loop]. change (negb (NUM_TIMEOUTS =? 0) && (0 =? 0)) with true.
  cbv iota. cbv zeta. cbn [fst is_timeout].
  unfold bulk_in_data. cbn [snd]. rewrite firstn_nil. cbn [List.length Z.of_nat].
  rewrite memcpy_nothing.
  eexists. split; [|reflexivity]. apply received_here.
Qed.

Lemma usb_recv_error (devh : jaylink_device_handle) (buf : list byte) (off : nat)
  (e : libusb_error) (data : list byte) (rest : list (libusb_error * list byte)) :
  in_pending (usb_devh devh) = (e, data) :: rest ->
  is_success e = false -> is_timeout e = false ->
  exists devh' buf',
    usb_recv devh buf off = (JAYLINK_ERR, devh', buf', 0) /\
    received devh devh' rest.
Proof.
  intros Hp Hs Ht. unfold usb_recv. rewrite Hp.
  cbn [usb_recv_loop]. change (negb (NUM_TIMEOUTS =? 0) && (0 =? 0)) with true.
  cbv iota. cbv zeta. cbn [fst]. rewrite Hs, Ht. cbn [negb].
  eexists _, _. split; [reflexivity|apply received_here].
Qed.

Lemma usb_recv_two_timeouts (devh : jaylink_device_handle) (buf : list byte)
  (off : nat) (rest : list (libusb_error * list byte)) :
  in_pending (usb_devh devh)
    = (LIBUSB_ERROR_TIMEOUT, []) :: (LIBUSB_ERROR_TIMEOUT, []) :: rest ->
  exists devh',
    usb_recv devh buf off = (JAYLINK_ERR_TIMEOUT, devh', buf, 0) /\
    received devh devh' rest.
Proof.
  intros Hp. unfold usb_recv.
  destruct (usb_recv_timeout_once devh buf off _ Hp) as (d1 & R1 & ->).
  cbn [usb_recv_loop]. change (negb (1 =? 0) && (0 =? 0)) with true.
  cbv iota. cbv zeta. cbn [fst is_timeout].
  unfold bulk_in_data. cbn [snd]. rewrite firstn_nil. cbn [List.length Z.of_nat].
  rewrite memcpy_nothing.
  rewrite usb_recv_loop_exit by (left; reflexivity).
  change (negb (0 =? 0)) with false. cbv iota.
  eexists. split; [reflexivity|].
  apply received_log. eapply received_trans; [exact R1|apply received_here].
Qed.

Lemma usb_recv_timeout_then_data (devh : jaylink_device_handle) (buf : list byte)
  (off : nat) (data : list byte) (rest : list (libusb_error * list byte)) :
  in_pending (usb_devh devh)
    = (LIBUSB_ERROR_TIMEOUT, []) :: (LIBUSB_ERROR_TIMEOUT, data) :: rest ->
  1 <= Z.of_nat (List.length data) <= CHUNK_SIZE ->
  exists devh',
    usb_recv devh buf off
      = (JAYLINK_OK, devh', memcpy buf off data (List.length data),
         Z.of_nat (List.length data)) /\
    received devh devh' rest.
Proof.
  intros Hp Hd. unfold usb_recv.
  destruct (usb_recv_timeout_once devh buf off _ Hp) as (d1 & R1 & ->).
  cbn [usb_recv_loop]. change (negb (1 =? 0) && (0 =? 0)) with true.
  cbv iota. cbv zeta. cbn [fst is_timeout]. rewrite bulk_in_data_all by lia.
  assert (Hn : Z.of_nat (List.length data) <> 0) by lia.
  assert (Hu : uint16_t (Z.of_nat (List.length data)) = Z.of_nat (List.length data)).
  { apply uint16_t_id. unfold is_uint16, UINT16_MAX, CHUNK_SIZE in *. lia. }
  rewrite usb_recv_loop_exit by (right; exact Hn).
  rewrite (proj2 (Z.eqb_neq _ _) Hn). cbn [negb]. rewrite Hu.
  eexists. split; [reflexivity|].
  eapply received_trans; [exact R1|apply received_here].
Qed.

(** One turn of the loop of usb_send. *)
Lemma usb_send_loop_turn (o : libusb_error * Z) (pending : list (libusb_error * Z))
  (devh : jaylink_device_handle) (buf : list byte) (tries length : Z) :
  tries <> 0 -> length <> 0 ->
  usb_send_loop (o :: pending) devh buf tries length =
    let req := MIN CHUNK_SIZE length in
    let transferred := bulk_out_count req o in
    let devh1 :=
      set_usb_devh devh
        (bulk_out (usb_devh devh) pending (firstn (Z.to_nat req) buf) transferred) in
    if is_success (fst o) then
      usb_send_loop pending
        (log_dbg devh1 "Sent %u bytes to device." [ArgU transferred])
        (skipn (Z.to_nat transferred) buf) NUM_TIMEOUTS
        (uint16_t (length - transferred))
    else if is_timeout (fst o) then
      usb_send_loop pending
        (log_dbg
           (log_warn devh1 "Failed to send data to device: %s."
              [ArgS (libusb_error_name (fst o))])
           "Sent %u bytes to device." [ArgU transferred])
        (skipn (Z.to_nat transferred) buf) (tries - 1)
        (uint16_t (length - transferred))
    else
      (Some JAYLINK_ERR,
       log_err devh1 "Failed to send data to device: %s."
         [ArgS (libusb_error_name (fst o))],
       length).
Proof.
  intros Ht Hl. cbn [usb_send_loop].
  rewrite (proj2 (Z.eqb_neq _ _) Ht), (proj2 (Z.eqb_neq _ _) Hl).
  reflexivity.
Qed.

Lemma bulk_out_count_id (req k : Z) (e : libusb_error) :
  0 <= k <= req -> bulk_out_count req (e, k) = k.
Proof. unfold bulk_out_count. cbn [snd]. lia. Qed.

Lemma usb_send_error (devh : jaylink_device_handle) (buf : list byte) (length : Z)
  (e : libusb_error) (k : Z) (rest : list (libusb_error * Z)) :
  out_pending (usb_devh devh) = (e, k) :: rest ->
  is_success e = false -> is_timeout e = false -> length <> 0 ->
  exists devh',
    usb_send devh buf length = (JAYLINK_ERR, devh') /\
    out_pending (usb_devh devh') = rest /\
    List.length (out_transfers (usb_devh devh'))
      = S (List.length (out_transfers (usb_devh devh))).
Proof.
  intros Hp Hs Ht Hl. unfold usb_send.
  cbn [usb_devh set_usb_send_calls]. rewrite Hp.
  rewrite usb_send_loop_turn by (try exact Hl; discriminate).
  cbv zeta. cbn [fst]. rewrite Hs, Ht.
  eexists. split; [reflexivity|].
  cbn. rewrite length_app. cbn. split; [reflexivity|lia].
Qed.

(** Two transfers in a row that time out and leave bytes unsent: usb_send
    gives up, whether the transfers moved bytes ([k1], [k2] above 0) or
    not. *)
Lemma usb_send_two_timeouts (devh : jaylink_device_handle) (buf : list byte)
  (length k1 k2 : Z) (rest : list (libusb_error * Z)) :
  out_pending (usb_devh devh)
    = (LIBUSB_ERROR_TIMEOUT, k1) :: (LIBUSB_ERROR_TIMEOUT, k2) :: rest ->
  is_uint16 length ->
  0 <= k1 <= CHUNK_SIZE -> 0 <= k2 <= CHUNK_SIZE -> k1 + k2 < length ->
  exists devh',
    usb_send devh buf length = (JAYLINK_ERR_TIMEOUT, devh') /\
    out_pending (usb_devh devh') = rest /\
    out_transfers (usb_devh devh')
      = out_transfers (usb_devh devh)
        ++ [(firstn (Z.to_nat (MIN CHUNK_SIZE length)) buf, k1);
            (firstn (Z.to_nat (MIN CHUNK_SIZE (length - k1)))
               (skipn (Z.to_nat k1) buf), k2)].
Proof.
  intros Hp Hu H1 H2 Hlt. unfold is_uint16, UINT16_MAX in Hu. unfold usb_send.
  cbn [usb_devh set_usb_send_calls]. rewrite Hp.
  rewrite usb_send_loop_turn by (try discriminate; lia).
  cbv zeta. cbn [fst is_success is_timeout].
  rewrite bulk_out_count_id by (rewrite MIN_spec; lia).
  rewrite (uint16_t_id (length - k1)) by (unfold is_uint16, UINT16_MAX; lia).
  rewrite usb_send_loop_turn by (try (cbv; discriminate); lia).
  cbv zeta. cbn [fst is_success is_timeout].
  rewrite bulk_out_count_id by (rewrite MIN_spec; lia).
  rewrite (uint16_t_id (length - k1 - k2)) by (unfold is_uint16, UINT16_MAX; lia).
  rewrite usb_send_loop_exit by (left; reflexivity).
  rewrite (proj2 (Z.eqb_neq (length - k1 - k2) 0)) by lia.
  eexists. split; [reflexivity|].
  cbn. rewrite <- app_assoc. split; reflexivity.
Qed.

(** A transfer that times out after it moved [k] of the bytes does not end
    usb_send: the next transfer offers the bytes behind them. *)
Lemma usb_send_timeout_then_rest (devh : jaylink_device_handle) (buf : list byte)
  (length k : Z) (rest : list (libusb_error * Z)) :
  out_pending (usb_devh devh)
    = (LIBUSB_ERROR_TIMEOUT, k) :: (LIBUSB_SUCCESS, length - k) :: rest ->
  is_uint16 length -> 0 <= k < length -> length <= CHUNK_SIZE ->
  exists devh',
    usb_send devh buf length = (JAYLINK_OK, devh') /\
    out_pending (usb_devh devh') = rest /\
    out_transfers (usb_devh devh')
      = out_transfers (usb_devh devh)
        ++ [(firstn (Z.to_nat length) buf, k);
            (firstn (Z.to_nat (length - k)) (skipn (Z.to_nat k) buf), length - k)].
Proof.
  intros Hp Hu Hk Hc. unfold is_uint16, UINT16_MAX in Hu. unfold usb_send.
  cbn [usb_devh set_usb_send_calls]. rewrite Hp.
  rewrite usb_send_loop_turn by (try discriminate; lia).
  cbv zeta. cbn [fst is_success is_timeout].
  rewrite bulk_out_count_id by (rewrite MIN_spec; lia).
  rewrite (uint16_t_id (length - k)) by (unfold is_uint16, UINT16_MAX; lia).
  rewrite usb_send_loop_turn by (try (cbv; discriminate); lia).
  cbv zeta. cbn [fst is_success is_timeout].
  rewrite bulk_out_count_id by (rewrite MIN_spec; lia).
  replace (length - k - (length - k)) with 0 by lia.
  change (uint16_t 0) with 0.
  rewrite usb_send_loop_exit by (right; reflexivity).
  change (0 =? 0) with true. cbv iota.
  eexists. split; [reflexivity|].
  cbn. rewrite <- app_assoc.
  rewrite !MIN_spec. rewrite !Z.min_r by lia. split; reflexivity.
Qed.

Lemma set_in_pending_same (u : libusb_device_handle) :
  set_in_pending u (in_pending u) = u.
Proof. destruct u. reflexivity. Qed.

Lemma timeouts_cons (A : Type) (o : libusb_error * A) (l : list (libusb_error * A)) :
  timeouts (o :: l) = (if is_timeout (fst o) then 1 else 0) + timeouts l.
Proof.
  unfold timeouts. cbn [filter]. destruct (is_timeout (fst o)); cbn [List.length]; lia.
Qed.

Lemma timeouts_nonneg (A : Type) (l : list (libusb_error * A)) : 0 <= timeouts l.
Proof. unfold timeouts. lia. Qed.

(** One turn of the loop of usb_recv. *)
Lemma usb_recv_loop_turn (o : libusb_error * list byte)
  (pending : list (libusb_error * list byte)) (devh : jaylink_device_handle)
  (buf : list byte) (off : nat) (tries : Z) :
  tries <> 0 ->
  usb_recv_loop (o :: pending) devh buf off tries 0 =
    let data := bulk_in_data CHUNK_SIZE o in
    let devh1 := set_usb_devh devh (set_in_pending (usb_devh devh) pending) in
    let buf1 := memcpy buf off data (List.length data) in
    let transferred := Z.of_nat (List.length data) in
    if is_timeout (fst o) then
      usb_recv_loop pending
        (log_warn devh1 "Failed to receive data from device: %s."
           [ArgS (libusb_error_name (fst o))])
        buf1 off (tries - 1) transferred
    else if negb (is_success (fst o)) then
      (Some JAYLINK_ERR,
       log_err devh1 "Failed to receive data from device: %s."
         [ArgS (libusb_error_name (fst o))],
       buf1, transferred)
    else
      usb_recv_loop pending
        (log_dbg devh1 "Received %u bytes from device." [ArgU transferred])
        buf1 off tries transferred.
Proof.
  intros Ht. cbn [usb_recv_loop].
  rewrite (proj2 (Z.eqb_neq _ _) Ht). reflexivity.
Qed.

(** Transfers that deliver nothing and do not fail leave usb_recv in its
    loop, as long as fewer of them time out than there are tries: each
    timeout takes a try, and no success gives one back. *)
Lemma usb_recv_loop_skip (skipped : list (libusb_error * list byte)) :
  forall (tail : list (libusb_error * list byte)) (devh : jaylink_device_handle)
         (buf : list byte) (off : nat) (tries : Z),
    Forall empty_transfer skipped ->
    in_pending (usb_devh devh) = skipped ++ tail ->
    timeouts skipped < tries ->
    exists d1,
      received devh d1 tail /\
      usb_recv_loop (skipped ++ tail) devh buf off tries 0
        = usb_recv_loop tail d1 buf off (tries - timeouts skipped) 0.
Proof.
  induction skipped as [|o skipped IH]; intros tail devh buf off tries He Hp Ht.
  - exists devh. cbn [app] in *. split.
    + unfold received. rewrite <- Hp, set_in_pending_same. repeat split.
    + unfold timeouts. cbn. now rewrite Z.sub_0_r.
  - inversion He as [|? ? [Hd Hs] He']; subst.
    rewrite timeouts_cons in Ht. pose proof (timeouts_nonneg _ skipped) as Hn.
    assert (Hdata : bulk_in_data CHUNK_SIZE o = []).
    { unfold bulk_in_data. rewrite Hd. apply firstn_nil. }
    cbn [app]. rewrite usb_recv_loop_turn by (destruct (is_timeout (fst o)); lia).
    cbv zeta. rewrite Hdata. cbn [List.length Z.of_nat]. rewrite memcpy_nothing.
    rewrite timeouts_cons.
    destruct (is_timeout (fst o)) eqn:Eto.
    + match goal with
      | |- context [usb_recv_loop _ ?d _ _ _ _] =>
          destruct (IH tail d buf off (tries - 1) He') as (d1 & R & E);
            [reflexivity|lia|]
      end.
      exists d1. split.
      * eapply received_trans; [apply received_here|exact R].
      * rewrite E. f_equal; lia.
    + rewrite orb_false_r in Hs. rewrite Hs. cbn [negb].
      match goal with
      | |- context [usb_recv_loop _ ?d _ _ _ _] =>
          destruct (IH tail d buf off tries He') as (d1 & R & E);
            [reflexivity|lia|]
      end.
      exists d1. split.
      * eapply received_trans; [apply received_here|exact R].
      * rewrite E. f_equal; lia.
Qed.

(** usb_recv comes to a transfer that fails: JAYLINK_ERR at once, whatever
    the transfer delivered. *)
Lemma usb_recv_skip_error (devh : jaylink_device_handle) (buf : list byte) (off : nat)
  (skipped : list (libusb_error * list byte)) (e : libusb_error) (data : list byte)
  (rest : list (libusb_error * list byte)) :
  in_pending (usb_devh devh) = skipped ++ (e, data) :: rest ->
  Forall empty_transfer skipped -> timeouts skipped < NUM_TIMEOUTS ->
  is_success e = false -> is_timeout e = false ->
  exists devh' buf',
    usb_recv devh buf off = (JAYLINK_ERR, devh', buf', 0) /\
    received devh devh' rest.
Proof.
  intros Hp He Ht Hs Hto. unfold usb_recv. rewrite Hp.
  destruct (usb_recv_loop_skip skipped _ devh buf off NUM_TIMEOUTS He Hp Ht)
    as (d1 & R & ->).
  rewrite usb_recv_loop_turn by lia.
  cbv zeta. cbn [fst]. rewrite Hs, Hto. cbn [negb].
  eexists _, _. split; [reflexivity|].
  eapply received_trans; [exact R|apply received_here].
Qed.

(** usb_recv comes to a transfer that delivers bytes, with success or with
    a timeout: JAYLINK_OK and their number, and no further transfer. *)
Lemma usb_recv_skip_data (devh : jaylink_device_handle) (buf : list byte) (off : nat)
  (skipped : list (libusb_error * list byte)) (e : libusb_error) (data : list byte)
  (rest : list (libusb_error * list byte)) :
  in_pending (usb_devh devh) = skipped ++ (e, data) :: rest ->
  Forall empty_transfer skipped -> timeouts skipped < NUM_TIMEOUTS ->
  is_success e || is_timeout e = true ->
  1 <= Z.of_nat (List.length data) <= CHUNK_SIZE ->
  exists devh',
    usb_recv devh buf off
      = (JAYLINK_OK, devh', memcpy buf off data (List.length data),
         Z.of_nat (List.length data)) /\
    received devh devh' rest.
Proof.
  intros Hp He Ht Hs Hd. unfold usb_recv. rewrite Hp.
  destruct (usb_recv_loop_skip skipped _ devh buf off NUM_TIMEOUTS He Hp Ht)
    as (d1 & R & ->).
  rewrite usb_recv_loop_turn by lia.
  cbv zeta. cbn [fst]. rewrite bulk_in_data_all by lia.
  assert (Hn : Z.of_nat (List.length data) <> 0) by lia.
  assert (Hu : uint16_t (Z.of_nat (List.length data)) = Z.of_nat (List.length data)).
  { apply uint16_t_id. unfold is_uint16, UINT16_MAX, CHUNK_SIZE in *. lia. }
  destruct e; try discriminate Hs; cbn [is_timeout is_success negb];
    rewrite usb_recv_loop_exit by (right; exact Hn);
    rewrite (proj2 (Z.eqb_neq _ _) Hn); cbn [negb]; rewrite Hu;
    eexists; (split; [reflexivity|]);
    (eapply received_trans; [exact R|apply received_here]).
Qed.

(** The second transfer that times out without a byte ends usb_recv,
    whatever empty transfers succeeded before it. *)
Lemma usb_recv_skip_timeout (devh : jaylink_device_handle) (buf : list byte)
  (off : nat) (skipped : list (libusb_error * list byte))
  (rest : list (libusb_error * list byte)) :
  in_pending (usb_devh devh) = skipped ++ (LIBUSB_ERROR_TIMEOUT, []) :: rest ->
  Forall empty_transfer skipped -> timeouts skipped = NUM_TIMEOUTS - 1 ->
  exists devh',
    usb_recv devh buf off = (JAYLINK_ERR_TIMEOUT, devh', buf, 0) /\
    received devh devh' rest.
Proof.
  intros Hp He Ht. unfold usb_recv. rewrite Hp.
  destruct (usb_recv_loop_skip skipped _ devh buf off NUM_TIMEOUTS He Hp)
    as (d1 & R & ->); [unfold NUM_TIMEOUTS in *; lia|].
  rewrite Ht. change (NUM_TIMEOUTS - (NUM_TIMEOUTS - 1)) with 1.
  rewrite usb_recv_loop_turn by lia.
  cbv zeta. cbn [fst is_timeout].
  unfold bulk_in_data. cbn [snd]. rewrite firstn_nil. cbn [List.length Z.of_nat].
  rewrite memcpy_nothing.
  rewrite usb_recv_loop_exit by (left; reflexivity).
  change (negb (0 =? 0)) with false. cbv iota.
  eexists. split; [reflexivity|].
  apply received_log. eapply received_trans; [exact R|apply received_here].
Qed.

Lemma moved_cons (o : libusb_error * Z) (l : list (libusb_error * Z)) :
  moved (o :: l) = snd o + moved l.
Proof. reflexivity. Qed.

Lemma moved_app (l1 l2 : list (libusb_error * Z)) :
  moved (l1 ++ l2) = moved l1 + moved l2.
Proof.
  induction l1 as [|o l1 IH]; [reflexivity|].
  cbn [app]. rewrite !moved_cons, IH. lia.
Qed.

Lemma moved_nonneg (l : list (libusb_error * Z)) : chunk_counts l -> 0 <= moved l.
Proof.
  induction 1 as [|o l Ho _ IH]; [reflexivity|]. rewrite moved_cons. lia.
Qed.

(** Transfers that do not fail, of which no two in a row time out and
    which leave bytes unsent, leave usb_send in its loop: a success gives
    the tries back, and after a timeout one try is left. *)
Lemma usb_send_loop_run (pre : list (libusb_error * Z)) :
  forall (tail : list (libusb_error * Z)) (devh : jaylink_device_handle)
         (buf : list byte) (tries length : Z),
    timeouts_apart pre = true -> chunk_counts pre ->
    is_uint16 length -> moved pre < length ->
    tries = NUM_TIMEOUTS
    \/ (tries = 1 /\ is_timeout (fst (hd (LIBUSB_SUCCESS, 0) pre)) = false) ->
    exists d1 b1,
      usb_send_loop (pre ++ tail) devh buf tries length
      = usb_send_loop tail d1 b1
          (match pre with
           | [] => tries
           | _ :: _ =>
               if is_timeout (fst (last pre (LIBUSB_SUCCESS, 0))) then 1
               else NUM_TIMEOUTS
           end)
          (length - moved pre).
Proof.
  induction pre as [|[e k] pre IH]; intros tail devh buf tries length Ha Hc Hu Hm Ht.
  - exists devh, buf. cbn [app]. unfold moved. cbn. now rewrite Z.sub_0_r.
  - inversion Hc as [|? ? Hk Hc']; subst. cbn [snd] in Hk.
    rewrite moved_cons in Hm. cbn [snd] in Hm.
    pose proof (moved_nonneg pre Hc') as Hn.
    cbn [timeouts_apart fst] in Ha.
    apply andb_prop in Ha. destruct Ha as [Ha Ha3].
    apply andb_prop in Ha. destruct Ha as [Ha1 Ha2].
    unfold is_uint16, UINT16_MAX in Hu.
    assert (Htries : tries <> 0) by (unfold NUM_TIMEOUTS in Ht; lia).
    cbn [app]. rewrite usb_send_loop_turn by (try exact Htries; lia).
    cbv zeta. cbn [fst].
    rewrite bulk_out_count_id by (rewrite MIN_spec; lia).
    rewrite (uint16_t_id (length - k)) by (unfold is_uint16, UINT16_MAX; lia).
    rewrite moved_cons. cbn [snd].
    replace (length - (k + moved pre)) with (length - k - moved pre) by lia.
    destruct (is_success e) eqn:Es.
    + assert (Eto : is_timeout e = false) by (destruct e; discriminate || reflexivity).
      match goal with
      | |- context [usb_send_loop (pre ++ tail) ?d ?b _ _] =>
          destruct (IH tail d b NUM_TIMEOUTS (length - k) Ha3 Hc') as (d1 & b1 & E);
            [unfold is_uint16, UINT16_MAX; lia|lia|left; reflexivity|]
      end.
      exists d1, b1. rewrite E. f_equal.
      destruct pre as [|o pre]; [cbn [last fst]; now rewrite Eto|reflexivity].
    + cbn [orb] in Ha1. rewrite Ha1.
      assert (Ht2 : tries = NUM_TIMEOUTS).
      { destruct Ht as [Ht|[_ Ht]]; [exact Ht|]. cbn [hd fst] in Ht. congruence. }
      assert (Hhd : is_timeout (fst (hd (LIBUSB_SUCCESS, 0) pre)) = false).
      { destruct pre as [|o pre]; [reflexivity|]. cbn [hd].
        rewrite Ha1 in Ha2. cbn [andb] in Ha2. now apply negb_true_iff in Ha2. }
      match goal with
      | |- context [usb_send_loop (pre ++ tail) ?d ?b _ _] =>
          destruct (IH tail d b (tries - 1) (length - k) Ha3 Hc') as (d1 & b1 & E);
            [unfold is_uint16, UINT16_MAX; lia|lia|
             right; split; [rewrite Ht2; reflexivity|exact Hhd]|]
      end.
      exists d1, b1. rewrite E. f_equal.
      destruct pre as [|o pre]; [cbn [last fst]; rewrite Ha1, Ht2; reflexivity|reflexivity].
Qed.

Lemma tries_left (pre : list (libusb_error * Z)) :
  match pre with
  | [] => NUM_TIMEOUTS
  | _ :: _ =>
      if is_timeout (fst (last pre (LIBUSB_SUCCESS, 0))) then 1 else NUM_TIMEOUTS
  end <> 0.
Proof.
  destruct pre; [discriminate|].
  destruct (is_timeout _); discriminate.
Qed.

(** usb_send comes to a transfer that fails: JAYLINK_ERR at once, whatever
    the transfer moved. *)
Lemma usb_send_run_error (devh : jaylink_device_handle) (buf : list byte) (length : Z)
  (pre : list (libusb_error * Z)) (e : libusb_error) (k : Z)
  (rest : list (libusb_error * Z)) :
  out_pending (usb_devh devh) = pre ++ (e, k) :: rest ->
  timeouts_apart pre = true -> chunk_counts pre ->
  is_uint16 length -> moved pre < length ->
  is_success e = false -> is_timeout e = false ->
  exists devh',
    usb_send devh buf length = (JAYLINK_ERR, devh') /\
    out_pending (usb_devh devh') = rest.
Proof.
  intros Hp Ha Hc Hu Hm Hs Hto. unfold usb_send.
  cbn [usb_devh set_usb_send_calls]. rewrite Hp.
  match goal with
  | |- context [usb_send_loop _ ?d ?b _ _] =>
      destruct (usb_send_loop_run pre ((e, k) :: rest) d b NUM_TIMEOUTS length
                  Ha Hc Hu Hm) as (d1 & b1 & ->); [left; reflexivity|]
  end.
  rewrite usb_send_loop_turn by (try apply tries_left; lia).
  cbv zeta. cbn [fst]. rewrite Hs, Hto.
  eexists. split; reflexivity.
Qed.

(** usb_send comes to two transfers in a row that time out and leave bytes
    unsent: JAYLINK_ERR_TIMEOUT, whether they moved bytes or not. *)
Lemma usb_send_run_timeouts (devh : jaylink_device_handle) (buf : list byte)
  (length : Z) (pre : list (libusb_error * Z)) (k1 k2 : Z)
  (rest : list (libusb_error * Z)) :
  out_pending (usb_devh devh)
    = pre ++ (LIBUSB_ERROR_TIMEOUT, k1) :: (LIBUSB_ERROR_TIMEOUT, k2) :: rest ->
  timeouts_apart (pre ++ [(LIBUSB_ERROR_TIMEOUT, k1)]) = true -> chunk_counts pre ->
  is_uint16 length ->
  0 <= k1 <= CHUNK_SIZE -> 0 <= k2 <= CHUNK_SIZE ->
  moved pre + k1 + k2 < length ->
  exists devh',
    usb_send devh buf length = (JAYLINK_ERR_TIMEOUT, devh') /\
    out_pending (usb_devh devh') = rest.
Proof.
  intros Hp Ha Hc Hu H1 H2 Hm. unfold usb_send.
  cbn [usb_devh set_usb_send_calls]. rewrite Hp.
  change (pre ++ (LIBUSB_ERROR_TIMEOUT, k1) :: (LIBUSB_ERROR_TIMEOUT, k2) :: rest)
    with (pre ++ [(LIBUSB_ERROR_TIMEOUT, k1)] ++ (LIBUSB_ERROR_TIMEOUT, k2) :: rest).
  rewrite app_assoc.
  assert (Hc' : chunk_counts (pre ++ [(LIBUSB_ERROR_TIMEOUT, k1)])).
  { apply Forall_app. split; [exact Hc|]. constructor; [exact H1|constructor]. }
  assert (Hm' : moved (pre ++ [(LIBUSB_ERROR_TIMEOUT, k1)]) = moved pre + k1).
  { rewrite moved_app. unfold moved at 2. cbn. lia. }
  match goal with
  | |- context [usb_send_loop _ ?d ?b _ _] =>
      destruct (usb_send_loop_run (pre ++ [(LIBUSB_ERROR_TIMEOUT, k1)])
                  ((LIBUSB_ERROR_TIMEOUT, k2) :: rest) d b NUM_TIMEOUTS length
                  Ha Hc' Hu) as (d1 & b1 & ->); [lia|left; reflexivity|]
  end.
  assert (Et : match pre ++ [(LIBUSB_ERROR_TIMEOUT, k1)] with
               | [] => NUM_TIMEOUTS
               | _ :: _ =>
                   if is_timeout
                        (fst (last (pre ++ [(LIBUSB_ERROR_TIMEOUT, k1)])
                                (LIBUSB_SUCCESS, 0)))
                   then 1 else NUM_TIMEOUTS
               end = 1).
  { rewrite last_last. destruct pre; reflexivity. }
  rewrite Et, Hm'. pose proof (moved_nonneg pre Hc) as Hn.
  unfold is_uint16, UINT16_MAX in Hu.
  rewrite usb_send_loop_turn by (try discriminate; lia).
  cbv zeta. cbn [fst is_success is_timeout].
  rewrite bulk_out_count_id by (rewrite MIN_spec; lia).
  rewrite (uint16_t_id (length - (moved pre + k1) - k2))
    by (unfold is_uint16, UINT16_MAX; lia).
  rewrite usb_send_loop_exit by (left; reflexivity).
  rewrite (proj2 (Z.eqb_neq (length - (moved pre + k1) - k2) 0)) by lia.
  eexists. split; reflexivity.
Qed.

(** usb_send comes to a transfer that takes the bytes that are left, with
    success or with a timeout: JAYLINK_OK. *)
Lemma usb_send_run_done (devh : jaylink_device_handle) (buf : list byte) (length : Z)
  (pre : list (libusb_error * Z)) (e : libusb_error) (k : Z)
  (rest : list (libusb_error * Z)) :
  out_pending (usb_devh devh) = pre ++ (e, k) :: rest ->
  timeouts_apart pre = true -> chunk_counts pre ->
  is_uint16 length -> moved pre < length ->
  is_success e || is_timeout e = true ->
  length - moved pre <= CHUNK_SIZE -> length - moved pre <= k ->
  exists devh',
    usb_send devh buf length = (JAYLINK_OK, devh') /\
    out_pending (usb_devh devh') = rest.
Proof.
  intros Hp Ha Hc Hu Hm Hs Hr Hk. unfold usb_send.
  cbn [usb_devh set_usb_send_calls]. rewrite Hp.
  match goal with
  | |- context [usb_send_loop _ ?d ?b _ _] =>
      destruct (usb_send_loop_run pre ((e, k) :: rest) d b NUM_TIMEOUTS length
                  Ha Hc Hu Hm) as (d1 & b1 & ->); [left; reflexivity|]
  end.
  rewrite usb_send_loop_turn by (try apply tries_left; lia).
  cbv zeta. cbn [fst].
  assert (Hb : bulk_out_count (MIN CHUNK_SIZE (length - moved pre)) (e, k)
               = length - moved pre).
  { unfold bulk_out_count. cbn [snd]. rewrite MIN_spec. lia. }
  rewrite Hb, Z.sub_diag. change (uint16_t 0) with 0.
  destruct e; try discriminate Hs; cbn [is_success is_timeout];
    rewrite usb_send_loop_exit by (right; reflexivity);
    change (0 =? 0) with true; cbv iota;
    eexists; split; reflexivity.
Qed.

(** C4, as the code has it.  usb_recv: transfers that deliver no byte,
    with success or with a timeout, are followed by another transfer, and
    the second one of them that times out gives JAYLINK_ERR_TIMEOUT, also
    when empty transfers succeeded between the two: no success gives a try
    back.  A transfer that delivers bytes, with success or with a timeout,
    gives JAYLINK_OK with their number and no further transfer.  A failure
    other than a timeout gives JAYLINK_ERR at once, whatever was
    delivered.  usb_send: a success gives the tries back, so that only two
    transfers in a row that time out and leave bytes unsent give
    JAYLINK_ERR_TIMEOUT, whether they moved bytes or not.  A failure other
    than a timeout gives JAYLINK_ERR at once, whatever was moved.  A
    transfer that times out after it moved some of the bytes is followed
    by a transfer of the bytes behind them, and JAYLINK_OK is returned once
    a transfer, successful or timed out, has taken the last byte. *)
Theorem timeout_retry_policy (devh : jaylink_device_handle) (buf : list byte)
  (off : nat) :
  (forall (skipped rest : list (libusb_error * list byte)),
     in_pending (usb_devh devh) = skipped ++ (LIBUSB_ERROR_TIMEOUT, []) :: rest ->
     Forall empty_transfer skipped -> timeouts skipped = NUM_TIMEOUTS - 1 ->
     exists devh',
       usb_recv devh buf off = (JAYLINK_ERR_TIMEOUT, devh', buf, 0) /\
       received devh devh' rest) /\
  (forall (skipped rest : list (libusb_error * list byte)) (e : libusb_error)
          (data : list byte),
     in_pending (usb_devh devh) = skipped ++ (e, data) :: rest ->
     Forall empty_transfer skipped -> timeouts skipped < NUM_TIMEOUTS ->
     is_success e || is_timeout e = true ->
     1 <= Z.of_nat (List.length data) <= CHUNK_SIZE ->
     exists devh',
       usb_recv devh buf off
         = (JAYLINK_OK, devh', memcpy buf off data (List.length data),
            Z.of_nat (List.length data)) /\
       received devh devh' rest) /\
  (forall (skipped rest : list (libusb_error * list byte)) (e : libusb_error)
          (data : list byte),
     in_pending (usb_devh devh) = skipped ++ (e, data) :: rest ->
     Forall empty_transfer skipped -> timeouts skipped < NUM_TIMEOUTS ->
     is_success e = false -> is_timeout e = false ->
     exists devh' buf',
       usb_recv devh buf off = (JAYLINK_ERR, devh', buf', 0) /\
       received devh devh' rest) /\
  (forall (length : Z) (pre rest : list (libusb_error * Z)) (k1 k2 : Z),
     out_pending (usb_devh devh)
       = pre ++ (LIBUSB_ERROR_TIMEOUT, k1) :: (LIBUSB_ERROR_TIMEOUT, k2) :: rest ->
     timeouts_apart (pre ++ [(LIBUSB_ERROR_TIMEOUT, k1)]) = true ->
     chunk_counts pre -> is_uint16 length ->
     0 <= k1 <= CHUNK_SIZE -> 0 <= k2 <= CHUNK_SIZE ->
     moved pre + k1 + k2 < length ->
     exists devh',
       usb_send devh buf length = (JAYLINK_ERR_TIMEOUT, devh') /\
       out_pending (usb_devh devh') = rest) /\
  (forall (length : Z) (pre rest : list (libusb_error * Z)) (e : libusb_error)
          (k : Z),
     out_pending (usb_devh devh) = pre ++ (e, k) :: rest ->
     timeouts_apart pre = true -> chunk_counts pre ->
     is_uint16 length -> moved pre < length ->
     is_success e = false -> is_timeout e = false ->
     exists devh',
       usb_send devh buf length = (JAYLINK_ERR, devh') /\
       out_pending (usb_devh devh') = rest) /\
  (forall (length : Z) (pre rest : list (libusb_error * Z)) (e : libusb_error)
          (k : Z),
     out_pending (usb_devh devh) = pre ++ (e, k) :: rest ->
     timeouts_apart pre = true -> chunk_counts pre ->
     is_uint16 length -> moved pre < length ->
     is_success e || is_timeout e = true ->
     length - moved pre <= CHUNK_SIZE -> length - moved pre <= k ->
     exists devh',
       usb_send devh buf length = (JAYLINK_OK, devh') /\
       out_pending (usb_devh devh') = rest) /\
  (forall (length j1 j2 : Z) (rest : list (libusb_error * Z)),
     out_pending (usb_devh devh)
       = (LIBUSB_ERROR_TIMEOUT, j1) :: (LIBUSB_ERROR_TIMEOUT, j2) :: rest ->
     is_uint16 length ->
     0 <= j1 <= CHUNK_SIZE -> 0 <= j2 <= CHUNK_SIZE -> j1 + j2 < length ->
     exists devh',
       usb_send devh buf length = (JAYLINK_ERR_TIMEOUT, devh') /\
       out_pending (usb_devh devh') = rest /\
       out_transfers (usb_devh devh')
         = out_transfers (usb_devh devh)
           ++ [(firstn (Z.to_nat (MIN CHUNK_SIZE length)) buf, j1);
               (firstn (Z.to_nat (MIN CHUNK_SIZE (length - j1)))
                  (skipn (Z.to_nat j1) buf), j2)]) /\
  (forall (length k : Z) (rest : list (libusb_error * Z)),
     out_pending (usb_devh devh)
       = (LIBUSB_ERROR_TIMEOUT, k) :: (LIBUSB_SUCCESS, length - k) :: rest ->
     is_uint16 length -> 0 <= k < length -> length <= CHUNK_SIZE ->
     exists devh',
       usb_send devh buf length = (JAYLINK_OK, devh') /\
       out_pending (usb_devh devh') = rest /\
       out_transfers (usb_devh devh')
         = out_transfers (usb_devh devh)
           ++ [(firstn (Z.to_nat length) buf, k);
               (firstn (Z.to_nat (length - k)) (skipn (Z.to_nat k) buf),
                length - k)]).
Proof.
  repeat match goal with |- _ /\ _ => split end; intros.
  - eapply usb_recv_skip_timeout; eassumption.
  - eapply usb_recv_skip_data; eassumption.
  - eapply usb_recv_skip_error; eassumption.
  - eapply usb_send_run_timeouts; eassumption.
  - eapply usb_send_run_error; eassumption.
  - eapply usb_send_run_done; eassumption.
  - apply usb_send_two_timeouts; assumption.
  - apply usb_send_timeout_then_rest; assumption.
Qed.

Lemma timeout_retry_policy_witness :
  (exists devh',
     usb_recv (fresh_handle idle_device) [x00; x00] 0%nat
       = (JAYLINK_ERR_TIMEOUT, devh', [x00; x00], 0) /\
     received (fresh_handle idle_device) devh' [(LIBUSB_SUCCESS, [x2a])]) /\
  (exists devh',
     usb_recv (fresh_handle late_device) [x00; x00] 0%nat
       = (JAYLINK_OK, devh', [x2a; x00], 1)) /\
  (exists devh' buf',
     usb_recv (fresh_handle failing_device) [x00; x00] 0%nat
       = (JAYLINK_ERR, devh', buf', 0)) /\
  (exists devh',
     usb_send (fresh_handle stuttering_device) [x01; x02; x03; x04] 4
       = (JAYLINK_OK, devh') /\
     out_pending (usb_devh devh') = []) /\
  (exists devh',
     usb_send (fresh_handle failing_device) [x01; x02; x03; x04] 4
       = (JAYLINK_ERR, devh')) /\
  (exists devh',
     usb_send (fresh_handle slow_device) [x01; x02; x03; x04] 4
       = (JAYLINK_ERR_TIMEOUT, devh') /\
     out_transfers (usb_devh devh')
       = [([x01; x02; x03; x04], 1); ([x02; x03; x04], 1)]) /\
  (exists devh',
     usb_send (fresh_handle tiring_device) [x01; x02; x03; x04] 4
       = (JAYLINK_ERR_TIMEOUT, devh') /\
     out_pending (usb_devh devh') = []) /\
  (exists devh',
     usb_send (fresh_handle hesitant_device) [x01; x02; x03; x04] 4
       = (JAYLINK_OK, devh') /\
     out_transfers (usb_devh devh')
       = [([x01; x02; x03; x04], 1); ([x02; x03; x04], 3)]).
Proof.
  assert (Hu : is_uint16 4) by (vm_compute; split; discriminate).
  assert (H0 : 0 <= 0 <= CHUNK_SIZE) by (vm_compute; split; discriminate).
  assert (H1 : 0 <= 1 <= CHUNK_SIZE) by (vm_compute; split; discriminate).
  assert (Hd : 1 <= Z.of_nat (List.length [x2a]) <= CHUNK_SIZE)
    by (vm_compute; split; discriminate).
  split; [|split; [|split; [|split; [|split; [|split; [|split]]]]]].
  - destruct (timeout_retry_policy (fresh_handle idle_device) [x00; x00] 0%nat)
      as (A & _).
    apply (A [(LIBUSB_ERROR_TIMEOUT, []); (LIBUSB_SUCCESS, [])]
             [(LIBUSB_SUCCESS, [x2a])]).
    + reflexivity.
    + repeat constructor.
    + reflexivity.
  - destruct (timeout_retry_policy (fresh_handle late_device) [x00; x00] 0%nat)
      as (_ & A & _).
    destruct (A [] [] LIBUSB_ERROR_TIMEOUT [x2a]) as (devh' & E & _).
    + reflexivity.
    + constructor.
    + reflexivity.
    + reflexivity.
    + exact Hd.
    + exists devh'. exact E.
  - destruct (timeout_retry_policy (fresh_handle failing_device) [x00; x00] 0%nat)
      as (_ & _ & A & _).
    destruct (A [] [] LIBUSB_ERROR_IO []) as (devh' & buf' & E & _).
    + reflexivity.
    + constructor.
    + reflexivity.
    + reflexivity.
    + reflexivity.
    + exists devh', buf'. exact E.
  - destruct (timeout_retry_policy (fresh_handle stuttering_device)
                [x01; x02; x03; x04] 0%nat) as (_ & _ & _ & _ & _ & A & _).
    apply (A 4 [(LIBUSB_ERROR_TIMEOUT, 1); (LIBUSB_SUCCESS, 1);
                (LIBUSB_ERROR_TIMEOUT, 1)] [] LIBUSB_SUCCESS 1).
    + reflexivity.
    + reflexivity.
    + repeat constructor; vm_compute; discriminate.
    + exact Hu.
    + vm_compute. reflexivity.
    + reflexivity.
    + vm_compute. discriminate.
    + vm_compute. discriminate.
  - destruct (timeout_retry_policy (fresh_handle failing_device)
                [x01; x02; x03; x04] 0%nat) as (_ & _ & _ & _ & A & _).
    destruct (A 4 [] [] LIBUSB_ERROR_IO 0) as (devh' & E & _).
    + reflexivity.
    + reflexivity.
    + constructor.
    + exact Hu.
    + vm_compute. reflexivity.
    + reflexivity.
    + reflexivity.
    + exists devh'. exact E.
  - destruct (timeout_retry_policy (fresh_handle slow_device)
                [x01; x02; x03; x04] 0%nat) as (_ & _ & _ & _ & _ & _ & A & _).
    destruct (A 4 1 1 []) as (devh' & E & _ & T).
    + reflexivity.
    + exact Hu.
    + exact H1.
    + exact H1.
    + lia.
    + exists devh'. split; [exact E|exact T].
  - destruct (timeout_retry_policy (fresh_handle tiring_device)
                [x01; x02; x03; x04] 0%nat) as (_ & _ & _ & A & _).
    apply (A 4 [(LIBUSB_SUCCESS, 1)] [] 1 0).
    + reflexivity.
    + reflexivity.
    + repeat constructor; vm_compute; discriminate.
    + exact Hu.
    + exact H1.
    + exact H0.
    + vm_compute. reflexivity.
  - destruct (timeout_retry_policy (fresh_handle hesitant_device)
                [x01; x02; x03; x04] 0%nat) as (_ & _ & _ & _ & _ & _ & _ & A).
    destruct (A 4 1 []) as (devh' & E & _ & T).
    + reflexivity.
    + exact Hu.
    + lia.
    + vm_compute. discriminate.
    + exists devh'. split; [exact E|exact T].
Defined.

(** usb_send on four bytes, with a device that lets two transfers in a row
    time out after one byte each: JAYLINK_ERR_TIMEOUT after the second
    transfer, although each of the two moved a byte. *)
Lemma send_timeout_with_data_is_retried :
  fst (usb_send (fresh_handle slow_device) [x01; x02; x03; x04] 4)
    = JAYLINK_ERR_TIMEOUT /\
  out_pending
    (usb_devh (snd (usb_send (fresh_handle slow_device) [x01; x02; x03; x04] 4)))
    = [] /\
  ~ send_timeout_with_data_is_success.
Proof.
  split; [vm_compute; reflexivity|]. split; [vm_compute; reflexivity|].
  intros H.
  destruct (H (fresh_handle slow_device) [x01; x02; x03; x04] 4 1
              [(LIBUSB_ERROR_TIMEOUT, 1)]) as [E _].
  - vm_compute. split; discriminate.
  - vm_compute. split; discriminate.
  - reflexivity.
  - vm_compute in E. discriminate E.
Qed.

(** ** The three ways of transport_write *)

Lemma sent_fields (d d' : jaylink_device_handle) :
  sent d d' ->
  read_length d' = read_length d /\ bytes_available d' = bytes_available d /\
  read_pos d' = read_pos d /\ write_length d' = write_length d /\
  write_pos d' = write_pos d.
Proof.
  unfold sent, framing. intros (_ & _ & H).
  injection H as -> -> -> -> ->. repeat split.
Qed.

(** The call stores its bytes behind the staged ones. *)
Lemma transport_write_buffered (devh : jaylink_device_handle) (buf : list byte)
  (length : Z) :
  0 <= length < write_length devh -> is_uint16 (write_length devh) ->
  0 <= write_pos devh -> write_pos devh + length <= BUFFER_SIZE ->
  transport_write devh buf length
    = (JAYLINK_OK,
       log_dbg
         (set_write_pos
            (set_write_length
               (set_buffer devh
                  (memcpy (buffer devh) (Z.to_nat (write_pos devh)) buf
                     (Z.to_nat length)))
               (write_length devh - length))
            (write_pos devh + length))
         "Wrote %u bytes into buffer." [ArgU length]).
Proof.
  intros Hl Hu Hp Hb. unfold is_uint16, UINT16_MAX, BUFFER_SIZE, CHUNK_SIZE in *.
  unfold transport_write.
  destruct (Z.gtb_spec length (write_length devh)); [lia|].
  destruct (Z.ltb_spec length (write_length devh)); [|lia].
  destruct (Z.gtb_spec (write_pos devh + length) BUFFER_SIZE);
    [unfold BUFFER_SIZE, CHUNK_SIZE in *; lia|].
  cbv zeta. cbn [write_length write_pos set_buffer set_write_length].
  rewrite !uint16_t_id by (unfold is_uint16, UINT16_MAX; lia).
  reflexivity.
Qed.

(** The call completes the operation and nothing is staged. *)
Lemma transport_write_direct (devh : jaylink_device_handle) (buf : list byte)
  (length : Z) :
  length = write_length devh -> write_pos devh = 0 ->
  transport_write devh buf length = usb_send (set_write_length devh 0) buf length.
Proof.
  intros Hl Hp. unfold transport_write.
  destruct (Z.gtb_spec length (write_length devh)); [lia|].
  destruct (Z.ltb_spec length (write_length devh)); [lia|].
  cbv zeta. cbn [write_pos set_write_length]. rewrite Hp. reflexivity.
Qed.

Lemma num_chunks_one (p : Z) :
  1 <= p <= CHUNK_SIZE ->
  (if p mod CHUNK_SIZE =? 0 then uint8_t (p / CHUNK_SIZE)
   else uint8_t (uint8_t (p / CHUNK_SIZE) + 1)) = 1.
Proof.
  unfold CHUNK_SIZE. intros H.
  destruct (Z.eq_dec p 2048) as [->|Hne]; [reflexivity|].
  rewrite Z.mod_small, Z.div_small by lia.
  destruct (Z.eqb_spec p 0); [lia|reflexivity].
Qed.

(** The call completes the operation and [write_pos] bytes are staged:
    the buffer is filled up to the chunk boundary and sent; the bytes of
    the caller that did not go into the buffer are sent next, if the first
    usb_send returned JAYLINK_OK. *)
Lemma transport_write_flush (devh : jaylink_device_handle) (buf : list byte)
  (length : Z) :
  length = write_length devh -> is_uint16 length ->
  1 <= write_pos devh <= BUFFER_SIZE ->
  let fill := MIN length (CHUNK_SIZE - write_pos devh) in
  exists d1,
    only_logged (set_write_length devh 0)
      (set_buffer d1 (buffer devh)) /\
    buffer d1
      = memcpy (buffer devh) (Z.to_nat (write_pos devh)) buf (Z.to_nat fill) /\
    transport_write devh buf length =
      (let r := usb_send d1 (buffer d1) (write_pos devh + fill) in
       match fst r with
       | JAYLINK_OK =>
           if length - fill =? 0 then (JAYLINK_OK, set_write_pos (snd r) 0)
           else usb_send (set_write_pos (snd r) 0) (skipn (Z.to_nat fill) buf)
                  (length - fill)
       | e => (e, set_write_pos (snd r) 0)
       end).
Proof.
  intros Hl Hu Hp fill.
  unfold is_uint16, UINT16_MAX, BUFFER_SIZE in *.
  assert (Hf : 0 <= fill <= length /\ fill <= CHUNK_SIZE - write_pos devh).
  { unfold fill. rewrite MIN_spec. unfold CHUNK_SIZE in *. lia. }
  unfold transport_write.
  destruct (Z.gtb_spec length (write_length devh)); [lia|].
  destruct (Z.ltb_spec length (write_length devh)); [lia|].
  cbv zeta. cbn [write_pos set_write_length].
  destruct (Z.eqb_spec (write_pos devh) 0); [lia|].
  rewrite (num_chunks_one (write_pos devh)) by lia.
  rewrite Z.mul_1_l.
  rewrite (uint16_t_id (CHUNK_SIZE - write_pos devh))
    by (unfold is_uint16, UINT16_MAX, CHUNK_SIZE in *; lia).
  fold fill.
  destruct (Z.eqb_spec fill 0) as [Hz|Hz].
  - exists (set_write_length devh 0).
    split; [destruct devh; repeat split|].
    split.
    { cbn [buffer set_write_length]. rewrite Hz. change (Z.to_nat 0) with 0%nat.
      unfold memcpy. cbn [firstn app]. rewrite Nat.add_0_r.
      symmetry. apply firstn_skipn. }
    cbn [write_pos set_write_length buffer].
    rewrite !uint16_t_id by (unfold is_uint16, UINT16_MAX, CHUNK_SIZE in *; lia).
    rewrite Hz, Z.sub_0_r. change (Z.to_nat 0) with 0%nat. cbn [skipn].
    destruct (usb_send (set_write_length devh 0) (buffer devh) (write_pos devh + 0))
      as [ret d2].
    cbn [fst snd]. destruct ret; reflexivity.
  - eexists (log_dbg (set_buffer (set_write_length devh 0) _)
               "Buffer filled up with %u bytes." [ArgU fill]).
    split; [destruct devh; repeat split|].
    split; [reflexivity|].
    cbn [write_pos set_write_length buffer log_dbg log set_ctx set_buffer].
    rewrite !uint16_t_id by (unfold is_uint16, UINT16_MAX, CHUNK_SIZE in *; lia).
    match goal with
    | |- context [usb_send ?d ?b ?l] => destruct (usb_send d b l) as [ret d2]
    end.
    cbn [fst snd]. destruct ret; reflexivity.
Qed.

(** ** The cursors of a write operation (C6) *)

Lemma transport_write_cursors (devh : jaylink_device_handle) (buf : list byte)
  (length n : Z) :
  is_uint16 length -> is_uint16 n ->
  (write_pos devh = 0 /\ write_length devh = 0) \/
  (0 <= write_pos devh <= BUFFER_SIZE /\ 0 < write_length devh /\
   write_pos devh + write_length devh = n) ->
  let d := snd (transport_write devh buf length) in
  (write_pos d = 0 /\ write_length d = 0) \/
  (0 <= write_pos d <= BUFFER_SIZE /\ 0 < write_length d /\
   write_pos d + write_length d = n).
Proof.
  intros Hu Hn Inv d. subst d. unfold is_uint16, UINT16_MAX in *.
  destruct (Z_lt_le_dec (write_length devh) length) as [Hgt|Hle].
  - (* beyond the declared length *)
    destruct (length_exceeded_is_arg_error devh buf length) as [A _].
    destruct (A Hgt) as [_ L]. apply only_logged_fields in L.
    destruct L as (_ & _ & _ & -> & ->). exact Inv.
  - destruct (Z_lt_le_dec length (write_length devh)) as [Hlt|Hge].
    + destruct Inv as [[_ Hz]|(Hp & Hl & Hs)]; [lia|].
      destruct (Z_lt_le_dec BUFFER_SIZE (write_pos devh + length)) as [Hov|Hfit].
      * destruct (buffered_write_overflow_is_arg_error devh buf length Hlt Hov)
          as (_ & _ & -> & -> & _).
        right. auto.
      * rewrite transport_write_buffered
          by (unfold is_uint16, UINT16_MAX; lia).
        cbn [snd write_pos write_length log_dbg log set_ctx set_write_pos
             set_write_length].
        right. lia.
    + assert (He : length = write_length devh) by lia.
      left.
      destruct (Z.eq_dec (write_pos devh) 0) as [Hz|Hnz].
      * rewrite transport_write_direct by assumption.
        destruct (usb_send_frame (set_write_length devh 0) buf length) as [S _].
        apply sent_fields in S. destruct S as (_ & _ & _ & -> & ->).
        cbn [write_pos write_length set_write_length]. auto.
      * destruct Inv as [[Hz _]|(Hp & Hl & Hs)]; [contradiction|].
        destruct (transport_write_flush devh buf length He) as (d1 & L & _ & ->);
          [unfold is_uint16, UINT16_MAX; lia|lia|].
        apply only_logged_fields in L.
        destruct L as (_ & _ & _ & Lw & _).
        cbn [write_length set_buffer set_write_length] in Lw.
        cbv zeta.
        match goal with
        | |- context [usb_send ?d ?b ?l] =>
            destruct (usb_send_frame d b l) as [S _];
            destruct (usb_send d b l) as [ret d2]
        end.
        cbn [fst snd] in *. apply sent_fields in S.
        destruct S as (_ & _ & _ & Sw & _).
        assert (Hd2 : write_length (set_write_pos d2 0) = 0)
          by (cbn [write_length set_write_pos]; congruence).
        destruct ret; try (cbn [snd write_pos write_length set_write_pos]; split;
                           [reflexivity|congruence]).
        destruct (length - _ =? 0);
          [cbn [snd write_pos write_length set_write_pos]; split;
           [reflexivity|congruence]|].
        match goal with
        | |- context [usb_send ?d ?b ?l] =>
            destruct (usb_send_frame d b l) as [S' _]
        end.
        apply sent_fields in S'. destruct S' as (_ & _ & _ & -> & ->).
        split; [reflexivity|exact Hd2].
Qed.

Lemma write_started_cursors (n : Z) (d : jaylink_device_handle) :
  write_started n d ->
  is_uint16 n /\
  ((write_pos d = 0 /\ write_length d = 0) \/
   (0 <= write_pos d <= BUFFER_SIZE /\ 0 < write_length d /\
    write_pos d + write_length d = n)).
Proof.
  induction 1 as [devh hc Hu Hn|devh r hc Hu Hn Hr Hrn|devh buf length Hs IH Hl].
  - split; [exact Hu|].
    destruct (start_write_spec devh n hc Hn) as (d & -> & _).
    cbn [snd write_pos write_length set_write_pos set_write_length].
    right. unfold is_uint16, UINT16_MAX, BUFFER_SIZE, CHUNK_SIZE in *. lia.
  - split; [exact Hu|].
    destruct (start_write_read_spec devh n r hc Hn Hrn) as (d & -> & _).
    cbn [snd write_pos write_length set_write_pos set_write_length
         set_read_pos set_bytes_available set_read_length].
    right. unfold is_uint16, UINT16_MAX, BUFFER_SIZE, CHUNK_SIZE in *. lia.
  - destruct IH as [Hu Inv]. split; [exact Hu|].
    apply transport_write_cursors; assumption.
Qed.

(** C6, as the code has it.  In every state a write operation of [n] bytes
    goes through, from transport_start_write or transport_start_write_read
    on and after any calls of transport_write, the staged bytes fit into
    the buffer (write_pos is at most BUFFER_SIZE) and the staged and the
    outstanding bytes together are at most the [n] bytes declared; they fit
    into the buffer together when [n] is at most BUFFER_SIZE. *)
Theorem write_cursors_bounded (n : Z) (d : jaylink_device_handle) :
  write_started n d ->
  0 <= write_pos d <= BUFFER_SIZE /\
  0 <= write_length d /\
  write_pos d + write_length d <= n /\
  (n <= BUFFER_SIZE -> write_pos d + write_length d <= BUFFER_SIZE).
Proof.
  intros H. apply write_started_cursors in H. destruct H as [Hu Inv].
  unfold is_uint16, UINT16_MAX, BUFFER_SIZE, CHUNK_SIZE in *.
  destruct Inv as [[-> ->]|(Hp & Hl & Hs)]; repeat split; lia.
Qed.

Lemma write_cursors_bounded_witness :
  write_started 4000 half_written_handle /\
  (write_pos half_written_handle, write_length half_written_handle) = (2000, 2000) /\
  0 <= write_pos half_written_handle <= BUFFER_SIZE /\
  write_pos half_written_handle + write_length half_written_handle <= 4000.
Proof.
  assert (H : write_started 4000 half_written_handle).
  { unfold half_written_handle. apply ws_write.
    - apply ws_start_write; [vm_compute; split; discriminate|discriminate].
    - vm_compute; split; discriminate. }
  split; [exact H|]. split; [vm_compute; reflexivity|].
  destruct (write_cursors_bounded 4000 half_written_handle H) as (A & _ & B & _).
  split; [exact A|exact B].
Defined.

(** A write operation of 4000 bytes, just declared: 4000 bytes are
    outstanding, more than the buffer has. *)
Lemma write_bound_exceeded :
  write_started 4000 (snd (transport_start_write (fresh_handle no_device) 4000 true)) /\
  write_pos (snd (transport_start_write (fresh_handle no_device) 4000 true))
  + write_length (snd (transport_start_write (fresh_handle no_device) 4000 true))
    = 4000 /\
  ~ write_bound_claim.
Proof.
  assert (H : write_started 4000
                (snd (transport_start_write (fresh_handle no_device) 4000 true))).
  { apply ws_start_write; [vm_compute; split; discriminate|discriminate]. }
  split; [exact H|]. split; [vm_compute; reflexivity|].
  intros C. specialize (C _ _ H). vm_compute in C. apply C. reflexivity.
Qed.

(** ** The flush of a completed write operation (C3) *)

Lemma skipn_firstn_sub (A : Type) (l : list A) (m n : nat) :
  skipn m (firstn n l) = firstn (n - m) (skipn m l).
Proof.
  revert m n. induction l as [|a l IH]; intros m n.
  - now rewrite firstn_nil, !skipn_nil, firstn_nil.
  - destruct n as [|n]; [now rewrite firstn_O, skipn_nil|].
    destruct m as [|m]; [reflexivity|].
    cbn [firstn skipn Nat.sub]. apply IH.
Qed.

(** usb_send with a device that takes all the bytes, one chunk at most, in
    one transfer. *)
Lemma usb_send_accepted (devh : jaylink_device_handle) (buf : list byte)
  (length k : Z) (rest : list (libusb_error * Z)) :
  out_pending (usb_devh devh) = (LIBUSB_SUCCESS, k) :: rest ->
  1 <= length <= CHUNK_SIZE -> length <= k ->
  exists devh',
    usb_send devh buf length = (JAYLINK_OK, devh') /\
    out_pending (usb_devh devh') = rest /\
    out_transfers (usb_devh devh')
      = out_transfers (usb_devh devh) ++ [(firstn (Z.to_nat length) buf, length)].
Proof.
  intros Hp Hl Hk. unfold usb_send.
  cbn [usb_devh set_usb_send_calls]. rewrite Hp.
  rewrite usb_send_loop_turn by (try discriminate; lia).
  cbv zeta. cbn [fst is_success].
  rewrite MIN_spec, Z.min_r by lia.
  assert (Hc : bulk_out_count length (LIBUSB_SUCCESS, k) = length)
    by (unfold bulk_out_count; cbn [snd]; lia).
  rewrite Hc, Z.sub_diag. change (uint16_t 0) with 0.
  rewrite usb_send_loop_exit by (right; reflexivity).
  change (0 =? 0) with true. cbv iota.
  eexists. split; [reflexivity|]. cbn. split; reflexivity.
Qed.

(** The calls of usb_send a completing transport_write makes.  [ret1] is
    the status of the first of them. *)
Lemma completing_write_calls (devh : jaylink_device_handle) (buf : list byte)
  (length : Z) :
  handle_ok devh -> length = write_length devh ->
  (Z.to_nat length <= List.length buf)%nat ->
  let r := transport_write devh buf length in
  let data := firstn (Z.to_nat length) buf in
  let staged := firstn (Z.to_nat (write_pos devh)) (buffer devh) in
  let fill := MIN length (CHUNK_SIZE - write_pos devh) in
  let block := staged ++ firstn (Z.to_nat fill) data in
  (write_pos devh = 0 ->
   r = usb_send (set_write_length devh 0) buf length /\
   usb_send_calls (snd r) = usb_send_calls devh ++ [data]) /\
  (write_pos devh <> 0 ->
   exists (ret1 : jaylink_error) (d1 : jaylink_device_handle),
     usb_devh d1 = usb_devh devh /\
     firstn (List.length block) (buffer d1) = block /\
     ret1 = fst (usb_send d1 (buffer d1) (Z.of_nat (List.length block))) /\
     Z.of_nat (List.length block) = MIN (write_pos devh + length) CHUNK_SIZE /\
     usb_send_calls (snd r)
       = usb_send_calls devh
         ++ block
            :: (if jaylink_error_eqb ret1 JAYLINK_OK && (fill <? length)
                then [skipn (Z.to_nat fill) data] else []) /\
     (ret1 <> JAYLINK_OK -> fst r = ret1) /\
     (length <= fill ->
      r = (ret1,
           set_write_pos
             (snd (usb_send d1 (buffer d1) (Z.of_nat (List.length block)))) 0))).
Proof.
  intros Hok Hl Hbuf r data staged fill block.
  destruct Hok. unfold is_uint16, UINT16_MAX, BUFFER_SIZE in *.
  split; intros Hp.
  - subst r. rewrite transport_write_direct by assumption.
    split; [reflexivity|].
    destruct (usb_send_frame (set_write_length devh 0) buf length) as [_ ->].
    reflexivity.
  - assert (Hf : 0 <= fill <= length /\ fill <= CHUNK_SIZE - write_pos devh /\
                 (fill = length \/ fill = CHUNK_SIZE - write_pos devh)).
    { unfold fill. rewrite MIN_spec. unfold CHUNK_SIZE in *. lia. }
    assert (Hstaged : List.length staged = Z.to_nat (write_pos devh)).
    { unfold staged. rewrite length_firstn. unfold CHUNK_SIZE in *. lia. }
    assert (Hdata : firstn (Z.to_nat fill) data = firstn (Z.to_nat fill) buf).
    { unfold data. rewrite firstn_firstn. f_equal. lia. }
    assert (Hblock : List.length block = Z.to_nat (write_pos devh + fill)).
    { unfold block. rewrite length_app, Hstaged, Hdata, length_firstn. lia. }
    destruct (transport_write_flush devh buf length Hl) as (d1 & L & B & E);
      [unfold is_uint16, UINT16_MAX; lia|unfold BUFFER_SIZE; lia|].
    fold fill in B, E.
    destruct L as (Lu & _ & _ & Lc).
    cbn [usb_devh usb_send_calls set_buffer set_write_length] in Lu, Lc.
    assert (Hfirst : firstn (List.length block) (buffer d1) = block).
    { rewrite Hblock, B, Z2Nat.inj_add by lia.
      rewrite firstn_memcpy by (unfold CHUNK_SIZE in *; lia).
      unfold block. now rewrite Hdata. }
    assert (Hlen : Z.of_nat (List.length block) = write_pos devh + fill)
      by (rewrite Hblock; lia).
    exists (fst (usb_send d1 (buffer d1) (write_pos devh + fill))), d1.
    rewrite Hlen.
    split; [exact Lu|]. split; [exact Hfirst|]. split; [reflexivity|].
    split; [unfold fill; rewrite !MIN_spec; lia|].
    subst r. rewrite E. cbv zeta.
    destruct (usb_send_frame d1 (buffer d1) (write_pos devh + fill)) as [_ C1].
    rewrite <- Hblock, Hfirst, Lc in C1.
    destruct (usb_send d1 (buffer d1) (write_pos devh + fill)) as [ret1 d2].
    cbn [fst snd] in *.
    destruct ret1; cbn [jaylink_error_eqb jaylink_error_code Z.eqb andb snd fst
                        usb_send_calls set_write_pos];
      try (rewrite C1; repeat split; try reflexivity; congruence).
    destruct (Z.eqb_spec (length - fill) 0) as [Hz|Hz];
      destruct (Z.ltb_spec fill length) as [Hlt|Hge]; try lia.
    + cbn [snd fst usb_send_calls set_write_pos]. rewrite C1.
      repeat split; congruence.
    + match goal with
      | |- context [usb_send ?d ?b ?l] =>
          destruct (usb_send_frame d b l) as [_ C2]
      end.
      cbn [usb_send_calls set_write_pos] in C2. rewrite C2, C1, <- app_assoc.
      split; [|split; [congruence|lia]].
      cbn [app]. do 3 f_equal. unfold data.
      rewrite skipn_firstn_sub. f_equal. lia.
Qed.

Lemma handle_ok_buffered (devh : jaylink_device_handle) (buf : list byte)
  (length : Z) :
  handle_ok devh -> 0 <= length < write_length devh ->
  write_pos devh + length <= BUFFER_SIZE ->
  (Z.to_nat length <= List.length buf)%nat ->
  handle_ok (snd (transport_write devh buf length)).
Proof.
  intros Hok Hl Hfit Hbuf. destruct Hok.
  rewrite transport_write_buffered by (unfold is_uint16 in *; auto; lia).
  unfold is_uint16, UINT16_MAX, BUFFER_SIZE, CHUNK_SIZE in *.
  constructor;
    cbn [snd buffer read_length bytes_available read_pos write_length write_pos
         log_dbg log set_ctx set_write_pos set_write_length set_buffer];
    unfold is_uint16, UINT16_MAX, BUFFER_SIZE, CHUNK_SIZE; try lia.
  rewrite length_memcpy by lia. assumption.
Qed.

Lemma handle_ok_start_write (devh : jaylink_device_handle) (n : Z)
  (has_command : bool) :
  handle_ok devh -> is_uint16 n -> n <> 0 ->
  handle_ok (snd (transport_start_write devh n has_command)).
Proof.
  intros Hok Hu Hn.
  destruct (start_write_spec devh n has_command Hn) as (d & -> & L & _).
  destruct (only_logged_fields _ _ L) as (E1 & E2 & E3 & E4 & E5).
  destruct L as (_ & Lb & _). destruct Hok.
  constructor;
    cbn [snd buffer read_length bytes_available read_pos write_length write_pos
         set_write_pos set_write_length];
    rewrite ?E1, ?E2, ?E3, ?Lb; try assumption;
    unfold is_uint16, UINT16_MAX, BUFFER_SIZE, CHUNK_SIZE in *; lia.
Qed.

(** transport_start_write for 3 bytes, transport_write of the bytes 01 02,
    transport_write of the byte 03. *)
Lemma three_bytes_in_two_calls (devh0 : jaylink_device_handle) (has_command : bool) :
  handle_ok devh0 ->
  let d1 := snd (transport_start_write devh0 3 has_command) in
  let r1 := transport_write d1 [x01; x02] 2 in
  let r2 := transport_write (snd r1) [x03] 1 in
  fst r1 = JAYLINK_OK /\
  usb_send_calls (snd r1) = usb_send_calls devh0 /\
  usb_devh (snd r1) = usb_devh devh0 /\
  usb_send_calls (snd r2) = usb_send_calls devh0 ++ [[x01; x02; x03]] /\
  (forall (k : Z) (rest : list (libusb_error * Z)),
     out_pending (usb_devh devh0) = (LIBUSB_SUCCESS, k) :: rest -> 3 <= k ->
     fst r2 = JAYLINK_OK /\
     out_transfers (usb_devh (snd r2))
       = out_transfers (usb_devh devh0) ++ [([x01; x02; x03], 3)]).
Proof.
  intros Hok d1 r1 r2.
  assert (H3 : is_uint16 3) by (unfold is_uint16, UINT16_MAX; lia).
  assert (Hok1 : handle_ok d1) by (apply handle_ok_start_write; [assumption..|lia]).
  destruct (start_write_spec devh0 3 has_command) as (d & E & L & _); [lia|].
  assert (Hd1 : d1 = set_write_pos (set_write_length d 3) 0)
    by (unfold d1; rewrite E; reflexivity).
  assert (Hwl : write_length d1 = 3) by (rewrite Hd1; reflexivity).
  assert (Hwp : write_pos d1 = 0) by (rewrite Hd1; reflexivity).
  destruct L as (Lu & Lb & _ & Lc).
  assert (Hu1 : usb_devh d1 = usb_devh devh0) by (rewrite Hd1; exact Lu).
  assert (Hc1 : usb_send_calls d1 = usb_send_calls devh0) by (rewrite Hd1; exact Lc).
  assert (Hok2 : handle_ok (snd r1)).
  { apply handle_ok_buffered; [assumption| | |cbn; lia];
      rewrite ?Hwl, ?Hwp; unfold BUFFER_SIZE, CHUNK_SIZE; lia. }
  assert (E1 : r1 = _) by
    (apply (transport_write_buffered d1 [x01; x02] 2);
     rewrite ?Hwl, ?Hwp; unfold is_uint16, UINT16_MAX, BUFFER_SIZE, CHUNK_SIZE; lia).
  rewrite Hwl, Hwp in E1. change (3 - 2) with 1 in E1. change (0 + 2) with 2 in E1.
  assert (Hb2 : firstn 2 (buffer (snd r1)) = [x01; x02]).
  { rewrite E1. cbn [snd buffer log_dbg log set_ctx set_write_pos set_write_length
                     set_buffer].
    change (Z.to_nat 0) with 0%nat. change (Z.to_nat 2) with 2%nat.
    change 2%nat with (0 + 2)%nat at 1.
    rewrite firstn_memcpy; [reflexivity|lia|cbn; lia]. }
  assert (Hp2 : write_pos (snd r1) = 2) by (rewrite E1; reflexivity).
  assert (Hl2 : write_length (snd r1) = 1) by (rewrite E1; reflexivity).
  assert (Hu2 : usb_devh (snd r1) = usb_devh devh0) by (rewrite E1; exact Hu1).
  assert (Hc2 : usb_send_calls (snd r1) = usb_send_calls devh0)
    by (rewrite E1; exact Hc1).
  split; [rewrite E1; reflexivity|]. split; [exact Hc2|]. split; [exact Hu2|].
  destruct (completing_write_calls (snd r1) [x03] 1 Hok2) as [_ F];
    [congruence|cbn; lia|].
  destruct F as (ret1 & d3 & Fu & Ff & Fr & _ & Fc & _ & Fe); [lia|].
  fold r2 in Fc, Fe.
  rewrite Hp2 in *. change (Z.to_nat 2) with 2%nat in *. rewrite Hb2 in *.
  change (MIN 1 (CHUNK_SIZE - 2)) with 1 in *.
  change (Z.to_nat 1) with 1%nat in *.
  change ([x01; x02] ++ firstn 1 (firstn 1 [x03])) with [x01; x02; x03] in *.
  change (List.length [x01; x02; x03]) with 3%nat in *.
  change (1 <? 1) with false in Fc. rewrite andb_false_r, Hc2 in Fc.
  split; [exact Fc|].
  intros k rest Hp Hk. specialize (Fe (Z.le_refl 1)).
  destruct (usb_send_accepted d3 (buffer d3) 3 k rest) as (d4 & S & _ & T);
    [congruence|unfold CHUNK_SIZE; lia|lia|].
  change (Z.of_nat 3) with 3 in *. rewrite S in Fr, Fe. cbn [fst snd] in Fr, Fe.
  rewrite Fe. cbn [fst snd usb_devh set_write_pos].
  split; [exact Fr|].
  rewrite T, Fu, Hu2. change (Z.to_nat 3) with 3%nat. rewrite Ff. reflexivity.
Qed.

(** C3, as the code has it.  A call of transport_write that completes the
    operation, on a well-formed handle.  With nothing staged, usb_send is called once, with
    the bytes of the caller.  With [write_pos] bytes staged, the bytes of
    the caller are put behind them as far as the chunk boundary, and
    usb_send is called with this block of
    MIN (write_pos + length) CHUNK_SIZE bytes; when this call returned
    JAYLINK_OK and bytes of the caller are left, usb_send is called a second
    time, with these bytes; when it did not, its status is returned.  After
    transport_start_write for 3 bytes and transport_write of 01 02, which
    makes no transfer and no call of usb_send, transport_write of 03 calls
    usb_send once, with 01 02 03, and a device that takes them makes this
    one transfer of three bytes. *)
Theorem completing_write_flushes (devh : jaylink_device_handle) (buf : list byte)
  (length : Z) :
  handle_ok devh -> length = write_length devh ->
  (Z.to_nat length <= List.length buf)%nat ->
  (let r := transport_write devh buf length in
   let data := firstn (Z.to_nat length) buf in
   let staged := firstn (Z.to_nat (write_pos devh)) (buffer devh) in
   let fill := MIN length (CHUNK_SIZE - write_pos devh) in
   let block := staged ++ firstn (Z.to_nat fill) data in
   (write_pos devh = 0 ->
    r = usb_send (set_write_length devh 0) buf length /\
    usb_send_calls (snd r) = usb_send_calls devh ++ [data]) /\
   (write_pos devh <> 0 ->
    exists (ret1 : jaylink_error) (d1 : jaylink_device_handle),
      usb_devh d1 = usb_devh devh /\
      firstn (List.length block) (buffer d1) = block /\
      ret1 = fst (usb_send d1 (buffer d1) (Z.of_nat (List.length block))) /\
      Z.of_nat (List.length block) = MIN (write_pos devh + length) CHUNK_SIZE /\
      usb_send_calls (snd r)
        = usb_send_calls devh
          ++ block
             :: (if jaylink_error_eqb ret1 JAYLINK_OK && (fill <? length)
                 then [skipn (Z.to_nat fill) data] else []) /\
      (ret1 <> JAYLINK_OK -> fst r = ret1))) /\
  (forall (devh0 : jaylink_device_handle) (has_command : bool),
     handle_ok devh0 ->
     let d1 := snd (transport_start_write devh0 3 has_command) in
     let r1 := transport_write d1 [x01; x02] 2 in
     let r2 := transport_write (snd r1) [x03] 1 in
     fst r1 = JAYLINK_OK /\
     usb_send_calls (snd r1) = usb_send_calls devh0 /\
     usb_devh (snd r1) = usb_devh devh0 /\
     usb_send_calls (snd r2) = usb_send_calls devh0 ++ [[x01; x02; x03]] /\
     (forall (k : Z) (rest : list (libusb_error * Z)),
        out_pending (usb_devh devh0) = (LIBUSB_SUCCESS, k) :: rest -> 3 <= k ->
        fst r2 = JAYLINK_OK /\
        out_transfers (usb_devh (snd r2))
          = out_transfers (usb_devh devh0) ++ [([x01; x02; x03], 3)])).
Proof.
  intros Hok Hl Hbuf. split.
  - destruct (completing_write_calls devh buf length Hok Hl Hbuf) as [A B].
    cbv zeta. split; [exact A|].
    intros Hp. destruct (B Hp) as (ret1 & d1 & B1 & B2 & B3 & B4 & B5 & B6 & _).
    exists ret1, d1. repeat split; assumption.
  - intros devh0 hc Hok0. apply three_bytes_in_two_calls. exact Hok0.
Qed.

Lemma fresh_handle_ok (u : libusb_device_handle) : handle_ok (fresh_handle u).
Proof.
  constructor; unfold is_uint16, UINT16_MAX, BUFFER_SIZE, CHUNK_SIZE;
    cbn [fresh_handle initialize_handle buffer read_length bytes_available
         read_pos write_length write_pos]; try lia.
  rewrite repeat_length. reflexivity.
Qed.

Lemma staged_handle_ok : handle_ok staged_handle.
Proof.
  unfold staged_handle. apply handle_ok_buffered.
  - apply handle_ok_start_write; [apply fresh_handle_ok| |discriminate].
    unfold is_uint16, UINT16_MAX. lia.
  - vm_compute. split; [discriminate|reflexivity].
  - vm_compute. discriminate.
  - cbn. lia.
Qed.

Lemma completing_write_flushes_witness :
  (handle_ok staged_handle /\ 1 = write_length staged_handle /\
   (Z.to_nat 1 <= List.length [x03])%nat) /\
  write_pos staged_handle = 2 /\
  usb_send_calls (snd (transport_write staged_handle [x03] 1))
    = [[x01; x02; x03]] /\
  out_transfers (usb_devh (snd (transport_write staged_handle [x03] 1)))
    = [([x01; x02; x03], 3)].
Proof.
  assert (Hl : 1 = write_length staged_handle) by (vm_compute; reflexivity).
  assert (Hb : (Z.to_nat 1 <= List.length [x03])%nat) by (cbn; lia).
  split; [split; [exact staged_handle_ok|split; assumption]|].
  split; [vm_compute; reflexivity|].
  destruct (completing_write_flushes staged_handle [x03] 1 staged_handle_ok Hl Hb)
    as [_ S].
  destruct (S (fresh_handle accepting_device) true (fresh_handle_ok _))
    as (_ & _ & _ & C & T).
  split; [exact C|].
  destruct (T CHUNK_SIZE _ eq_refl) as [_ T']; [vm_compute; discriminate|].
  exact T'.
Defined.

(** ** Well-formed handles stay well-formed under transport_write *)

Lemma handle_ok_same (d d' : jaylink_device_handle) :
  handle_ok d -> buffer d' = buffer d -> framing d' = framing d -> handle_ok d'.
Proof.
  intros Hok Hb Hf. unfold framing in Hf. injection Hf as F1 F2 F3 F4 F5.
  destruct Hok. constructor; rewrite ?Hb, ?F1, ?F2, ?F3, ?F4, ?F5; assumption.
Qed.

Lemma handle_ok_sent (d d' : jaylink_device_handle) :
  handle_ok d -> sent d d' -> handle_ok d'.
Proof. intros Hok (_ & Hb & Hf). eapply handle_ok_same; eassumption. Qed.

Lemma handle_ok_only_logged (d d' : jaylink_device_handle) :
  handle_ok d -> only_logged d d' -> handle_ok d'.
Proof. intros Hok (_ & Hb & Hf & _). eapply handle_ok_same; eassumption. Qed.

Lemma handle_ok_write (devh : jaylink_device_handle) (buf : list byte) (length : Z) :
  handle_ok devh -> is_uint16 length ->
  (Z.to_nat length <= List.length buf)%nat ->
  handle_ok (snd (transport_write devh buf length)).
Proof.
  intros Hok Hu Hbuf.
  assert (Hz : is_uint16 0) by (unfold is_uint16, UINT16_MAX; lia).
  assert (H0 : 0 <= 0 <= BUFFER_SIZE) by (unfold BUFFER_SIZE, CHUNK_SIZE; lia).
  destruct (Z_lt_le_dec (write_length devh) length) as [Hgt|Hle].
  - destruct (length_exceeded_is_arg_error devh buf length) as [A _].
    destruct (A Hgt) as [_ L]. eapply handle_ok_only_logged; eassumption.
  - destruct (Z_lt_le_dec length (write_length devh)) as [Hlt|Hge].
    + destruct (Z_lt_le_dec BUFFER_SIZE (write_pos devh + length)) as [Hov|Hfit].
      * destruct (buffered_write_overflow_is_arg_error devh buf length Hlt Hov)
          as (_ & L & _).
        eapply handle_ok_only_logged; eassumption.
      * apply handle_ok_buffered; try assumption.
        unfold is_uint16 in Hu. lia.
    + assert (He : length = write_length devh) by lia.
      assert (Hok0 : handle_ok (set_write_length devh 0)).
      { destruct Hok. constructor; assumption. }
      destruct (Z.eq_dec (write_pos devh) 0) as [Hp|Hp].
      * rewrite transport_write_direct by assumption.
        eapply handle_ok_sent; [exact Hok0|apply usb_send_frame].
      * pose proof (ok_write_pos _ Hok) as Hp1. pose proof (ok_write_window _ Hok) as Hp2.
        pose proof (ok_buffer _ Hok) as Hp3.
        unfold is_uint16, UINT16_MAX in Hp1, Hu.
        destruct (transport_write_flush devh buf length He) as (d1 & L & B & ->);
          [unfold is_uint16, UINT16_MAX; lia|lia|].
        assert (Hok1 : handle_ok d1).
        { destruct L as (_ & _ & Lf & _).
          cbn [framing read_length bytes_available read_pos write_length write_pos
               set_buffer set_write_length] in Lf.
          injection Lf as F1 F2 F3 F4 F5. destruct Hok.
          constructor; rewrite ?F1, ?F2, ?F3, ?F4, ?F5; try assumption.
          rewrite B, length_memcpy; [assumption| |];
            rewrite MIN_spec; unfold BUFFER_SIZE, CHUNK_SIZE in *; lia. }
        cbv zeta.
        match goal with
        | |- context [usb_send ?d ?b ?l] =>
            pose proof (proj1 (usb_send_frame d b l)) as S;
            destruct (usb_send d b l) as [ret d2]
        end.
        cbn [fst snd] in *.
        assert (Hok2 : handle_ok (set_write_pos d2 0)).
        { pose proof (handle_ok_sent _ _ Hok1 S) as Hk. destruct Hk.
          constructor; cbn [set_write_pos buffer read_length bytes_available read_pos
                            write_length write_pos]; try assumption; lia. }
        destruct ret; try exact Hok2.
        destruct (length - _ =? 0); [exact Hok2|].
        eapply handle_ok_sent; [exact Hok2|apply usb_send_frame].
Qed.

(** ** The bytes given to usb_send (C1) *)

Lemma completing_write_cursors (devh : jaylink_device_handle) (buf : list byte)
  (length : Z) :
  handle_ok devh -> length = write_length devh ->
  write_pos (snd (transport_write devh buf length)) = 0 /\
  write_length (snd (transport_write devh buf length)) = 0.
Proof.
  intros Hok He.
  pose proof (ok_write_pos _ Hok) as Hp1. pose proof (ok_write_window _ Hok) as Hp2.
  pose proof (ok_write_length _ Hok) as Hp3.
  destruct (Z.eq_dec (write_pos devh) 0) as [Hz|Hnz].
  - rewrite transport_write_direct by assumption.
    destruct (usb_send_frame (set_write_length devh 0) buf length) as [S _].
    apply sent_fields in S. destruct S as (_ & _ & _ & -> & ->).
    cbn [write_pos write_length set_write_length]. auto.
  - destruct (transport_write_flush devh buf length He) as (d1 & L & _ & ->);
      [congruence|unfold is_uint16 in *; lia|].
    apply only_logged_fields in L.
    destruct L as (_ & _ & _ & Lw & _).
    cbn [write_length set_buffer set_write_length] in Lw.
    cbv zeta.
    match goal with
    | |- context [usb_send ?d ?b ?l] =>
        destruct (usb_send_frame d b l) as [S _];
        destruct (usb_send d b l) as [ret d2]
    end.
    cbn [fst snd] in *. apply sent_fields in S.
    destruct S as (_ & _ & _ & Sw & _).
    assert (Hd2 : write_length (set_write_pos d2 0) = 0)
      by (cbn [write_length set_write_pos]; congruence).
    destruct ret; try (cbn [snd write_pos write_length set_write_pos]; split;
                       [reflexivity|congruence]).
    destruct (length - _ =? 0);
      [cbn [snd write_pos write_length set_write_pos]; split;
       [reflexivity|congruence]|].
    match goal with
    | |- context [usb_send ?d ?b ?l] =>
        destruct (usb_send_frame d b l) as [S' _]
    end.
    apply sent_fields in S'. destruct S' as (_ & _ & _ & -> & ->).
    split; [reflexivity|exact Hd2].
Qed.

Lemma is_prefix_refl (a : list byte) : is_prefix a a.
Proof. exists []. now rewrite app_nil_r. Qed.

Lemma is_prefix_app (a b : list byte) : is_prefix a (a ++ b).
Proof. exists b. reflexivity. Qed.

(** One call of transport_write with the area [c], all of it. *)
Lemma write_call (d : jaylink_device_handle) (c : list byte) :
  handle_ok d ->
  let l := Z.of_nat (List.length c) in
  let staged := firstn (Z.to_nat (write_pos d)) (buffer d) in
  let r := transport_write d c l in
  (l < write_length d -> write_pos d + l <= BUFFER_SIZE ->
   fst r = JAYLINK_OK /\ usb_send_calls (snd r) = usb_send_calls d /\
   write_pos (snd r) = write_pos d + l /\
   write_length (snd r) = write_length d - l /\
   firstn (Z.to_nat (write_pos d + l)) (buffer (snd r)) = staged ++ c) /\
  (l = write_length d ->
   exists sent,
     usb_send_calls (snd r) = usb_send_calls d ++ sent /\
     is_prefix (List.concat sent) (staged ++ c) /\
     (fst r = JAYLINK_OK -> List.concat sent = staged ++ c)).
Proof.
  intros Hok l staged r.
  pose proof (ok_write_pos _ Hok) as Hp1. pose proof (ok_write_window _ Hok) as Hp2.
  pose proof (ok_write_length _ Hok) as Hp3. pose proof (ok_buffer _ Hok) as Hp4.
  unfold is_uint16, UINT16_MAX, BUFFER_SIZE, CHUNK_SIZE in Hp1, Hp2, Hp3, Hp4.
  assert (Hl : 0 <= l) by (unfold l; lia).
  assert (Hc : firstn (Z.to_nat l) c = c).
  { unfold l. rewrite Nat2Z.id. apply firstn_all. }
  split.
  - intros Hlt Hfit. subst r.
    rewrite transport_write_buffered
      by (unfold is_uint16, UINT16_MAX; auto; lia).
    cbn [fst snd usb_send_calls write_pos write_length buffer log_dbg log set_ctx
         set_write_pos set_write_length set_buffer].
    repeat split.
    rewrite Z2Nat.inj_add by lia.
    rewrite firstn_memcpy;
      [now rewrite Hc|unfold BUFFER_SIZE, CHUNK_SIZE in *; lia|unfold l; lia].
  - intros He.
    destruct (completing_write_calls d c l Hok He) as [A B]; [unfold l; lia|].
    fold r in A, B. cbv zeta in A, B. rewrite Hc in A, B. fold staged in B.
    destruct (Z.eq_dec (write_pos d) 0) as [Hz|Hnz].
    + destruct (A Hz) as [_ A']. exists [c]. split; [exact A'|].
      assert (Hs : staged = []) by (unfold staged; rewrite Hz; reflexivity).
      rewrite Hs. cbn [List.concat app]. rewrite app_nil_r.
      split; [apply is_prefix_refl|reflexivity].
    + destruct (B Hnz) as (ret1 & d1 & _ & _ & _ & _ & C & R & _).
      eexists. split; [exact C|].
      assert (Hsplit : staged ++ c
                       = (staged ++ firstn (Z.to_nat (MIN l (CHUNK_SIZE - write_pos d))) c)
                         ++ skipn (Z.to_nat (MIN l (CHUNK_SIZE - write_pos d))) c).
      { rewrite <- app_assoc, firstn_skipn. reflexivity. }
      assert (Hall : (MIN l (CHUNK_SIZE - write_pos d) <? l) = false ->
                     staged ++ c
                     = staged ++ firstn (Z.to_nat (MIN l (CHUNK_SIZE - write_pos d))) c).
      { intros Hge. apply Z.ltb_ge in Hge. rewrite MIN_spec in *.
        rewrite Z.min_l by lia. now rewrite Hc. }
      destruct (jaylink_error_eqb ret1 JAYLINK_OK) eqn:Eok;
        destruct (MIN l (CHUNK_SIZE - write_pos d) <? l) eqn:Elt;
        cbn [andb List.concat app]; rewrite ?app_nil_r.
      * split; [rewrite Hsplit; apply is_prefix_refl|intros _; now rewrite Hsplit].
      * split; [rewrite (Hall eq_refl); apply is_prefix_refl|
                intros _; now rewrite (Hall eq_refl)].
      * split; [rewrite Hsplit; apply is_prefix_app|].
        intros Hr. exfalso. rewrite R in Hr by (intros ->; discriminate Eok).
        rewrite Hr in Eok. discriminate Eok.
      * split; [rewrite (Hall eq_refl); apply is_prefix_refl|
                intros _; now rewrite (Hall eq_refl)].
Qed.

Lemma writes_content (calls : list (list byte)) :
  forall d : jaylink_device_handle,
    handle_ok d ->
    Z.of_nat (List.length (List.concat calls)) = write_length d ->
    (write_length d = 0 -> write_pos d = 0) ->
    staged_within (write_pos d) (write_length d) calls = true ->
    let r := transport_writes d calls in
    let staged := firstn (Z.to_nat (write_pos d)) (buffer d) in
    exists sent,
      usb_send_calls (snd r) = usb_send_calls d ++ sent /\
      is_prefix (List.concat sent) (staged ++ List.concat calls) /\
      (Forall (eq JAYLINK_OK) (fst r) ->
       List.concat sent = staged ++ List.concat calls).
Proof.
  induction calls as [|c calls IH]; intros d Hok Hsum Hz Hfit.
  - cbn [transport_writes fst snd List.concat]. exists [].
    rewrite !app_nil_r. cbn [List.concat List.length Z.of_nat] in Hsum.
    rewrite Hz by congruence. cbn [Z.to_nat firstn List.concat].
    split; [reflexivity|]. split; [apply is_prefix_refl|reflexivity].
  - cbn [List.concat] in Hsum. rewrite length_app, Nat2Z.inj_add in Hsum.
    cbn [staged_within] in Hfit. cbv zeta in Hfit.
    destruct (write_call d c Hok) as [Wb Wc]. cbv zeta in Wb, Wc.
    assert (Hokc : handle_ok (snd (transport_write d c (Z.of_nat (List.length c))))).
    { apply handle_ok_write; [assumption| |rewrite Nat2Z.id; lia].
      pose proof (ok_write_length _ Hok). unfold is_uint16 in *. lia. }
    cbn [transport_writes]. cbv zeta.
    destruct (transport_write d c (Z.of_nat (List.length c))) as [ret d'] eqn:E.
    cbn [fst snd] in *.
    destruct (Z.ltb_spec (Z.of_nat (List.length c)) (write_length d)) as [Hlt|Hge].
    + apply andb_prop in Hfit. destruct Hfit as [Hfit1 Hfit2].
      apply Z.leb_le in Hfit1.
      destruct (Wb Hlt Hfit1) as (Wr & Wcalls & Wp & Wl & Wbuf).
      rewrite <- Wp, <- Wl in Hfit2.
      destruct (IH d' Hokc) as (sent & S1 & S2 & S3); [lia|lia|exact Hfit2|].
      cbv zeta in S1, S2, S3. rewrite Wp, Wbuf, <- app_assoc in S2, S3.
      destruct (transport_writes d' calls) as [rets d''].
      cbn [fst snd] in *. exists sent.
      split; [congruence|]. split; [exact S2|].
      intros Hall. apply S3. now inversion Hall.
    + assert (He : Z.of_nat (List.length c) = write_length d) by lia.
      destruct (Wc He) as (sent1 & C1 & C2 & C3).
      destruct (completing_write_cursors d c _ Hok He) as [Zp Zl].
      rewrite E in Zp, Zl. cbn [snd] in Zp, Zl.
      replace (write_length d - Z.of_nat (List.length c)) with 0 in Hfit by lia.
      rewrite <- Zp in Hfit at 1. rewrite <- Zl in Hfit.
      destruct (IH d' Hokc) as (sent2 & S1 & S2 & S3); [lia|auto|exact Hfit|].
      cbv zeta in S1, S2, S3.
      assert (Hnil : List.concat calls = []).
      { apply length_zero_iff_nil. lia. }
      rewrite Zp, Hnil in S2, S3. cbn [Z.to_nat firstn app] in S2, S3.
      assert (Hnil2 : List.concat sent2 = []).
      { destruct S2 as [t St]. symmetry in St. now apply app_eq_nil in St. }
      destruct (transport_writes d' calls) as [rets d''].
      cbn [fst snd] in *. exists (sent1 ++ sent2).
      cbn [List.concat]. rewrite concat_app, Hnil, Hnil2, !app_nil_r.
      split; [rewrite S1, C1; symmetry; apply app_assoc|].
      split; [exact C2|].
      intros Hall. apply C3. inversion Hall. congruence.
Qed.

(** The status of usb_send and the bytes it leaves unsent depend on what
    the device has for the OUT endpoint and on [length] only, not on the
    bytes. *)
Lemma usb_send_loop_status (pending : list (libusb_error * Z)) :
  forall (d1 d2 : jaylink_device_handle) (b1 b2 : list byte) (tries length : Z),
    fst (fst (usb_send_loop pending d1 b1 tries length))
      = fst (fst (usb_send_loop pending d2 b2 tries length)) /\
    snd (usb_send_loop pending d1 b1 tries length)
      = snd (usb_send_loop pending d2 b2 tries length).
Proof.
  induction pending as [|o pending IH]; intros d1 d2 b1 b2 tries length;
    cbn [usb_send_loop];
    destruct (negb (tries =? 0) && negb (length =? 0)); try (split; reflexivity).
  cbv zeta.
  destruct (is_success (fst o)); [apply IH|].
  destruct (is_timeout (fst o)); [apply IH|split; reflexivity].
Qed.

Lemma usb_send_status (d1 d2 : jaylink_device_handle) (b1 b2 : list byte)
  (length : Z) :
  out_pending (usb_devh d1) = out_pending (usb_devh d2) ->
  fst (usb_send d1 b1 length) = fst (usb_send d2 b2 length).
Proof.
  intros H. unfold usb_send. cbn [usb_devh set_usb_send_calls]. rewrite H.
  set (p := out_pending (usb_devh d2)).
  match goal with
  | |- context [usb_send_loop p ?x1 b1 ?t length] =>
      match goal with
      | |- context [usb_send_loop p ?x2 b2 t length] =>
          destruct (usb_send_loop_status p x1 x2 b1 b2 t length) as [A B];
          destruct (usb_send_loop p x1 b1 t length) as [[e1 h1] l1];
          destruct (usb_send_loop p x2 b2 t length) as [[e2 h2] l2]
      end
  end.
  cbn [fst snd] in A, B. subst e2 l2.
  destruct e1; [reflexivity|]. destruct (l1 =? 0); reflexivity.
Qed.

Lemma in_concat_length (c : list byte) (calls : list (list byte)) :
  In c calls -> (List.length c <= List.length (List.concat calls))%nat.
Proof.
  induction calls as [|x calls IH]; [intros []|].
  cbn [In List.concat]. rewrite length_app. intros [->|H]; [lia|].
  specialize (IH H). lia.
Qed.

Lemma jaylink_error_eqb_ok (e : jaylink_error) :
  jaylink_error_eqb e JAYLINK_OK = true <-> e = JAYLINK_OK.
Proof. destruct e; split; intros H; try reflexivity; discriminate H. Qed.

(** The bytes given to usb_send by the calls of [calls], on a handle with
    bytes staged or not: all the bytes staged and written, but when the
    completing call finds bytes staged, more than a chunk is to be sent
    and usb_send does not return JAYLINK_OK for the first chunk. *)
Lemma writes_content_exact (calls : list (list byte)) :
  forall d : jaylink_device_handle,
    handle_ok d ->
    Z.of_nat (List.length (List.concat calls)) = write_length d ->
    (write_length d = 0 -> write_pos d = 0) ->
    staged_within (write_pos d) (write_length d) calls = true ->
    let r := transport_writes d calls in
    let total := firstn (Z.to_nat (write_pos d)) (buffer d) ++ List.concat calls in
    let first_send :=
      fst (usb_send d (firstn (Z.to_nat CHUNK_SIZE) total) CHUNK_SIZE) in
    exists sent,
      usb_send_calls (snd r) = usb_send_calls d ++ sent /\
      ((write_pos d = 0 /\ In (List.concat calls) calls)
       \/ Z.of_nat (List.length total) <= CHUNK_SIZE
       \/ first_send = JAYLINK_OK ->
       List.concat sent = total) /\
      (~ (write_pos d = 0 /\ In (List.concat calls) calls) ->
       CHUNK_SIZE < Z.of_nat (List.length total) ->
       first_send <> JAYLINK_OK ->
       List.concat sent = firstn (Z.to_nat CHUNK_SIZE) total /\
       In first_send (fst r)).
Proof.
  induction calls as [|c calls IH]; intros d Hok Hsum Hz Hfit.
  - cbn [transport_writes fst snd List.concat]. exists [].
    rewrite !app_nil_r. cbn [List.concat List.length Z.of_nat] in Hsum.
    rewrite Hz by congruence. cbn [Z.to_nat firstn List.concat app List.length Z.of_nat].
    split; [reflexivity|]. split; [reflexivity|].
    intros _ H. unfold CHUNK_SIZE in H. lia.
  - cbn [List.concat] in Hsum. rewrite length_app, Nat2Z.inj_add in Hsum.
    cbn [staged_within] in Hfit. cbv zeta in Hfit.
    pose proof (ok_write_pos _ Hok) as Hp1. pose proof (ok_write_window _ Hok) as Hp2.
    pose proof (ok_write_length _ Hok) as Hp3. pose proof (ok_buffer _ Hok) as Hp4.
    unfold is_uint16, UINT16_MAX, BUFFER_SIZE, CHUNK_SIZE in Hp1, Hp2, Hp3, Hp4.
    set (l := Z.of_nat (List.length c)) in *.
    assert (Hl0 : 0 <= l) by (unfold l; lia).
    set (staged := firstn (Z.to_nat (write_pos d)) (buffer d)).
    assert (Hstaged : List.length staged = Z.to_nat (write_pos d)).
    { unfold staged. rewrite length_firstn. lia. }
    assert (Hcc : firstn (Z.to_nat l) c = c).
    { unfold l. rewrite Nat2Z.id. apply firstn_all. }
    destruct (write_call d c Hok) as [Wb _]. cbv zeta in Wb. fold l staged in Wb.
    assert (Hokc : handle_ok (snd (transport_write d c l))).
    { apply handle_ok_write; [assumption| |unfold l; rewrite Nat2Z.id; lia].
      unfold is_uint16, UINT16_MAX. lia. }
    cbn [transport_writes]. fold l. cbv zeta.
    destruct (Z.ltb_spec l (write_length d)) as [Hlt|Hge].
    + (* the call is buffered *)
      apply andb_prop in Hfit. destruct Hfit as [Hfit1 Hfit2].
      apply Z.leb_le in Hfit1.
      destruct (Wb Hlt Hfit1) as (Wr & Wcalls & Wp & Wl & Wbuf).
      assert (Wu : usb_devh (snd (transport_write d c l)) = usb_devh d).
      { rewrite transport_write_buffered
          by (unfold is_uint16, UINT16_MAX, BUFFER_SIZE, CHUNK_SIZE in *; lia).
        reflexivity. }
      destruct (transport_write d c l) as [ret d'] eqn:E.
      cbn [fst snd] in *.
      rewrite <- Wp, <- Wl in Hfit2.
      destruct (IH d' Hokc) as (sent & S1 & S2 & S3); [lia|lia|exact Hfit2|].
      cbv zeta in S1, S2, S3. rewrite Wp, Wbuf, <- app_assoc in S2, S3.
      assert (Est : fst (usb_send d'
                           (firstn (Z.to_nat CHUNK_SIZE) (staged ++ c ++ List.concat calls))
                           CHUNK_SIZE)
                    = fst (usb_send d
                             (firstn (Z.to_nat CHUNK_SIZE) (staged ++ c ++ List.concat calls))
                             CHUNK_SIZE)).
      { apply usb_send_status. now rewrite Wu. }
      rewrite Est in S2, S3.
      destruct (transport_writes d' calls) as [rets d''].
      cbn [fst snd] in *. exists sent.
      split; [congruence|]. split.
      * intros [[D1 D2]|[D|D]]; apply S2; [left|right; left; exact D|right; right; exact D].
        cbn [List.concat In] in D2. destruct D2 as [D2|D2].
        { exfalso. apply (f_equal (@List.length byte)) in D2.
          rewrite length_app in D2. unfold l in *. lia. }
        apply in_concat_length in D2 as D3. rewrite length_app in D3.
        assert (Hc0 : c = []) by (apply length_zero_iff_nil; lia).
        subst c. cbn [app] in D2. split; [unfold l in *; cbn in *; lia|exact D2].
      * intros ND Hbig Hns. destruct S3 as [S3 S4]; [|exact Hbig|exact Hns|].
        { intros [D1 D2]. apply ND.
          assert (Hlz : l = 0) by (unfold l in *; lia).
          assert (Hc0 : c = []) by (apply length_zero_iff_nil; unfold l in Hlz; lia).
          subst c. cbn [app]. split; [lia|right; exact D2]. }
        split; [exact S3|right; exact S4].
    + (* the call completes the operation *)
      assert (He : l = write_length d) by (unfold l in *; lia).
      assert (Hnil : List.concat calls = []).
      { apply length_zero_iff_nil. unfold l in *. lia. }
      destruct (completing_write_cursors d c _ Hok He) as [Zp Zl].
      destruct (completing_write_calls d c l Hok He) as [A B];
        [unfold l; rewrite Nat2Z.id; lia|].
      cbv zeta in A, B. rewrite Hcc in A, B. fold staged in B.
      destruct (transport_write d c l) as [ret d'] eqn:E.
      cbn [fst snd] in *.
      replace (write_length d - l) with 0 in Hfit by lia.
      rewrite <- Zp in Hfit at 1. rewrite <- Zl in Hfit.
      destruct (IH d' Hokc) as (sent2 & S1 & S2 & _); [rewrite Hnil, Zl; reflexivity|auto|exact Hfit|].
      cbv zeta in S1, S2.
      rewrite Zp, Hnil in S2. cbn [Z.to_nat firstn app List.length Z.of_nat] in S2.
      assert (Hnil2 : List.concat sent2 = []).
      { apply S2. right. left. unfold CHUNK_SIZE. lia. }
      destruct (transport_writes d' calls) as [rets d''].
      cbn [fst snd] in *. cbn [List.concat]. rewrite Hnil, app_nil_r.
      destruct (Z.eq_dec (write_pos d) 0) as [Hpz|Hpnz].
      * destruct (A Hpz) as [_ A'].
        assert (Hs0 : staged = []) by (unfold staged; rewrite Hpz; reflexivity).
        exists ([c] ++ sent2). rewrite Hs0. cbn [app].
        split; [rewrite S1, A', <- app_assoc; reflexivity|].
        split.
        { intros _. cbn [List.concat]. now rewrite Hnil2, app_nil_r. }
        intros ND. exfalso. apply ND. split; [exact Hpz|left; reflexivity].
      * destruct (B Hpnz) as (ret1 & d1 & Bu & _ & Br & Bl & Bc & Bf & _).
        set (fill := MIN l (CHUNK_SIZE - write_pos d)) in *.
        assert (Hf : 0 <= fill <= l /\ fill <= CHUNK_SIZE - write_pos d /\
                     (fill = l \/ fill = CHUNK_SIZE - write_pos d)).
        { unfold fill. rewrite MIN_spec. unfold CHUNK_SIZE. lia. }
        assert (Htot : Z.of_nat (List.length (staged ++ c)) = write_pos d + l).
        { rewrite length_app, Hstaged. unfold l. lia. }
        assert (Hblock : firstn (Z.to_nat (write_pos d + fill)) (staged ++ c)
                         = staged ++ firstn (Z.to_nat fill) c).
        { rewrite Z2Nat.inj_add by lia. rewrite <- Hstaged.
          rewrite firstn_app_2. reflexivity. }
        eexists. split; [rewrite S1, Bc, <- app_assoc; reflexivity|].
        rewrite concat_app, Hnil2, app_nil_r.
        destruct (Z.le_gt_cases (write_pos d + l) CHUNK_SIZE) as [Hsmall|Hbig].
        { assert (Hfl : fill = l) by (unfold fill; rewrite MIN_spec; lia).
          rewrite Hfl, Z.ltb_irrefl, andb_false_r, Hcc.
          cbn [List.concat]. rewrite app_nil_r.
          split; [reflexivity|]. intros _ H. rewrite Htot in H. lia. }
        assert (Hfc : fill = CHUNK_SIZE - write_pos d)
          by (unfold fill; rewrite MIN_spec; lia).
        assert (Hlt : (fill <? l) = true) by (apply Z.ltb_lt; lia).
        assert (Hcut : firstn (Z.to_nat CHUNK_SIZE) (staged ++ c)
                       = staged ++ firstn (Z.to_nat fill) c).
        { rewrite <- Hblock. f_equal. lia. }
        assert (Hret : ret1
                       = fst (usb_send d (firstn (Z.to_nat CHUNK_SIZE) (staged ++ c))
                                CHUNK_SIZE)).
        { rewrite Br, Bl, MIN_spec, Z.min_r by lia.
          apply usb_send_status. now rewrite Bu. }
        rewrite <- Hret, Hlt, andb_true_r. split.
        { intros [[D _]|[D|D]]; [contradiction|rewrite Htot in D; lia|].
          rewrite (proj2 (jaylink_error_eqb_ok ret1) D).
          cbn [List.concat]. rewrite app_nil_r, <- app_assoc, firstn_skipn.
          reflexivity. }
        intros _ _ Hns.
        destruct (jaylink_error_eqb ret1 JAYLINK_OK) eqn:Eq;
          [apply jaylink_error_eqb_ok in Eq; contradiction|].
        cbn [List.concat]. rewrite app_nil_r.
        split; [symmetry; exact Hcut|]. left. apply Bf. exact Hns.
Qed.

(** C1, as the code has it.  A write operation of [n] bytes is started on
    a well-formed handle and transport_write is called with areas whose
    sizes add up to [n], each call that does not complete the operation
    fitting into the buffer.  The bytes given to usb_send, in call order,
    are the bytes given to transport_write, in call order, whatever the
    calls return, with one exception: when the bytes come in more than
    one call, so that the completing call finds bytes staged, [n] is above
    CHUNK_SIZE and usb_send does not return JAYLINK_OK for the first
    CHUNK_SIZE bytes, the completing call returns that status and the
    bytes behind the first CHUNK_SIZE are given to no call of usb_send.
    So they are all given when one call has all the bytes, when [n] is
    CHUNK_SIZE at most and when every call returned JAYLINK_OK. *)
Theorem write_preserves_content (devh0 : jaylink_device_handle) (n : Z)
  (has_command : bool) (calls : list (list byte)) :
  handle_ok devh0 -> is_uint16 n -> 1 <= n ->
  Z.of_nat (List.length (List.concat calls)) = n ->
  staged_within 0 n calls = true ->
  let r := transport_writes (snd (transport_start_write devh0 n has_command)) calls in
  let data := List.concat calls in
  let first_send :=
    fst (usb_send devh0 (firstn (Z.to_nat CHUNK_SIZE) data) CHUNK_SIZE) in
  is_prefix (bytes_sent devh0 (snd r)) data /\
  (In data calls \/ n <= CHUNK_SIZE \/ first_send = JAYLINK_OK ->
   bytes_sent devh0 (snd r) = data) /\
  (~ In data calls -> CHUNK_SIZE < n -> first_send <> JAYLINK_OK ->
   bytes_sent devh0 (snd r) = firstn (Z.to_nat CHUNK_SIZE) data /\
   In first_send (fst r)) /\
  (Forall (eq JAYLINK_OK) (fst r) -> bytes_sent devh0 (snd r) = data).
Proof.
  intros Hok Hu Hn Hsum Hfit r data first_send.
  assert (Hn0 : n <> 0) by lia.
  pose proof (handle_ok_start_write devh0 n has_command Hok Hu Hn0) as Hok1.
  destruct (start_write_spec devh0 n has_command Hn0) as (d & E & L & _).
  destruct L as (Lu & _ & _ & Lc).
  subst r. rewrite E in *. cbn [snd] in *.
  destruct (writes_content calls _ Hok1) as (s1 & S1 & S2 & S3);
    [exact Hsum|cbn; lia|exact Hfit|].
  destruct (writes_content_exact calls _ Hok1) as (s2 & T1 & T2 & T3);
    [exact Hsum|cbn; lia|exact Hfit|].
  cbv zeta in S1, S2, S3, T1, T2, T3.
  cbn [write_pos set_write_pos Z.to_nat firstn app usb_send_calls set_write_length]
    in S1, S2, S3, T1, T2, T3.
  fold data in S2, S3, T2, T3.
  assert (Es : s2 = s1).
  { rewrite S1 in T1. apply app_inv_head in T1. congruence. }
  subst s2.
  assert (Ef : fst (usb_send (set_write_pos (set_write_length d n) 0)
                      (firstn (Z.to_nat CHUNK_SIZE) data) CHUNK_SIZE)
               = first_send).
  { apply usb_send_status. cbn [usb_devh set_write_pos set_write_length].
    now rewrite Lu. }
  fold data in Hsum. rewrite Ef in T2, T3. rewrite Hsum in T2, T3.
  assert (Eb : bytes_sent devh0 (snd (transport_writes
                                        (set_write_pos (set_write_length d n) 0) calls))
               = List.concat s1).
  { unfold bytes_sent. rewrite S1, Lc, skipn_app, skipn_all, Nat.sub_diag.
    reflexivity. }
  rewrite Eb.
  split; [exact S2|]. split; [|split; [|exact S3]].
  - intros [D|[D|D]]; apply T2; [left; split; [reflexivity|exact D]|
                                  right; left; exact D|right; right; exact D].
  - intros ND Hbig Hns. apply T3; [|exact Hbig|exact Hns].
    intros [_ D]. exact (ND D).
Qed.

Lemma write_preserves_content_witness :
  ((handle_ok (fresh_handle no_device) /\ is_uint16 3 /\ 1 <= 3 /\
    Z.of_nat (List.length (List.concat [[x01; x02; x03]])) = 3 /\
    staged_within 0 3 [[x01; x02; x03]] = true) /\
   fst (transport_writes
          (snd (transport_start_write (fresh_handle no_device) 3 true))
          [[x01; x02; x03]])
     = [JAYLINK_ERR] /\
   bytes_sent (fresh_handle no_device)
     (snd (transport_writes
             (snd (transport_start_write (fresh_handle no_device) 3 true))
             [[x01; x02; x03]]))
     = [x01; x02; x03]) /\
  ((handle_ok (fresh_handle no_device) /\ is_uint16 2049 /\ 1 <= 2049 /\
    Z.of_nat (List.length (List.concat [[x01]; repeat x02 2048])) = 2049 /\
    staged_within 0 2049 [[x01]; repeat x02 2048] = true) /\
   bytes_sent (fresh_handle no_device)
     (snd (transport_writes
             (snd (transport_start_write (fresh_handle no_device) 2049 true))
             [[x01]; repeat x02 2048]))
     = x01 :: repeat x02 2047 /\
   In JAYLINK_ERR
     (fst (transport_writes
             (snd (transport_start_write (fresh_handle no_device) 2049 true))
             [[x01]; repeat x02 2048]))).
Proof.
  split.
  - assert (Hu : is_uint16 3) by (vm_compute; split; discriminate).
    assert (Hn : 1 <= 3) by lia.
    assert (Hs : Z.of_nat (List.length (List.concat [[x01; x02; x03]])) = 3)
      by reflexivity.
    assert (Hf : staged_within 0 3 [[x01; x02; x03]] = true) by reflexivity.
    split; [repeat split; try assumption; apply fresh_handle_ok|].
    split; [vm_compute; reflexivity|].
    destruct (write_preserves_content (fresh_handle no_device) 3 true
                [[x01; x02; x03]] (fresh_handle_ok _) Hu Hn Hs Hf) as (_ & E & _).
    apply E. left. left. reflexivity.
  - assert (Hu : is_uint16 2049) by (vm_compute; split; discriminate).
    assert (Hn : 1 <= 2049) by lia.
    assert (Hs : Z.of_nat (List.length (List.concat [[x01]; repeat x02 2048])) = 2049)
      by (vm_compute; reflexivity).
    assert (Hf : staged_within 0 2049 [[x01]; repeat x02 2048] = true)
      by (vm_compute; reflexivity).
    split; [repeat split; try assumption; apply fresh_handle_ok|].
    destruct (write_preserves_content (fresh_handle no_device) 2049 true
                [[x01]; repeat x02 2048] (fresh_handle_ok _) Hu Hn Hs Hf)
      as (_ & _ & E & _).
    destruct E as [E1 E2].
    + intros [H|[H|[]]]; apply (f_equal (@List.length byte)) in H;
        vm_compute in H; discriminate H.
    + vm_compute. reflexivity.
    + vm_compute. discriminate.
    + split; [rewrite E1; vm_compute; reflexivity|].
      vm_compute in E2. vm_compute. exact E2.
Defined.

(** A write operation of 2049 bytes on a device that is gone: one byte is
    staged, the completing call fills the buffer and gives its 2048 bytes
    to usb_send, which fails; the last byte is given to no call of
    usb_send. *)
Lemma write_content_cut_short :
  fst (transport_writes
         (snd (transport_start_write (fresh_handle no_device) 2049 true))
         [[x01]; repeat x02 2048])
    = [JAYLINK_OK; JAYLINK_ERR] /\
  List.length
    (bytes_sent (fresh_handle no_device)
       (snd (transport_writes
               (snd (transport_start_write (fresh_handle no_device) 2049 true))
               [[x01]; repeat x02 2048])))
    = 2048%nat /\
  List.length (List.concat [[x01]; repeat x02 2048]) = 2049%nat /\
  ~ write_content_claim.
Proof.
  split; [vm_compute; reflexivity|]. split; [vm_compute; reflexivity|].
  split; [vm_compute; reflexivity|].
  intros H.
  specialize (H (fresh_handle no_device) 2049 true [[x01]; repeat x02 2048]
                (fresh_handle_ok _)).
  apply (f_equal (@List.length byte)) in H.
  - vm_compute in H. discriminate H.
  - vm_compute. split; discriminate.
  - lia.
  - vm_compute. reflexivity.
  - vm_compute. reflexivity.
Qed.

Lemma one_staged_handle_ok : handle_ok one_staged_handle.
Proof.
  unfold one_staged_handle. apply handle_ok_write.
  - apply handle_ok_start_write; [apply fresh_handle_ok| |discriminate].
    vm_compute. split; discriminate.
  - vm_compute. split; discriminate.
  - cbn. lia.
Qed.

(** The completing call of the operation above: one byte is staged, 2048
    bytes are written, of which 2047 fill the buffer; the device is gone,
    the first usb_send fails and no second one is made for the byte that is
    left. *)
Lemma flush_stops_after_failed_send :
  write_pos one_staged_handle = 1 /\
  write_length one_staged_handle = 2048 /\
  fst (transport_write one_staged_handle (repeat x02 2048) 2048) = JAYLINK_ERR /\
  List.length
    (usb_send_calls (snd (transport_write one_staged_handle (repeat x02 2048) 2048)))
    = 1%nat /\
  ~ flush_claim.
Proof.
  split; [vm_compute; reflexivity|]. split; [vm_compute; reflexivity|].
  split; [vm_compute; reflexivity|]. split; [vm_compute; reflexivity|].
  intros H.
  specialize (H one_staged_handle (repeat x02 2048) 2048 one_staged_handle_ok).
  cbv zeta in H.
  apply (f_equal (@List.length (list byte))) in H.
  - vm_compute in H. discriminate H.
  - vm_compute. reflexivity.
  - vm_compute. apply Nat.le_refl.
  - vm_compute. discriminate.
Qed.

(** ** The turns of the loop of transport_read *)

Lemma usb_recv_loop_count (pending : list (libusb_error * list byte)) :
  forall (devh : jaylink_device_handle) (buf : list byte) (off : nat)
         (tries transferred : Z) (devh' : jaylink_device_handle)
         (buf' : list byte) (n : Z),
    0 <= transferred <= CHUNK_SIZE ->
    usb_recv_loop pending devh buf off tries transferred = (None, devh', buf', n) ->
    0 <= n <= CHUNK_SIZE.
Proof.
  induction pending as [|o pending IH];
    intros devh buf off tries transferred devh' buf' n Ht;
    cbn [usb_recv_loop]; destruct (negb (tries =? 0) && (transferred =? 0));
    try (intros [= <- <- <-]; exact Ht); try discriminate.
  assert (Hd : 0 <= Z.of_nat (List.length (bulk_in_data CHUNK_SIZE o)) <= CHUNK_SIZE).
  { unfold bulk_in_data. rewrite length_firstn. unfold CHUNK_SIZE. lia. }
  destruct (is_timeout (fst o)); [|destruct (negb (is_success (fst o)))].
  - intros H. eapply IH; [|exact H]. exact Hd.
  - discriminate.
  - intros H. eapply IH; [|exact H]. exact Hd.
Qed.

Lemma usb_recv_loop_early (pending : list (libusb_error * list byte)) :
  forall (devh : jaylink_device_handle) (buf : list byte) (off : nat)
         (tries transferred : Z) (e : jaylink_error)
         (devh' : jaylink_device_handle) (buf' : list byte) (n : Z),
    usb_recv_loop pending devh buf off tries transferred = (Some e, devh', buf', n) ->
    e = JAYLINK_ERR.
Proof.
  induction pending as [|o pending IH];
    intros devh buf off tries transferred e devh' buf' n;
    cbn [usb_recv_loop]; destruct (negb (tries =? 0) && (transferred =? 0));
    try discriminate; try (intros [= <- _ _ _]; reflexivity).
  destruct (is_timeout (fst o)); [|destruct (negb (is_success (fst o)))].
  - apply IH.
  - intros [= <- _ _ _]. reflexivity.
  - apply IH.
Qed.

(** usb_recv returns JAYLINK_OK with one byte at least and one chunk at
    most. *)
Lemma usb_recv_ok_count (devh : jaylink_device_handle) (buf : list byte) (off : nat)
  (devh' : jaylink_device_handle) (buf' : list byte) (n : Z) :
  usb_recv devh buf off = (JAYLINK_OK, devh', buf', n) -> 1 <= n <= CHUNK_SIZE.
Proof.
  unfold usb_recv.
  match goal with
  | |- context [usb_recv_loop ?p ?d ?b ?o ?t ?l] =>
      destruct (usb_recv_loop p d b o t l) as [[[early d'] b'] l'] eqn:E
  end.
  destruct early as [e|].
  - apply usb_recv_loop_early in E. subst e. discriminate.
  - apply usb_recv_loop_count in E; [|unfold CHUNK_SIZE; lia].
    destruct (Z.eqb_spec l' 0) as [Hz|Hz]; cbn [negb]; [discriminate|].
    intros [= _ _ <-].
    rewrite uint16_t_id by (unfold is_uint16, UINT16_MAX, CHUNK_SIZE in *; lia).
    lia.
Qed.

(** A turn of the loop that asks for less than a chunk: the data goes to
    the buffer of the handle first. *)
Lemma read_turn_small (fuel : nat) (devh : jaylink_device_handle) (buf : list byte)
  (off : nat) (length : Z) (ret : jaylink_error) (d : jaylink_device_handle)
  (scratch : list byte) (n : Z) :
  length <> 0 -> length < CHUNK_SIZE ->
  usb_recv devh (buffer devh) 0 = (ret, d, scratch, n) ->
  transport_read_loop (S fuel) devh buf off length =
    match ret with
    | JAYLINK_OK =>
        let d := set_buffer d scratch in
        if n >? read_length d then
          Some (JAYLINK_ERR,
                log_err d "Expected %u bytes from device but %u bytes received."
                  [ArgU (read_length d); ArgU n],
                buf)
        else
          let tmp := MIN n length in
          let d1 :=
            if n >? length then
              set_read_pos (set_bytes_available d (uint16_t (n - tmp))) tmp
            else d in
          let d2 := log_dbg d1 "Read %u bytes from buffer." [ArgU tmp] in
          transport_read_loop fuel
            (set_read_length d2 (uint16_t (read_length d2 - n)))
            (memcpy buf off (buffer d) (Z.to_nat tmp))
            (off + Z.to_nat tmp)%nat (uint16_t (length - tmp))
    | _ => Some (ret, set_buffer d scratch, buf)
    end.
Proof.
  intros Hz Hs E. cbn [transport_read_loop].
  rewrite (proj2 (Z.eqb_neq _ _) Hz), (proj2 (Z.ltb_lt _ _) Hs), E.
  destruct ret; reflexivity.
Qed.

(** A turn of the loop that asks for a chunk or more: the data goes to the
    area of the caller. *)
Lemma read_turn_large (fuel : nat) (devh : jaylink_device_handle) (buf : list byte)
  (off : nat) (length : Z) (ret : jaylink_error) (d : jaylink_device_handle)
  (buf' : list byte) (n : Z) :
  length <> 0 -> CHUNK_SIZE <= length ->
  usb_recv devh buf off = (ret, d, buf', n) ->
  transport_read_loop (S fuel) devh buf off length =
    match ret with
    | JAYLINK_OK =>
        if n >? read_length d then
          Some (JAYLINK_ERR,
                log_err d "Expected %u bytes from device but %u bytes received."
                  [ArgU (read_length d); ArgU n],
                buf')
        else
          let d2 := log_dbg d "Read %u bytes from device." [ArgU n] in
          transport_read_loop fuel
            (set_read_length d2 (uint16_t (read_length d2 - n)))
            buf' (off + Z.to_nat n)%nat (uint16_t (length - n))
    | _ => Some (ret, d, buf')
    end.
Proof.
  intros Hz Hs E. cbn [transport_read_loop].
  rewrite (proj2 (Z.eqb_neq _ _) Hz), (proj2 (Z.ltb_ge _ _) Hs), E.
  destruct ret; reflexivity.
Qed.

Lemma received_fields (d d' : jaylink_device_handle)
  (rest : list (libusb_error * list byte)) :
  received d d' rest ->
  read_length d' = read_length d /\ bytes_available d' = bytes_available d /\
  read_pos d' = read_pos d /\ write_length d' = write_length d /\
  write_pos d' = write_pos d.
Proof.
  unfold received, framing. intros (_ & _ & H & _).
  injection H as -> -> -> -> ->. repeat split.
Qed.

(** transport_read returns: the turns its length allows are enough for its
    loop. *)
Lemma transport_read_loop_total (fuel : nat) :
  forall (devh : jaylink_device_handle) (buf : list byte) (off : nat) (length : Z),
    is_uint16 length -> is_uint16 (read_length devh) ->
    (Z.to_nat length <= fuel)%nat ->
    exists r, transport_read_loop fuel devh buf off length = Some r.
Proof.
  induction fuel as [|fuel IH]; intros devh buf off length Hl Hr Hf;
    unfold is_uint16, UINT16_MAX in Hl, Hr.
  - assert (length = 0) by lia. subst. cbn. eauto.
  - destruct (Z.eq_dec length 0) as [->|Hz]; [cbn; eauto|].
    destruct (Z_lt_le_dec length CHUNK_SIZE) as [Hs|Hs].
    + destruct (usb_recv devh (buffer devh) 0) as [[[ret d] scratch] n] eqn:E.
      rewrite (read_turn_small fuel devh buf off length ret d scratch n Hz Hs E).
      destruct ret; eauto.
      apply usb_recv_ok_count in E as Hn.
      destruct (usb_recv_frame devh (buffer devh) 0) as (rest & R).
      rewrite E in R. cbn [fst snd] in R. apply received_fields in R.
      destruct R as (Rl & _).
      cbv zeta. cbn [read_length set_buffer]. rewrite Rl.
      destruct (Z.gtb_spec n (read_length devh)); eauto.
      apply IH.
      * rewrite uint16_t_id by (unfold is_uint16, UINT16_MAX; rewrite MIN_spec; lia).
        unfold is_uint16, UINT16_MAX. rewrite MIN_spec. lia.
      * cbn [read_length set_read_length].
        unfold uint16_t, is_uint16, UINT16_MAX.
        match goal with |- 0 <= ?a mod 65536 <= _ =>
          pose proof (Z.mod_pos_bound a 65536 ltac:(lia)) end. lia.
      * rewrite uint16_t_id by (unfold is_uint16, UINT16_MAX; rewrite MIN_spec; lia).
        rewrite MIN_spec. lia.
    + destruct (usb_recv devh buf off) as [[[ret d] buf'] n] eqn:E.
      rewrite (read_turn_large fuel devh buf off length ret d buf' n Hz Hs E).
      destruct ret; eauto.
      apply usb_recv_ok_count in E as Hn.
      destruct (Z.gtb_spec n (read_length d)); eauto.
      cbv zeta. apply IH.
      * rewrite uint16_t_id by (unfold is_uint16, UINT16_MAX; lia).
        unfold is_uint16, UINT16_MAX. lia.
      * cbn [read_length set_read_length].
        unfold uint16_t, is_uint16, UINT16_MAX.
        match goal with |- 0 <= ?a mod 65536 <= _ =>
          pose proof (Z.mod_pos_bound a 65536 ltac:(lia)) end. lia.
      * rewrite uint16_t_id by (unfold is_uint16, UINT16_MAX; lia). lia.
Qed.

(** transport_read returns, whatever the handle and the device. *)
Lemma transport_read_returns (devh : jaylink_device_handle) (buf : list byte)
  (length : Z) :
  is_uint16 length -> is_uint16 (read_length devh) ->
  is_uint16 (bytes_available devh) ->
  exists r, transport_read devh buf length = Some r.
Proof.
  intros Hl Hr Ha. unfold transport_read.
  destruct (length >? read_length devh + bytes_available devh); [eauto|].
  destruct (Z.leb_spec length (bytes_available devh)); [eauto|].
  unfold is_uint16, UINT16_MAX in *.
  destruct (bytes_available devh =? 0).
  - apply transport_read_loop_total; unfold is_uint16, UINT16_MAX; auto.
  - cbv zeta. apply transport_read_loop_total.
    + rewrite uint16_t_id by (unfold is_uint16, UINT16_MAX; lia).
      unfold is_uint16, UINT16_MAX. lia.
    + exact Hr.
    + lia.
Qed.

(** ** More bytes received than expected (C7) *)

Lemma oversized_receive_turn (fuel : nat) (devh : jaylink_device_handle)
  (buf : list byte) (off : nat) (length : Z) (e : libusb_error) (data : list byte)
  (rest : list (libusb_error * list byte)) :
  length <> 0 ->
  in_pending (usb_devh devh) = (e, data) :: rest ->
  is_success e || is_timeout e = true ->
  Z.of_nat (List.length data) <= CHUNK_SIZE ->
  0 <= read_length devh < Z.of_nat (List.length data) ->
  exists devh' buf',
    transport_read_loop (S fuel) devh buf off length
      = Some (JAYLINK_ERR, devh', buf') /\
    in_pending (usb_devh devh') = rest /\ framing devh' = framing devh.
Proof.
  intros Hz Hp He Hc Hr.
  assert (Hd : 1 <= Z.of_nat (List.length data) <= CHUNK_SIZE) by lia.
  destruct (Z_lt_le_dec length CHUNK_SIZE) as [Hs|Hs].
  - destruct (usb_recv_data devh (buffer devh) 0 e data rest Hp He Hd)
      as (d & E & R).
    rewrite (read_turn_small fuel devh buf off length _ _ _ _ Hz Hs E).
    cbv zeta. cbn [read_length set_buffer].
    destruct (received_fields _ _ _ R) as (Rl & _). rewrite Rl.
    destruct (Z.gtb_spec (Z.of_nat (List.length data)) (read_length devh)); [|lia].
    eexists _, _. split; [reflexivity|].
    destruct R as (Ru & _ & Rf & _).
    cbn [usb_devh framing read_length bytes_available read_pos write_length write_pos
         log_err log set_ctx set_buffer].
    rewrite Ru. split; [reflexivity|exact Rf].
  - destruct (usb_recv_data devh buf off e data rest Hp He Hd) as (d & E & R).
    rewrite (read_turn_large fuel devh buf off length _ _ _ _ Hz Hs E).
    destruct (received_fields _ _ _ R) as (Rl & _). rewrite Rl.
    destruct (Z.gtb_spec (Z.of_nat (List.length data)) (read_length devh)); [|lia].
    eexists _, _. split; [reflexivity|].
    destruct R as (Ru & _ & Rf & _).
    cbn [usb_devh framing read_length bytes_available read_pos write_length write_pos
         log_err log set_ctx].
    rewrite Ru. split; [reflexivity|exact Rf].
Qed.

(** C7. [n] bytes were declared for the read operation, so that at most
    [n] bytes are still expected (read_length is at most [n]).  A transfer
    that delivers more than [n] bytes, with LIBUSB_SUCCESS or with a
    timeout, makes the turn of the loop of transport_read that received it
    return JAYLINK_ERR, and so the call of transport_read that had to
    receive; no further transfer is made. *)
Theorem oversized_receive_is_error (devh : jaylink_device_handle) (buf : list byte)
  (off fuel : nat) (length n : Z) (e : libusb_error) (data : list byte)
  (rest : list (libusb_error * list byte)) :
  is_uint16 (read_length devh) -> is_uint16 (bytes_available devh) ->
  is_uint16 length ->
  in_pending (usb_devh devh) = (e, data) :: rest ->
  is_success e || is_timeout e = true ->
  Z.of_nat (List.length data) <= CHUNK_SIZE ->
  read_length devh <= n -> n < Z.of_nat (List.length data) ->
  (length <> 0 ->
   exists devh' buf',
     transport_read_loop (S fuel) devh buf off length
       = Some (JAYLINK_ERR, devh', buf') /\
     in_pending (usb_devh devh') = rest) /\
  (bytes_available devh < length <= read_length devh + bytes_available devh ->
   exists devh' buf',
     transport_read devh buf length = Some (JAYLINK_ERR, devh', buf') /\
     in_pending (usb_devh devh') = rest).
Proof.
  intros Hr Ha Hl Hp He Hc Hn Hd. unfold is_uint16, UINT16_MAX in *.
  split.
  - intros Hz.
    destruct (oversized_receive_turn fuel devh buf off length e data rest)
      as (devh' & buf' & E & P & _); try assumption; [lia|].
    exists devh', buf'. split; assumption.
  - intros Hlen. unfold transport_read.
    destruct (Z.gtb_spec length (read_length devh + bytes_available devh)); [lia|].
    destruct (Z.leb_spec length (bytes_available devh)); [lia|].
    destruct (Z.eqb_spec (bytes_available devh) 0) as [Hz|Hz].
    + destruct (Z.to_nat length) as [|fuel'] eqn:Ef; [lia|].
      destruct (oversized_receive_turn fuel' devh buf 0 length e data rest)
        as (devh' & buf' & E & P & _); try assumption; [lia|lia|].
      exists devh', buf'. split; assumption.
    + cbv zeta.
      rewrite uint16_t_id by (unfold is_uint16, UINT16_MAX; lia).
      destruct (Z.to_nat (length - bytes_available devh)) as [|fuel'] eqn:Ef; [lia|].
      match goal with
      | |- context [transport_read_loop _ ?d ?b ?o ?l] =>
          destruct (oversized_receive_turn fuel' d b o l e data rest)
            as (devh' & buf' & E & P & _)
      end; try assumption;
        [lia
        |cbn [read_length set_read_pos set_bytes_available log_dbg log set_ctx]; lia|].
      exists devh', buf'. split; assumption.
Qed.

Lemma oversized_receive_is_error_witness :
  (read_length (snd (transport_start_read (fresh_handle six_byte_device) 5)) <= 5 /\
   5 < Z.of_nat (List.length [x0a; x0b; x0c; x0d; x0e; x0f])) /\
  exists devh' buf',
    transport_read (snd (transport_start_read (fresh_handle six_byte_device) 5))
      (repeat x00 5) 5
    = Some (JAYLINK_ERR, devh', buf') /\
    in_pending (usb_devh devh') = [].
Proof.
  assert (Hn : read_length (snd (transport_start_read (fresh_handle six_byte_device) 5))
               <= 5) by (vm_compute; discriminate).
  assert (Hd : 5 < Z.of_nat (List.length [x0a; x0b; x0c; x0d; x0e; x0f]))
    by (vm_compute; reflexivity).
  split; [split; assumption|].
  refine (proj2 (oversized_receive_is_error
                   (snd (transport_start_read (fresh_handle six_byte_device) 5))
                   (repeat x00 5) 0%nat 0%nat 5 5 LIBUSB_SUCCESS
                   [x0a; x0b; x0c; x0d; x0e; x0f] [] _ _ _ eq_refl eq_refl _ Hn Hd) _);
    try (vm_compute; split; discriminate); vm_compute; try discriminate.
  split; [reflexivity|discriminate].
Defined.

(** ** Reading in any split (C2) *)

Lemma memcpy_src_ext (dst : list byte) (off : nat) (src src' : list byte) (n : nat) :
  firstn n src = firstn n src' -> memcpy dst off src n = memcpy dst off src' n.
Proof. intros H. unfold memcpy. now rewrite H. Qed.

Lemma memcpy_zero (dst : list byte) (off : nat) (src : list byte) :
  memcpy dst off src 0 = dst.
Proof.
  unfold memcpy. cbn [firstn app]. rewrite Nat.add_0_r. apply firstn_skipn.
Qed.

Lemma memcpy_memcpy (dst : list byte) (off : nat) (c x : list byte) (m : nat) :
  (off + List.length c <= List.length dst)%nat ->
  memcpy (memcpy dst off c (List.length c)) (off + List.length c) x m
  = memcpy dst off (c ++ x) (List.length c + m).
Proof.
  intros H. unfold memcpy at 2. rewrite (firstn_all c).
  unfold memcpy.
  assert (Hl : List.length (firstn off dst ++ c) = (off + List.length c)%nat).
  { rewrite length_app, length_firstn. lia. }
  rewrite (app_assoc (firstn off dst) c).
  rewrite <- Hl at 1. rewrite firstn_app, firstn_all, Nat.sub_diag.
  cbn [firstn]. rewrite app_nil_r.
  replace (off + List.length c + m)%nat
    with (List.length (firstn off dst ++ c) + m)%nat by lia.
  rewrite skipn_app, skipn_all2 by lia.
  replace (List.length (firstn off dst ++ c) + m
           - List.length (firstn off dst ++ c))%nat with m by lia.
  cbn [app]. rewrite skipn_skipn.
  rewrite (firstn_app (List.length c + m) c x).
  rewrite (firstn_all2 (n := (List.length c + m)%nat) c) by lia.
  replace (List.length c + m - List.length c)%nat with m by lia.
  rewrite <- !app_assoc. do 3 f_equal. f_equal. lia.
Qed.

Lemma firstn_add_skipn (A : Type) (l : list A) (a b : nat) :
  firstn (a + b) l = firstn a l ++ firstn b (skipn a l).
Proof.
  revert l. induction a as [|a IH]; intros l; [reflexivity|].
  destruct l as [|x l]; [cbn; now rewrite firstn_nil|].
  cbn [Nat.add firstn skipn app]. now rewrite IH.
Qed.

Lemma buffered_none (d : jaylink_device_handle) :
  bytes_available d = 0 -> buffered d = [].
Proof. intros H. unfold buffered. now rewrite H. Qed.

Lemma read_inv_intro (d d' : jaylink_device_handle) (cs : list (list byte))
  (rest : list (libusb_error * list byte)) :
  handle_ok d ->
  in_pending (usb_devh d') = map ok_chunk cs ++ rest ->
  ok_chunks cs ->
  Z.of_nat (List.length (buffer d')) = BUFFER_SIZE ->
  read_length d' = Z.of_nat (List.length (List.concat cs)) ->
  read_length d' <= UINT16_MAX ->
  0 <= bytes_available d' -> 0 <= read_pos d' ->
  read_pos d' + bytes_available d' <= BUFFER_SIZE ->
  write_length d' = write_length d -> write_pos d' = write_pos d ->
  read_inv d' cs rest.
Proof.
  intros Hok Hp Hc Hb Hr Hu Ha Hrp Hw Hwl Hwp.
  split; [|split; [exact Hp|split; [exact Hc|symmetry; exact Hr]]].
  destruct Hok.
  constructor; rewrite ?Hwl, ?Hwp; try assumption;
    unfold is_uint16, UINT16_MAX, BUFFER_SIZE, CHUNK_SIZE in *; lia.
Qed.

Lemma read_loop_done (fuel : nat) (d : jaylink_device_handle) (buf : list byte)
  (off : nat) :
  transport_read_loop fuel d buf off 0 = Some (JAYLINK_OK, d, buf).
Proof. destruct fuel; reflexivity. Qed.

(** The loop of transport_read when the device delivers the areas of
    [chunks] and nothing is buffered: [length] bytes of them go to the area
    of the caller, from [off] on; what is left of the last area received
    is buffered. *)
Lemma read_loop_chunks (rest : list (libusb_error * list byte))
  (chunks : list (list byte)) :
  forall (d : jaylink_device_handle) (buf : list byte) (off : nat) (length : Z)
         (fuel : nat),
    read_inv d chunks rest -> bytes_available d = 0 ->
    0 <= length <= Z.of_nat (List.length (List.concat chunks)) ->
    (off + Z.to_nat length <= List.length buf)%nat ->
    (Z.to_nat length <= fuel)%nat ->
    exists d' chunks',
      transport_read_loop fuel d buf off length
        = Some (JAYLINK_OK, d',
                memcpy buf off (List.concat chunks) (Z.to_nat length)) /\
      read_inv d' chunks' rest /\
      expected d' chunks' = skipn (Z.to_nat length) (List.concat chunks) /\
      write_length d' = write_length d /\ write_pos d' = write_pos d.
Proof.
  induction chunks as [|c cs IH]; intros d buf off length fuel Hinv Hba Hlen Hoff Hfuel.
  - cbn [List.concat List.length Z.of_nat] in Hlen.
    assert (length = 0) by lia. subst length.
    rewrite read_loop_done, memcpy_zero. exists d, [].
    split; [reflexivity|]. split; [exact Hinv|].
    unfold expected. rewrite buffered_none by assumption. auto.
  - destruct (Z.eq_dec length 0) as [->|Hz].
    { rewrite read_loop_done, memcpy_zero. exists d, (c :: cs).
      split; [reflexivity|]. split; [exact Hinv|].
      unfold expected. rewrite buffered_none by assumption. auto. }
    destruct fuel as [|fuel]; [lia|].
    destruct Hinv as (Hok & Hp & Hc & Hr).
    inversion Hc as [|? ? Hc1 Hcs]; subst.
    cbn [map app] in Hp. cbn [List.concat] in Hr, Hlen |- *.
    rewrite length_app, Nat2Z.inj_add in Hr, Hlen.
    pose proof (ok_buffer _ Hok) as Hbuf.
    pose proof (ok_read_length _ Hok) as Hrl. unfold is_uint16 in Hrl.
    pose proof (ok_read_pos _ Hok) as Hrp. unfold is_uint16 in Hrp.
    pose proof (ok_read_window _ Hok) as Hrw.
    unfold UINT16_MAX, BUFFER_SIZE in *.
    destruct (Z_lt_le_dec length CHUNK_SIZE) as [Hs|Hs].
    + (* less than a chunk is asked for *)
      destruct (usb_recv_data d (buffer d) 0 LIBUSB_SUCCESS c _ Hp eq_refl Hc1)
        as (d1 & E & R).
      rewrite (read_turn_small fuel d buf off length _ _ _ _ Hz Hs E).
      destruct (received_fields _ _ _ R) as (R1 & R2 & R3 & R4 & R5).
      destruct R as (Ru & _).
      rewrite memcpy_0_all by lia.
      cbv zeta. cbn [read_length set_buffer buffer]. rewrite R1.
      destruct (Z.gtb_spec (Z.of_nat (List.length c)) (read_length d)) as [?|_]; [lia|].
      rewrite MIN_spec.
      destruct (Z.gtb_spec (Z.of_nat (List.length c)) length) as [Hgt|Hle].
      * (* the area received is larger than what is asked for *)
        rewrite Z.min_r, Z.sub_diag by lia. change (uint16_t 0) with 0.
        rewrite read_loop_done.
        cbn [read_length log_dbg log set_ctx set_read_pos set_bytes_available
             set_buffer].
        rewrite R1, !uint16_t_id by (unfold is_uint16, UINT16_MAX, CHUNK_SIZE in *; lia).
        eexists _, cs. split; [|split; [|split; [|split]]].
        -- apply f_equal. apply f_equal2; [reflexivity|]. apply memcpy_src_ext.
           rewrite !firstn_app.
           replace (Z.to_nat length - List.length c)%nat with 0%nat by lia.
           reflexivity.
        -- apply (read_inv_intro d);
             cbn [usb_devh buffer read_length bytes_available read_pos write_length
                  write_pos set_read_length log_dbg log set_ctx set_read_pos
                  set_bytes_available set_buffer];
             try assumption; unfold UINT16_MAX, BUFFER_SIZE; try lia.
           ++ rewrite Ru. reflexivity.
           ++ rewrite length_app, length_skipn. lia.
        -- unfold expected, buffered.
           cbn [buffer read_length bytes_available read_pos set_read_length log_dbg
                log set_ctx set_read_pos set_bytes_available set_buffer].
           rewrite skipn_app, firstn_app, length_skipn.
           replace (Z.to_nat (Z.of_nat (List.length c) - length)
                    - (List.length c - Z.to_nat length))%nat with 0%nat by lia.
           rewrite firstn_O, app_nil_r.
           rewrite firstn_all2 by (rewrite length_skipn; lia).
           rewrite (skipn_app (Z.to_nat length) c).
           replace (Z.to_nat length - List.length c)%nat with 0%nat by lia.
           reflexivity.
        -- cbn. exact R4.
        -- cbn. exact R5.
      * (* all of the area received is asked for *)
        rewrite Z.min_l by lia.
        cbn [read_length log_dbg log set_ctx set_buffer].
        rewrite R1, !uint16_t_id by (unfold is_uint16, UINT16_MAX, CHUNK_SIZE in *; lia).
        rewrite Nat2Z.id.
        rewrite (memcpy_src_ext buf off (c ++ skipn (List.length c) (buffer d)) c)
          by (rewrite firstn_app, Nat.sub_diag, firstn_O, app_nil_r; reflexivity).
        match goal with
        | |- context [transport_read_loop fuel ?d' ?b' ?o' ?l'] =>
            destruct (IH d' b' o' l' fuel) as (d2 & cs' & E2 & I2 & X2 & W1 & W2)
        end.
        -- apply (read_inv_intro d);
             cbn [usb_devh buffer read_length bytes_available read_pos write_length
                  write_pos set_read_length log_dbg log set_ctx set_buffer];
             try assumption; unfold UINT16_MAX, BUFFER_SIZE; try lia.
           ++ rewrite Ru. reflexivity.
           ++ rewrite length_app, length_skipn. lia.
        -- cbn. congruence.
        -- lia.
        -- rewrite length_memcpy by lia. lia.
        -- lia.
        -- exists d2, cs'. rewrite E2.
           split; [|split; [exact I2|split; [|split]]].
           ++ apply f_equal. apply f_equal2; [reflexivity|].
              rewrite memcpy_memcpy by lia. f_equal. lia.
           ++ rewrite X2, skipn_app, (skipn_all2 (n := Z.to_nat length) c) by lia.
              cbn [app]. f_equal. lia.
           ++ rewrite W1. cbn. exact R4.
           ++ rewrite W2. cbn. exact R5.
    + (* a chunk or more is asked for *)
      destruct (usb_recv_data d buf off LIBUSB_SUCCESS c _ Hp eq_refl Hc1)
        as (d1 & E & R).
      rewrite (read_turn_large fuel d buf off length _ _ _ _ Hz Hs E).
      destruct (received_fields _ _ _ R) as (R1 & R2 & R3 & R4 & R5).
      destruct R as (Ru & Rb & _).
      rewrite R1.
      destruct (Z.gtb_spec (Z.of_nat (List.length c)) (read_length d)) as [?|_]; [lia|].
      cbv zeta. cbn [read_length log_dbg log set_ctx].
      rewrite R1, !uint16_t_id by (unfold is_uint16, UINT16_MAX, CHUNK_SIZE in *; lia).
      rewrite Nat2Z.id.
      match goal with
      | |- context [transport_read_loop fuel ?d' ?b' ?o' ?l'] =>
          destruct (IH d' b' o' l' fuel) as (d2 & cs' & E2 & I2 & X2 & W1 & W2)
      end.
      * apply (read_inv_intro d);
          cbn [usb_devh buffer read_length bytes_available read_pos write_length
               write_pos set_read_length log_dbg log set_ctx];
          try assumption; unfold UINT16_MAX, BUFFER_SIZE; try lia.
        -- rewrite Ru. reflexivity.
        -- rewrite Rb. exact Hbuf.
      * cbn. congruence.
      * lia.
      * rewrite length_memcpy by lia. lia.
      * lia.
      * exists d2, cs'. rewrite E2.
        split; [|split; [exact I2|split; [|split]]].
        -- apply f_equal. apply f_equal2; [reflexivity|].
           rewrite memcpy_memcpy by lia. f_equal. lia.
        -- rewrite X2, skipn_app, (skipn_all2 (n := Z.to_nat length) c) by lia.
              cbn [app]. f_equal. lia.
        -- rewrite W1. cbn. exact R4.
        -- rewrite W2. cbn. exact R5.
Qed.

Lemma length_buffered (d : jaylink_device_handle) :
  handle_ok d -> Z.of_nat (List.length (buffered d)) = bytes_available d.
Proof.
  intros Hok. destruct Hok.
  unfold is_uint16, UINT16_MAX, BUFFER_SIZE, CHUNK_SIZE in *.
  unfold buffered. rewrite length_firstn, length_skipn. lia.
Qed.

(** One call of transport_read that fills the area [c], when the device
    delivers the areas of [chunks]: the area gets the next bytes the
    operation expects. *)
Lemma read_call (d : jaylink_device_handle) (chunks : list (list byte))
  (rest : list (libusb_error * list byte)) (c : list byte) :
  read_inv d chunks rest -> is_uint16 (Z.of_nat (List.length c)) ->
  (List.length c <= List.length (expected d chunks))%nat ->
  exists d' chunks',
    transport_read d c (Z.of_nat (List.length c))
      = Some (JAYLINK_OK, d', firstn (List.length c) (expected d chunks)) /\
    read_inv d' chunks' rest /\
    expected d' chunks' = skipn (List.length c) (expected d chunks) /\
    write_length d' = write_length d /\ write_pos d' = write_pos d.
Proof.
  intros Hinv Hu Hlen.
  pose proof Hinv as (Hok & Hp & Hc & Hr).
  pose proof (length_buffered d Hok) as Hlb.
  pose proof (ok_buffer _ Hok) as Hbuf.
  pose proof (ok_read_length _ Hok) as Hrl.
  pose proof (ok_read_pos _ Hok) as Hrp.
  pose proof (ok_bytes_available _ Hok) as Hba.
  pose proof (ok_read_window _ Hok) as Hrw.
  unfold is_uint16, UINT16_MAX, BUFFER_SIZE, CHUNK_SIZE in *.
  unfold expected in *. rewrite length_app in Hlen.
  set (L := List.length c) in *.
  set (X := skipn (Z.to_nat (read_pos d)) (buffer d)).
  assert (HX : (Z.to_nat (bytes_available d) <= List.length X)%nat)
    by (unfold X; rewrite length_skipn; lia).
  assert (Hskip : skipn L c = []) by (apply skipn_all).
  unfold transport_read.
  destruct (Z.gtb_spec (Z.of_nat L) (read_length d + bytes_available d)); [lia|].
  destruct (Z.leb_spec (Z.of_nat L) (bytes_available d)) as [Hle|Hgt].
  - (* served from the buffer *)
    rewrite Nat2Z.id. fold X. cbv zeta. cbn [read_pos set_bytes_available].
    rewrite (uint16_t_id (bytes_available d - Z.of_nat L)),
      (uint16_t_id (read_pos d + Z.of_nat L))
      by (unfold is_uint16, UINT16_MAX; lia).
    eexists _, chunks. split; [|split; [|split; [|split]]].
    + apply f_equal. apply f_equal2; [reflexivity|].
      unfold memcpy. cbn [firstn app Nat.add]. rewrite Hskip, app_nil_r.
      unfold buffered. fold X. rewrite firstn_app, firstn_firstn.
      rewrite length_firstn.
      replace (L - Nat.min (Z.to_nat (bytes_available d)) (List.length X))%nat
        with 0%nat by lia.
      rewrite firstn_O, app_nil_r. f_equal. lia.
    + apply (read_inv_intro d);
        cbn [usb_devh buffer read_length bytes_available read_pos write_length
             write_pos log_dbg log set_ctx set_read_pos set_bytes_available];
        try assumption; unfold UINT16_MAX, BUFFER_SIZE, CHUNK_SIZE; try lia.
    + unfold expected, buffered.
      cbn [buffer bytes_available read_pos log_dbg log set_ctx set_read_pos
           set_bytes_available].
      fold X. rewrite skipn_app, length_firstn.
      replace (L - Nat.min (Z.to_nat (bytes_available d)) (List.length X))%nat
        with 0%nat by lia.
      cbn [skipn]. f_equal.
      rewrite skipn_firstn_sub. unfold X. rewrite skipn_skipn.
      f_equal; [lia|f_equal; lia].
    + reflexivity.
    + reflexivity.
  - (* the buffer is drained and the loop receives *)
    assert (Hbuffered : buffered d = firstn (Z.to_nat (bytes_available d)) X)
      by reflexivity.
    assert (Hbl : List.length (buffered d) = Z.to_nat (bytes_available d)) by lia.
    destruct (Z.eqb_spec (bytes_available d) 0) as [Hz|Hz].
    + destruct (read_loop_chunks rest chunks d c 0 (Z.of_nat L) (Z.to_nat (Z.of_nat L)))
        as (d' & chunks' & E & I & Xp & W1 & W2);
        [exact Hinv|exact Hz|lia|rewrite Nat2Z.id; cbn; unfold L; lia|lia|].
      rewrite !Nat2Z.id in E, Xp. unfold expected in Xp.
      exists d', chunks'. rewrite Nat2Z.id, E.
      rewrite (buffered_none d Hz) in *. cbn [app].
      split; [|split; [exact I|split; [exact Xp|split; assumption]]].
      apply f_equal. apply f_equal2; [reflexivity|].
      unfold memcpy. cbn [firstn app Nat.add]. now rewrite Hskip, app_nil_r.
    + cbv zeta. fold X.
      rewrite uint16_t_id by (unfold is_uint16, UINT16_MAX; lia).
      match goal with
      | |- context [transport_read_loop ?f ?d' ?b' ?o' ?l'] =>
          destruct (read_loop_chunks rest chunks d' b' o' l' f)
            as (d2 & chunks' & E & I & Xp & W1 & W2)
      end.
      * apply (read_inv_intro d);
          cbn [usb_devh buffer read_length bytes_available read_pos write_length
               write_pos log_dbg log set_ctx set_read_pos set_bytes_available];
          try assumption; unfold UINT16_MAX, BUFFER_SIZE, CHUNK_SIZE; try lia.
      * reflexivity.
      * lia.
      * rewrite length_memcpy by (cbn; fold L; lia). fold L. lia.
      * lia.
      * unfold expected in Xp. exists d2, chunks'. rewrite E.
        split; [|split; [exact I|split; [|split; assumption]]].
        -- apply f_equal. apply f_equal2; [reflexivity|].
           unfold memcpy at 1.
           change (Z.to_nat (bytes_available d))
             with (0 + Z.to_nat (bytes_available d))%nat at 1.
           rewrite firstn_memcpy by (fold L; lia).
           cbn [firstn app].
           rewrite skipn_all2 by (rewrite length_memcpy by (cbn; fold L; lia);
                                  fold L; lia).
           rewrite app_nil_r, <- Hbuffered.
           rewrite firstn_app, (firstn_all2 (n := L) (buffered d)) by lia.
           f_equal. f_equal. lia.
        -- rewrite Xp, skipn_app, (skipn_all2 (n := L) (buffered d)) by lia.
           cbn [app]. f_equal. lia.
Qed.

(** The calls of [calls] one after the other, when the device delivers the
    areas of [chunks]. *)
Lemma reads_content (rest : list (libusb_error * list byte))
  (calls : list (list byte)) :
  forall (d : jaylink_device_handle) (chunks : list (list byte)),
    read_inv d chunks rest ->
    Z.of_nat (List.length (List.concat calls)) <= UINT16_MAX ->
    (List.length (List.concat calls) <= List.length (expected d chunks))%nat ->
    exists bufs d' chunks',
      transport_reads d calls
        = Some (map (fun _ => JAYLINK_OK) calls, bufs, d') /\
      List.concat bufs
        = firstn (List.length (List.concat calls)) (expected d chunks) /\
      map (@List.length byte) bufs = map (@List.length byte) calls /\
      read_inv d' chunks' rest /\
      expected d' chunks'
        = skipn (List.length (List.concat calls)) (expected d chunks).
Proof.
  induction calls as [|c calls IH]; intros d chunks Hinv Hu Hlen.
  - exists [], d, chunks. cbn [transport_reads map List.concat List.length firstn skipn].
    split; [reflexivity|]. split; [reflexivity|]. split; [reflexivity|].
    split; [exact Hinv|reflexivity].
  - cbn [List.concat] in Hu, Hlen. rewrite length_app in Hu, Hlen.
    destruct (read_call d chunks rest c Hinv) as (d1 & chunks1 & E1 & I1 & X1 & _);
      [unfold is_uint16; lia|lia|].
    destruct (IH d1 chunks1 I1) as (bufs & d2 & chunks2 & E2 & C2 & M2 & I2 & X2);
      [lia|rewrite X1, length_skipn; lia|].
    exists (firstn (List.length c) (expected d chunks) :: bufs), d2, chunks2.
    cbn [transport_reads]. rewrite E1, E2.
    split; [reflexivity|]. cbn [List.concat map].
    split; [|split; [|split; [exact I2|]]].
    + rewrite C2, X1, length_app. symmetry. apply firstn_add_skipn.
    + rewrite M2, length_firstn. f_equal. lia.
    + rewrite X2, X1, skipn_skipn, length_app. f_equal. lia.
Qed.

Lemma concat_ok_chunks_nil (chunks : list (list byte)) :
  ok_chunks chunks -> List.concat chunks = [] -> chunks = [].
Proof.
  intros Hc Hn. destruct chunks as [|c cs]; [reflexivity|].
  inversion Hc as [|? ? Hc1 _]; subst. cbn [List.concat] in Hn.
  apply app_eq_nil in Hn. destruct Hn as [-> _]. cbn in Hc1. lia.
Qed.

Lemma handle_ok_start_read (devh : jaylink_device_handle) (n : Z) :
  handle_ok devh -> is_uint16 n -> n <> 0 ->
  handle_ok (snd (transport_start_read devh n)).
Proof.
  intros Hok Hu Hn.
  destruct (start_read_spec devh n Hn) as (d & -> & L & _).
  destruct (only_logged_fields _ _ L) as (E1 & E2 & E3 & E4 & E5).
  destruct L as (_ & Lb & _). destruct Hok.
  constructor;
    cbn [snd buffer read_length bytes_available read_pos write_length write_pos
         set_read_pos set_bytes_available set_read_length];
    rewrite ?E4, ?E5, ?Lb; try assumption;
    unfold is_uint16, UINT16_MAX, BUFFER_SIZE, CHUNK_SIZE in *; lia.
Qed.

(** C2, as the code has it.  A read operation of [n] bytes is started on a
    well-formed handle, and the next transfers of the device on the IN
    endpoint deliver the areas of [chunks], [n] bytes in all (so that no
    transfer delivers more than is still expected).  Then, however the [n]
    bytes are split into calls of transport_read, every call returns
    JAYLINK_OK and the areas of the callers, in call order, hold the bytes
    of [chunks], in the order received: the first [n] bytes the device
    delivers.  Nothing is left buffered or expected afterwards. *)
Theorem read_is_split_invariant (devh0 : jaylink_device_handle) (n : Z)
  (chunks calls : list (list byte)) (rest : list (libusb_error * list byte)) :
  handle_ok devh0 -> is_uint16 n -> 1 <= n ->
  in_pending (usb_devh devh0) = map ok_chunk chunks ++ rest ->
  ok_chunks chunks ->
  Z.of_nat (List.length (List.concat chunks)) = n ->
  Z.of_nat (List.length (List.concat calls)) = n ->
  exists bufs d',
    transport_reads (snd (transport_start_read devh0 n)) calls
      = Some (map (fun _ => JAYLINK_OK) calls, bufs, d') /\
    List.concat bufs = List.concat chunks /\
    List.concat bufs
      = firstn (Z.to_nat n)
          (List.concat (map snd (in_pending (usb_devh devh0)))) /\
    map (@List.length byte) bufs = map (@List.length byte) calls /\
    in_pending (usb_devh d') = rest /\
    read_length d' = 0 /\ bytes_available d' = 0.
Proof.
  intros Hok Hu Hn Hp Hc Hchunks Hcalls.
  assert (Hn0 : n <> 0) by lia.
  pose proof (handle_ok_start_read devh0 n Hok Hu Hn0) as Hok1.
  destruct (start_read_spec devh0 n Hn0) as (d & E & L & _).
  destruct L as (Lu & _).
  rewrite E in *. cbn [snd] in *.
  set (d1 := set_read_pos (set_bytes_available (set_read_length d n) 0) 0) in *.
  assert (Hinv : read_inv d1 chunks rest).
  { split; [exact Hok1|]. split; [cbn; rewrite Lu; exact Hp|].
    split; [exact Hc|]. cbn. exact Hchunks. }
  assert (Hexp : expected d1 chunks = List.concat chunks) by reflexivity.
  unfold is_uint16 in Hu.
  destruct (reads_content rest calls d1 chunks Hinv)
    as (bufs & d' & chunks' & E' & C' & M' & I' & X'); [lia|rewrite Hexp; lia|].
  rewrite Hexp in C', X'.
  assert (Hall : List.length (List.concat calls) = List.length (List.concat chunks))
    by lia.
  rewrite Hall in C', X'. rewrite firstn_all in C'. rewrite skipn_all in X'.
  exists bufs, d'. split; [exact E'|]. split; [exact C'|].
  split.
  { rewrite C', Hp, map_app, concat_app, map_map.
    cbn [ok_chunk snd]. rewrite map_id, <- Hchunks, Nat2Z.id.
    rewrite firstn_app, firstn_all, Nat.sub_diag, firstn_O, app_nil_r.
    reflexivity. }
  split; [exact M'|].
  unfold expected in X'. apply app_eq_nil in X'. destruct X' as [Xb Xc].
  destruct I' as (Hok' & Hp' & Hc' & Hr').
  apply concat_ok_chunks_nil in Xc as Hnil; [|exact Hc'].
  subst chunks'. cbn [map app List.concat List.length Z.of_nat] in Hp', Hr'.
  split; [exact Hp'|]. split; [congruence|].
  rewrite <- (length_buffered d' Hok'), Xb. reflexivity.
Qed.

Lemma read_is_split_invariant_witness :
  (handle_ok (fresh_handle five_byte_device) /\ is_uint16 5 /\ 1 <= 5 /\
   ok_chunks [[x0a; x0b; x0c]; [x0d; x0e]]) /\
  exists d',
    transport_reads (snd (transport_start_read (fresh_handle five_byte_device) 5))
      [[x00; x00]; [x00; x00; x00]]
    = Some ([JAYLINK_OK; JAYLINK_OK], [[x0a; x0b]; [x0c; x0d; x0e]], d').
Proof.
  assert (Hu : is_uint16 5) by (vm_compute; split; discriminate).
  assert (Hn : 1 <= 5) by lia.
  assert (Hc : ok_chunks [[x0a; x0b; x0c]; [x0d; x0e]]).
  { repeat constructor; vm_compute; discriminate. }
  split; [repeat split; try assumption; apply fresh_handle_ok|].
  destruct (read_is_split_invariant (fresh_handle five_byte_device) 5
              [[x0a; x0b; x0c]; [x0d; x0e]] [[x00; x00]; [x00; x00; x00]] []
              (fresh_handle_ok _) Hu Hn eq_refl Hc eq_refl eq_refl)
    as (bufs & d' & E & _).
  exists d'. rewrite E. vm_compute in E. injection E as E _. rewrite E. reflexivity.
Defined.

(** A read operation of five bytes when the device delivers six bytes in
    one transfer: transport_read returns JAYLINK_ERR and the area of the
    caller does not get the first five of them. *)
Lemma read_of_oversized_chunk_fails :
  (exists d',
     transport_reads (snd (transport_start_read (fresh_handle six_byte_device) 5))
       [repeat x00 5]
     = Some ([JAYLINK_ERR], [repeat x00 5], d')) /\
  ~ read_split_claim.
Proof.
  split; [eexists; vm_compute; reflexivity|].
  intros H.
  destruct (H (fresh_handle six_byte_device) 5 [[x0a; x0b; x0c; x0d; x0e; x0f]]
              [repeat x00 5] (fresh_handle_ok _))
    as (rets & bufs & d' & E & C).
  - vm_compute. split; discriminate.
  - lia.
  - reflexivity.
  - repeat constructor; vm_compute; discriminate.
  - vm_compute. discriminate.
  - reflexivity.
  - vm_compute in E. injection E as _ E _. subst bufs.
    vm_compute in C. discriminate C.
Qed.

(** ** Every handle the layer can be in is well-formed *)

Lemma usb_recv_loop_length (pending : list (libusb_error * list byte)) :
  forall (devh : jaylink_device_handle) (buf : list byte) (off : nat)
         (tries transferred : Z) (early : option jaylink_error)
         (devh' : jaylink_device_handle) (buf' : list byte) (n : Z),
    (off + Z.to_nat CHUNK_SIZE <= List.length buf)%nat ->
    usb_recv_loop pending devh buf off tries transferred = (early, devh', buf', n) ->
    List.length buf' = List.length buf.
Proof.
  induction pending as [|o pending IH];
    intros devh buf off tries transferred early devh' buf' n Hoff;
    cbn [usb_recv_loop]; destruct (negb (tries =? 0) && (transferred =? 0));
    try (intros [= _ _ <- _]; reflexivity).
  assert (Hd : (List.length (bulk_in_data CHUNK_SIZE o) <= Z.to_nat CHUNK_SIZE)%nat).
  { unfold bulk_in_data. rewrite length_firstn. lia. }
  assert (Hm : List.length
                 (memcpy buf off (bulk_in_data CHUNK_SIZE o)
                    (List.length (bulk_in_data CHUNK_SIZE o)))
               = List.length buf) by (apply length_memcpy; lia).
  destruct (is_timeout (fst o)); [|destruct (negb (is_success (fst o)))].
  - intros H. apply IH in H; [congruence|lia].
  - intros [= _ _ <- _]. exact Hm.
  - intros H. apply IH in H; [congruence|lia].
Qed.

Lemma usb_recv_length (devh : jaylink_device_handle) (buf : list byte) (off : nat) :
  (off + Z.to_nat CHUNK_SIZE <= List.length buf)%nat ->
  List.length (snd (fst (usb_recv devh buf off))) = List.length buf.
Proof.
  intros Hoff. unfold usb_recv.
  match goal with
  | |- context [usb_recv_loop ?p ?d ?b ?o ?t ?l] =>
      destruct (usb_recv_loop p d b o t l) as [[[early d'] b'] l'] eqn:E
  end.
  apply usb_recv_loop_length in E; [|exact Hoff].
  destruct early as [e|]; [|destruct (negb (l' =? 0))]; exact E.
Qed.

Lemma handle_ok_received (d d' : jaylink_device_handle)
  (rest : list (libusb_error * list byte)) (scratch : list byte) :
  handle_ok d -> received d d' rest ->
  List.length scratch = List.length (buffer d) ->
  handle_ok (set_buffer d' scratch).
Proof.
  intros Hok R Hs. destruct (received_fields _ _ _ R) as (E1 & E2 & E3 & E4 & E5).
  destruct Hok. constructor;
    cbn [buffer read_length bytes_available read_pos write_length write_pos
         set_buffer]; rewrite ?E1, ?E2, ?E3, ?E4, ?E5, ?Hs; assumption.
Qed.

Lemma handle_ok_read_cursors (d : jaylink_device_handle) (rl ba rp : Z) :
  handle_ok d -> is_uint16 rl -> 0 <= ba -> 0 <= rp -> rp + ba <= BUFFER_SIZE ->
  handle_ok (set_read_length (set_read_pos (set_bytes_available d ba) rp) rl).
Proof.
  intros Hok Hl Ha Hp Hw. destruct Hok.
  constructor;
    cbn [buffer read_length bytes_available read_pos write_length write_pos
         set_read_length set_read_pos set_bytes_available]; try assumption;
    unfold is_uint16, UINT16_MAX, BUFFER_SIZE, CHUNK_SIZE in *; lia.
Qed.

Lemma handle_ok_read_loop (fuel : nat) :
  forall (devh : jaylink_device_handle) (buf : list byte) (off : nat) (length : Z)
         (ret : jaylink_error) (d' : jaylink_device_handle) (buf' : list byte),
    handle_ok devh -> is_uint16 length ->
    transport_read_loop fuel devh buf off length = Some (ret, d', buf') ->
    handle_ok d'.
Proof.
  induction fuel as [|fuel IH]; intros devh buf off length ret d' buf' Hok Hl.
  - cbn [transport_read_loop]. destruct (length =? 0); [|discriminate].
    intros [= _ <- _]. exact Hok.
  - destruct (Z.eq_dec length 0) as [->|Hz].
    { rewrite read_loop_done. intros [= _ <- _]. exact Hok. }
    pose proof (ok_buffer _ Hok) as Hbuf.
    pose proof (ok_read_length _ Hok) as Hrl.
    pose proof (ok_bytes_available _ Hok) as Hba.
    pose proof (ok_read_pos _ Hok) as Hrp.
    pose proof (ok_read_window _ Hok) as Hrw.
    unfold is_uint16, UINT16_MAX, BUFFER_SIZE in *.
    destruct (Z_lt_le_dec length CHUNK_SIZE) as [Hs|Hs].
    + destruct (usb_recv devh (buffer devh) 0) as [[[r d] scratch] n] eqn:E.
      rewrite (read_turn_small fuel devh buf off length r d scratch n Hz Hs E).
      pose proof (usb_recv_length devh (buffer devh) 0) as Hlen.
      rewrite E in Hlen. cbn [fst snd] in Hlen.
      destruct (usb_recv_frame devh (buffer devh) 0) as (rest & R).
      rewrite E in R. cbn [fst snd] in R.
      assert (Hok1 : handle_ok (set_buffer d scratch)).
      { eapply handle_ok_received;
          [exact Hok|exact R|apply Hlen; unfold CHUNK_SIZE in *; lia]. }
      destruct (received_fields _ _ _ R) as (R1 & R2 & R3 & _).
      destruct r; try (intros [= _ <- _]; exact Hok1).
      apply usb_recv_ok_count in E as Hn.
      cbv zeta. cbn [read_length set_buffer]. rewrite R1.
      destruct (Z.gtb_spec n (read_length devh)) as [Hgt|Hle];
        [intros [= _ <- _]; eapply handle_ok_only_logged;
         [exact Hok1|apply only_logged_log]|].
      rewrite MIN_spec.
      apply IH.
      * destruct (Z.gtb_spec n length) as [Hnl|Hnl].
        -- rewrite Z.min_r by lia.
           cbn [read_length log_dbg log set_ctx set_read_pos set_bytes_available
                set_buffer].
           rewrite R1, !uint16_t_id
             by (unfold is_uint16, UINT16_MAX, CHUNK_SIZE in *; lia).
           eapply handle_ok_only_logged
             with (d := set_read_length
                          (set_read_pos
                             (set_bytes_available (set_buffer d scratch) (n - length))
                             length)
                          (read_length devh - n)).
           ++ apply handle_ok_read_cursors; [exact Hok1| | | |];
                unfold is_uint16, UINT16_MAX, BUFFER_SIZE, CHUNK_SIZE in *; lia.
           ++ repeat split.
        -- rewrite Z.min_l by lia.
           cbn [read_length log_dbg log set_ctx set_buffer].
           rewrite R1, !uint16_t_id
             by (unfold is_uint16, UINT16_MAX, CHUNK_SIZE in *; lia).
           eapply handle_ok_only_logged
             with (d := set_read_length
                          (set_read_pos
                             (set_bytes_available (set_buffer d scratch)
                                (bytes_available devh))
                             (read_pos devh))
                          (read_length devh - n)).
           ++ apply handle_ok_read_cursors; [exact Hok1| | | |];
                unfold is_uint16, UINT16_MAX, BUFFER_SIZE, CHUNK_SIZE in *; lia.
           ++ unfold only_logged, framing.
              cbn [usb_devh buffer read_length bytes_available read_pos
                   write_length write_pos usb_send_calls set_read_length log_dbg log
                   set_ctx set_read_pos set_bytes_available set_buffer].
              rewrite R2, R3. repeat split.
      * unfold is_uint16, UINT16_MAX, uint16_t.
        match goal with |- 0 <= ?a mod 65536 <= _ =>
          pose proof (Z.mod_pos_bound a 65536 ltac:(lia)) end. lia.
    + destruct (usb_recv devh buf off) as [[[r d] b] n] eqn:E.
      rewrite (read_turn_large fuel devh buf off length r d b n Hz Hs E).
      destruct (usb_recv_frame devh buf off) as (rest & R).
      rewrite E in R. cbn [fst snd] in R.
      assert (Hok1 : handle_ok d).
      { destruct R as (_ & Rb & Rf & _). eapply handle_ok_same; eassumption. }
      destruct (received_fields _ _ _ R) as (R1 & R2 & R3 & _).
      destruct r; try (intros [= _ <- _]; exact Hok1).
      apply usb_recv_ok_count in E as Hn.
      rewrite R1.
      destruct (Z.gtb_spec n (read_length devh)) as [Hgt|Hle];
        [intros [= _ <- _]; eapply handle_ok_only_logged;
         [exact Hok1|apply only_logged_log]|].
      cbv zeta. apply IH.
      * cbn [read_length log_dbg log set_ctx].
        rewrite R1, !uint16_t_id
          by (unfold is_uint16, UINT16_MAX, CHUNK_SIZE in *; lia).
        eapply handle_ok_only_logged
          with (d := set_read_length
                       (set_read_pos (set_bytes_available d (bytes_available devh))
                          (read_pos devh))
                       (read_length devh - n)).
        -- apply handle_ok_read_cursors; [exact Hok1| | | |];
             unfold is_uint16, UINT16_MAX, BUFFER_SIZE, CHUNK_SIZE in *; lia.
        -- unfold only_logged, framing.
           cbn [usb_devh buffer read_length bytes_available read_pos
                write_length write_pos usb_send_calls set_read_length log_dbg log
                set_ctx set_read_pos set_bytes_available].
           rewrite R2, R3. repeat split.
      * unfold is_uint16, UINT16_MAX, uint16_t.
        match goal with |- 0 <= ?a mod 65536 <= _ =>
          pose proof (Z.mod_pos_bound a 65536 ltac:(lia)) end. lia.
Qed.

Lemma handle_ok_read (devh : jaylink_device_handle) (buf : list byte) (length : Z)
  (ret : jaylink_error) (d' : jaylink_device_handle) (buf' : list byte) :
  handle_ok devh -> is_uint16 length ->
  transport_read devh buf length = Some (ret, d', buf') ->
  handle_ok d'.
Proof.
  intros Hok Hl. unfold transport_read.
  pose proof (ok_read_length _ Hok) as Hrl.
  pose proof (ok_bytes_available _ Hok) as Hba.
  pose proof (ok_read_pos _ Hok) as Hrp.
  pose proof (ok_read_window _ Hok) as Hrw.
  unfold is_uint16, UINT16_MAX, BUFFER_SIZE, CHUNK_SIZE in *.
  destruct (Z.gtb_spec length (read_length devh + bytes_available devh)).
  { intros [= _ <- _]. eapply handle_ok_only_logged;
      [exact Hok|apply only_logged_log]. }
  destruct (Z.leb_spec length (bytes_available devh)).
  { intros [= _ <- _].
    cbn [read_pos set_bytes_available].
    rewrite (uint16_t_id (bytes_available devh - length)),
      (uint16_t_id (read_pos devh + length))
      by (unfold is_uint16, UINT16_MAX; lia).
    eapply handle_ok_only_logged
      with (d := set_read_length
                   (set_read_pos
                      (set_bytes_available devh (bytes_available devh - length))
                      (read_pos devh + length))
                   (read_length devh)).
    - apply handle_ok_read_cursors; [exact Hok| | | |];
        unfold is_uint16, UINT16_MAX, BUFFER_SIZE, CHUNK_SIZE; lia.
    - repeat split. }
  destruct (bytes_available devh =? 0).
  - apply handle_ok_read_loop; [exact Hok|unfold is_uint16, UINT16_MAX; lia].
  - cbv zeta. apply handle_ok_read_loop.
    + eapply handle_ok_only_logged
        with (d := set_read_length
                     (set_read_pos (set_bytes_available devh 0) 0)
                     (read_length devh)).
      * apply handle_ok_read_cursors; [exact Hok| | | |];
          unfold is_uint16, UINT16_MAX, BUFFER_SIZE, CHUNK_SIZE; lia.
      * repeat split.
    + rewrite uint16_t_id by (unfold is_uint16, UINT16_MAX; lia).
      unfold is_uint16, UINT16_MAX. lia.
Qed.

Lemma handle_ok_start_write_read (devh : jaylink_device_handle) (w r : Z)
  (has_command : bool) :
  handle_ok devh -> is_uint16 w -> is_uint16 r -> w <> 0 -> r <> 0 ->
  handle_ok (snd (transport_start_write_read devh w r has_command)).
Proof.
  intros Hok Hw Hr Hw0 Hr0.
  destruct (start_write_read_spec devh w r has_command Hw0 Hr0) as (d & -> & L & _).
  destruct L as (_ & Lb & _). destruct Hok.
  constructor;
    cbn [snd buffer read_length bytes_available read_pos write_length write_pos
         set_read_pos set_bytes_available set_read_length set_write_pos
         set_write_length];
    rewrite ?Lb; try assumption;
    unfold is_uint16, UINT16_MAX, BUFFER_SIZE, CHUNK_SIZE in *; lia.
Qed.

(** X10. Every handle the layer can be in is well-formed.  Starting from
    the handle initialize_handle leaves, whatever functions of the layer
    are called, with whatever lengths that are [uint16_t] values, and
    whatever the device does: the buffer keeps its BUFFER_SIZE bytes, the
    cursors hold [uint16_t] values, and the bytes staged for writing and
    the bytes buffered for reading lie inside the buffer. *)
Lemma reachable_handle_ok (d : jaylink_device_handle) :
  reachable d -> handle_ok d.
Proof.
  induction 1 as [c u mem Hm|d n hc _ IH Hn|d n _ IH Hn|d w r hc _ IH Hw Hr
                 |d buf length _ IH Hl Hb|d buf length ret d' buf' _ IH Hl E].
  - constructor;
      cbn [initialize_handle buffer read_length bytes_available read_pos
           write_length write_pos]; try exact Hm;
      unfold is_uint16, UINT16_MAX, BUFFER_SIZE, CHUNK_SIZE; lia.
  - destruct (Z.eq_dec n 0) as [->|Hz]; [exact IH|].
    apply handle_ok_start_write; assumption.
  - destruct (Z.eq_dec n 0) as [->|Hz]; [exact IH|].
    apply handle_ok_start_read; assumption.
  - destruct (Z.eq_dec w 0) as [->|Hw0];
      [unfold transport_start_write_read; rewrite orb_true_r; exact IH|].
    destruct (Z.eq_dec r 0) as [->|Hr0]; [exact IH|].
    apply handle_ok_start_write_read; assumption.
  - apply handle_ok_write; assumption.
  - eapply handle_ok_read; eassumption.
Qed.

Lemma reachable_handle_ok_witness :
  reachable stale_handle /\ handle_ok stale_handle.
Proof.
  assert (R : reachable stale_handle).
  { unfold stale_handle, fresh_handle.
    apply reach_write; [|vm_compute; split; discriminate|vm_compute; repeat constructor].
    apply reach_start_write_read;
      [|vm_compute; split; discriminate|vm_compute; split; discriminate].
    apply reach_init. reflexivity. }
  split; [exact R|exact (reachable_handle_ok stale_handle R)].
Defined.

(** ** The bytes usb_send hands to the device *)

Lemma transfers_since_app (d d' : jaylink_device_handle) (ts : list (list byte * Z)) :
  out_transfers (usb_devh d') = out_transfers (usb_devh d) ++ ts ->
  transfers_since d d' = ts.
Proof.
  intros H. unfold transfers_since. rewrite H, skipn_app, skipn_all, Nat.sub_diag.
  reflexivity.
Qed.

Lemma bulk_out_count_range (req : Z) (o : libusb_error * Z) :
  0 <= req -> 0 <= bulk_out_count req o <= req.
Proof. unfold bulk_out_count. lia. Qed.

Lemma usb_send_loop_delivers (pending : list (libusb_error * Z)) :
  forall (devh : jaylink_device_handle) (buf : list byte) (tries length : Z)
         (early : option jaylink_error) (devh' : jaylink_device_handle)
         (length' : Z),
    is_uint16 length -> (Z.to_nat length <= List.length buf)%nat ->
    usb_send_loop pending devh buf tries length = (early, devh', length') ->
    exists ts,
      out_transfers (usb_devh devh') = out_transfers (usb_devh devh) ++ ts /\
      Forall chunk_transfer ts /\
      is_prefix (List.concat (map taken ts)) (firstn (Z.to_nat length) buf) /\
      (early = None ->
       0 <= length' <= length /\
       List.concat (map taken ts) = firstn (Z.to_nat (length - length')) buf).
Proof.
  induction pending as [|o pending IH];
    intros devh buf tries length early devh' length' Hl Hb.
  - cbn [usb_send_loop].
    destruct (negb (tries =? 0) && negb (length =? 0)) eqn:G.
    + intros [= <- <- <-].
      apply andb_true_iff in G as [_ G]. apply negb_true_iff, Z.eqb_neq in G.
      exists [(firstn (Z.to_nat (MIN CHUNK_SIZE length)) buf, 0)].
      cbn [usb_devh log_err log set_ctx set_usb_devh bulk_out out_transfers].
      repeat match goal with |- _ /\ _ => split end.
      * reflexivity.
      * constructor; [|constructor]. unfold chunk_transfer. cbn [fst snd].
        rewrite length_firstn, MIN_spec.
        unfold is_uint16, UINT16_MAX, CHUNK_SIZE in *. lia.
      * cbn. exists (firstn (Z.to_nat length) buf). reflexivity.
      * discriminate.
    + intros [= <- <- <-]. exists []. rewrite app_nil_r.
      repeat match goal with |- _ /\ _ => split end.
      * reflexivity.
      * constructor.
      * exists (firstn (Z.to_nat length) buf). reflexivity.
      * intros _. unfold is_uint16 in Hl. rewrite Z.sub_diag. cbn. split; [lia|reflexivity].
  - destruct (Z.eq_dec tries 0) as [->|Ht].
    { rewrite usb_send_loop_exit by (left; reflexivity).
      intros [= <- <- <-]. exists []. rewrite app_nil_r.
      repeat match goal with |- _ /\ _ => split end.
      * reflexivity.
      * constructor.
      * exists (firstn (Z.to_nat length) buf). reflexivity.
      * intros _. unfold is_uint16 in Hl. rewrite Z.sub_diag. cbn. split; [lia|reflexivity]. }
    destruct (Z.eq_dec length 0) as [->|Hz].
    { rewrite usb_send_loop_exit by (right; reflexivity).
      intros [= <- <- <-]. exists []. rewrite app_nil_r.
      repeat match goal with |- _ /\ _ => split end.
      * reflexivity.
      * constructor.
      * exists []. reflexivity.
      * intros _. cbn. split; [lia|reflexivity]. }
    rewrite usb_send_loop_turn by assumption. cbv zeta.
    set (req := MIN CHUNK_SIZE length).
    set (k := bulk_out_count req o).
    assert (Hreq : 1 <= req <= CHUNK_SIZE /\ req <= length).
    { unfold req. rewrite MIN_spec. unfold is_uint16, CHUNK_SIZE in *. lia. }
    assert (Hk : 0 <= k <= req) by (apply bulk_out_count_range; lia).
    assert (Hoff : Z.of_nat (List.length (firstn (Z.to_nat req) buf)) = req).
    { rewrite length_firstn. lia. }
    assert (Hct : chunk_transfer (firstn (Z.to_nat req) buf, k)).
    { unfold chunk_transfer. cbn [fst snd]. rewrite Hoff. lia. }
    assert (Htk : taken (firstn (Z.to_nat req) buf, k) = firstn (Z.to_nat k) buf).
    { unfold taken. cbn [fst snd]. rewrite firstn_firstn. f_equal. lia. }
    assert (Hu : uint16_t (length - k) = length - k).
    { apply uint16_t_id. unfold is_uint16, UINT16_MAX in *. lia. }
    assert (Hstep :
      forall d1 tries1 early devh' length',
        out_transfers (usb_devh d1)
          = out_transfers (usb_devh devh) ++ [(firstn (Z.to_nat req) buf, k)] ->
        usb_send_loop pending d1 (skipn (Z.to_nat k) buf) tries1 (length - k)
          = (early, devh', length') ->
        exists ts,
          out_transfers (usb_devh devh') = out_transfers (usb_devh devh) ++ ts /\
          Forall chunk_transfer ts /\
          is_prefix (List.concat (map taken ts)) (firstn (Z.to_nat length) buf) /\
          (early = None ->
           0 <= length' <= length /\
           List.concat (map taken ts) = firstn (Z.to_nat (length - length')) buf)).
    { intros d1 tries1 early0 devh0 length0 Ho E.
      apply IH in E;
        [|unfold is_uint16, UINT16_MAX in *; lia|rewrite length_skipn; lia].
      destruct E as (ts & T1 & T2 & (t & T3) & T4).
      exists ((firstn (Z.to_nat req) buf, k) :: ts).
      repeat match goal with |- _ /\ _ => split end.
      - rewrite T1, Ho, <- app_assoc. reflexivity.
      - constructor; assumption.
      - cbn [map List.concat]. rewrite Htk.
        exists t.
        replace (Z.to_nat length) with (Z.to_nat k + Z.to_nat (length - k))%nat by lia.
        rewrite firstn_add_skipn, T3, app_assoc. reflexivity.
      - intros ->. destruct (T4 eq_refl) as (T5 & T6). split; [lia|].
        cbn [map List.concat]. rewrite Htk, T6.
        replace (Z.to_nat (length - length0))
          with (Z.to_nat k + Z.to_nat (length - k - length0))%nat by lia.
        rewrite firstn_add_skipn. reflexivity. }
    rewrite Hu.
    destruct (is_success (fst o)); [|destruct (is_timeout (fst o))].
    + apply Hstep.
      cbn [usb_devh log_dbg log set_ctx set_usb_devh bulk_out out_transfers].
      reflexivity.
    + apply Hstep.
      cbn [usb_devh log_dbg log_warn log set_ctx set_usb_devh bulk_out out_transfers].
      reflexivity.
    + intros [= <- <- <-].
      exists [(firstn (Z.to_nat req) buf, k)].
      cbn [usb_devh log_err log set_ctx set_usb_devh bulk_out out_transfers].
      repeat match goal with |- _ /\ _ => split end.
      * reflexivity.
      * constructor; [exact Hct|constructor].
      * cbn [map List.concat]. rewrite Htk, app_nil_r.
        exists (firstn (Z.to_nat (length - k)) (skipn (Z.to_nat k) buf)).
        replace (Z.to_nat length) with (Z.to_nat k + Z.to_nat (length - k))%nat by lia.
        apply firstn_add_skipn.
      * discriminate.
Qed.

Lemma usb_send_loop_early (pending : list (libusb_error * Z)) :
  forall (devh : jaylink_device_handle) (buf : list byte) (tries length : Z)
         (e : jaylink_error) (devh' : jaylink_device_handle) (length' : Z),
    usb_send_loop pending devh buf tries length = (Some e, devh', length') ->
    e = JAYLINK_ERR.
Proof.
  induction pending as [|o pending IH]; intros devh buf tries length e devh' length';
    cbn [usb_send_loop]; destruct (negb (tries =? 0) && negb (length =? 0));
    try discriminate.
  - intros [= <- _ _]. reflexivity.
  - cbv zeta. destruct (is_success (fst o)); [apply IH|].
    destruct (is_timeout (fst o)); [apply IH|].
    intros [= <- _ _]. reflexivity.
Qed.

Lemma usb_send_taken (devh : jaylink_device_handle) (buf : list byte) (length : Z) :
  is_uint16 length -> (Z.to_nat length <= List.length buf)%nat ->
  exists ts,
    out_transfers (usb_devh (snd (usb_send devh buf length)))
      = out_transfers (usb_devh devh) ++ ts /\
    Forall chunk_transfer ts /\
    is_prefix (List.concat (map taken ts)) (firstn (Z.to_nat length) buf) /\
    (fst (usb_send devh buf length) = JAYLINK_OK ->
     List.concat (map taken ts) = firstn (Z.to_nat length) buf) /\
    (fst (usb_send devh buf length) = JAYLINK_ERR_TIMEOUT ->
     (List.length (List.concat (map taken ts)) < Z.to_nat length)%nat).
Proof.
  intros Hl Hb. unfold usb_send.
  match goal with
  | |- context [usb_send_loop ?p ?d ?b ?t ?l] =>
      destruct (usb_send_loop p d b t l) as [[early d'] l'] eqn:E
  end.
  pose proof E as E0.
  apply usb_send_loop_delivers in E; [|assumption|assumption].
  destruct E as (ts & T1 & T2 & T3 & T4).
  cbn [usb_devh set_usb_send_calls] in T1.
  exists ts.
  destruct early as [e|].
  - apply usb_send_loop_early in E0 as ->. cbn [fst snd].
    repeat match goal with |- _ /\ _ => split end;
      [exact T1|exact T2|exact T3|discriminate|discriminate].
  - destruct (T4 eq_refl) as (T5 & T6).
    destruct (Z.eqb_spec l' 0) as [->|Hz]; cbn [fst snd].
    + rewrite Z.sub_0_r in *.
      repeat match goal with |- _ /\ _ => split end;
        [exact T1|exact T2|exact T3|intros _; exact T6|discriminate].
    + repeat match goal with |- _ /\ _ => split end;
        [exact T1|exact T2|exact T3|discriminate|].
      intros _. rewrite T6, length_firstn. lia.
Qed.

(** X1. usb_send, given [length] bytes: every transfer it makes offers
    between one byte and CHUNK_SIZE bytes; the bytes the device took,
    transfer after transfer, are a beginning of the bytes given, so that no
    byte is sent twice or out of its place; when usb_send returns
    JAYLINK_OK the device took all of them, and when it returns
    JAYLINK_ERR_TIMEOUT it did not. *)
Theorem usb_send_delivers_in_order (devh : jaylink_device_handle) (buf : list byte)
  (length : Z) :
  is_uint16 length -> (Z.to_nat length <= List.length buf)%nat ->
  let r := usb_send devh buf length in
  let ts := transfers_since devh (snd r) in
  Forall chunk_transfer ts /\
  is_prefix (List.concat (map taken ts)) (firstn (Z.to_nat length) buf) /\
  (fst r = JAYLINK_OK ->
   List.concat (map taken ts) = firstn (Z.to_nat length) buf) /\
  (fst r = JAYLINK_ERR_TIMEOUT ->
   (List.length (List.concat (map taken ts)) < Z.to_nat length)%nat).
Proof.
  intros Hl Hb. cbv zeta.
  destruct (usb_send_taken devh buf length Hl Hb) as (ts & T1 & T2).
  rewrite (transfers_since_app _ _ _ T1). exact T2.
Qed.

Lemma usb_send_delivers_in_order_witness :
  (is_uint16 4 /\ (Z.to_nat 4 <= List.length [x01; x02; x03; x04])%nat) /\
  fst (usb_send (fresh_handle halting_device) [x01; x02; x03; x04] 4) = JAYLINK_OK /\
  map taken
    (transfers_since (fresh_handle halting_device)
       (snd (usb_send (fresh_handle halting_device) [x01; x02; x03; x04] 4)))
    = [[x01]; [x02]; [x03; x04]] /\
  List.concat
    (map taken
       (transfers_since (fresh_handle halting_device)
          (snd (usb_send (fresh_handle halting_device) [x01; x02; x03; x04] 4))))
    = [x01; x02; x03; x04].
Proof.
  assert (Hu : is_uint16 4) by (vm_compute; split; discriminate).
  assert (Hb : (Z.to_nat 4 <= List.length [x01; x02; x03; x04])%nat)
    by (vm_compute; repeat constructor).
  assert (Hr : fst (usb_send (fresh_handle halting_device) [x01; x02; x03; x04] 4)
               = JAYLINK_OK) by (vm_compute; reflexivity).
  split; [split; assumption|]. split; [exact Hr|].
  split; [vm_compute; reflexivity|].
  destruct (usb_send_delivers_in_order (fresh_handle halting_device)
              [x01; x02; x03; x04] 4 Hu Hb) as (_ & _ & E & _).
  exact (E Hr).
Defined.

(** ** The area usb_recv writes to *)

Lemma firstn_memcpy_same (dst : list byte) (off : nat) (src : list byte) (n : nat) :
  (off <= List.length dst)%nat ->
  firstn off (memcpy dst off src n) = firstn off dst.
Proof.
  intros H. unfold memcpy.
  rewrite firstn_app, length_firstn, Nat.min_l by lia.
  rewrite Nat.sub_diag, firstn_O, app_nil_r, firstn_firstn, Nat.min_id. reflexivity.
Qed.

Lemma skipn_memcpy_same (dst : list byte) (off : nat) (src : list byte) (n m : nat) :
  (off <= List.length dst)%nat -> (n <= List.length src)%nat -> (off + n <= m)%nat ->
  skipn m (memcpy dst off src n) = skipn m dst.
Proof.
  intros Ho Hn Hm. unfold memcpy.
  rewrite app_assoc, skipn_app.
  assert (L : List.length (firstn off dst ++ firstn n src) = (off + n)%nat).
  { rewrite length_app, !length_firstn. lia. }
  rewrite L, skipn_all2 by lia. cbn [app].
  rewrite skipn_skipn. f_equal. lia.
Qed.

Lemma mid_memcpy (dst : list byte) (off : nat) (src : list byte) (n : nat) :
  (off <= List.length dst)%nat -> (n <= List.length src)%nat ->
  firstn n (skipn off (memcpy dst off src n)) = firstn n src.
Proof.
  intros Ho Hn. unfold memcpy.
  rewrite skipn_app, length_firstn, Nat.min_l by lia.
  rewrite Nat.sub_diag, skipn_O, skipn_all2 by (rewrite length_firstn; lia).
  cbn [app]. rewrite firstn_app, length_firstn, Nat.min_l by lia.
  rewrite Nat.sub_diag, firstn_O, app_nil_r, firstn_firstn, Nat.min_id. reflexivity.
Qed.

Lemma length_bulk_in_data (o : libusb_error * list byte) :
  (List.length (bulk_in_data CHUNK_SIZE o) <= Z.to_nat CHUNK_SIZE)%nat.
Proof. unfold bulk_in_data. rewrite length_firstn. lia. Qed.

Lemma usb_recv_loop_window (pending : list (libusb_error * list byte)) :
  forall (devh : jaylink_device_handle) (buf : list byte) (off : nat)
         (tries transferred : Z) (early : option jaylink_error)
         (devh' : jaylink_device_handle) (buf' : list byte) (n : Z),
    (off + Z.to_nat CHUNK_SIZE <= List.length buf)%nat ->
    usb_recv_loop pending devh buf off tries transferred = (early, devh', buf', n) ->
    firstn off buf' = firstn off buf /\
    skipn (off + Z.to_nat CHUNK_SIZE) buf' = skipn (off + Z.to_nat CHUNK_SIZE) buf /\
    (transferred = 0 -> early = None -> n <> 0 ->
     exists skipped o rest,
       pending = skipped ++ o :: rest /\
       Forall (fun s => bulk_in_data CHUNK_SIZE s = []) skipped /\
       is_success (fst o) || is_timeout (fst o) = true /\
       in_pending (usb_devh devh') = rest /\
       n = Z.of_nat (List.length (bulk_in_data CHUNK_SIZE o)) /\
       firstn (Z.to_nat n) (skipn off buf') = bulk_in_data CHUNK_SIZE o).
Proof.
  induction pending as [|o pending IH];
    intros devh buf off tries transferred early devh' buf' n Hoff;
    cbn [usb_recv_loop];
    destruct (negb (tries =? 0) && (transferred =? 0)) eqn:G;
    try (intros [= <- <- <- <-]; repeat split; try reflexivity;
         intros; congruence).
  pose proof (length_bulk_in_data o) as Hd.
  set (data := bulk_in_data CHUNK_SIZE o) in *.
  assert (M1 : firstn off (memcpy buf off data (List.length data)) = firstn off buf)
    by (apply firstn_memcpy_same; lia).
  assert (M2 : skipn (off + Z.to_nat CHUNK_SIZE)
                 (memcpy buf off data (List.length data))
               = skipn (off + Z.to_nat CHUNK_SIZE) buf)
    by (apply skipn_memcpy_same; lia).
  assert (M3 : List.length (memcpy buf off data (List.length data)) = List.length buf)
    by (apply length_memcpy; lia).
  assert (M4 : firstn (List.length data)
                 (skipn off (memcpy buf off data (List.length data))) = data).
  { rewrite mid_memcpy by lia. apply firstn_all. }
  assert (Hturn :
    forall d1 tries1,
      in_pending (usb_devh d1) = pending ->
      is_success (fst o) || is_timeout (fst o) = true ->
      usb_recv_loop pending d1 (memcpy buf off data (List.length data)) off tries1
        (Z.of_nat (List.length data)) = (early, devh', buf', n) ->
      firstn off buf' = firstn off buf /\
      skipn (off + Z.to_nat CHUNK_SIZE) buf' = skipn (off + Z.to_nat CHUNK_SIZE) buf /\
      (transferred = 0 -> early = None -> n <> 0 ->
       exists skipped o0 rest,
         o :: pending = skipped ++ o0 :: rest /\
         Forall (fun s => bulk_in_data CHUNK_SIZE s = []) skipped /\
         is_success (fst o0) || is_timeout (fst o0) = true /\
         in_pending (usb_devh devh') = rest /\
         n = Z.of_nat (List.length (bulk_in_data CHUNK_SIZE o0)) /\
         firstn (Z.to_nat n) (skipn off buf') = bulk_in_data CHUNK_SIZE o0)).
  { intros d1 tries1 Hp Hs E.
    destruct (Nat.eq_dec (List.length data) 0) as [Hz|Hz].
    - apply IH in E; [|rewrite M3; exact Hoff].
      destruct E as (E1 & E2 & E3).
      split; [congruence|]. split; [congruence|].
      intros _ He Hn. rewrite Hz in E3.
      destruct (E3 eq_refl He Hn) as (sk & o0 & rest & -> & F1 & F2 & F3 & F4 & F5).
      exists (o :: sk), o0, rest.
      repeat match goal with |- _ /\ _ => split end; try assumption;
        [reflexivity|].
      constructor; [|assumption]. fold data. now apply length_zero_iff_nil.
    - rewrite usb_recv_loop_exit in E by (right; lia).
      injection E as <- <- <- <-.
      split; [exact M1|]. split; [exact M2|].
      intros _ _ _. exists [], o, pending.
      repeat match goal with |- _ /\ _ => split end; try assumption;
        try reflexivity; [constructor|].
      rewrite Nat2Z.id. exact M4. }
  cbv zeta. fold data.
  destruct (is_timeout (fst o)) eqn:Ti;
    [|destruct (is_success (fst o)) eqn:Su; cbn [negb]].
  - apply Hturn; [reflexivity|apply orb_true_r].
  - apply Hturn; [reflexivity|reflexivity].
  - intros [= <- <- <- <-].
    split; [exact M1|]. split; [exact M2|]. intros _ [=].
Qed.

Lemma usb_recv_chunk (devh : jaylink_device_handle) (buf : list byte)
  (off : nat) :
  (off + Z.to_nat CHUNK_SIZE <= List.length buf)%nat ->
  let '(ret, devh', buf', n) := usb_recv devh buf off in
  List.length buf' = List.length buf /\
  firstn off buf' = firstn off buf /\
  skipn (off + Z.to_nat CHUNK_SIZE) buf' = skipn (off + Z.to_nat CHUNK_SIZE) buf /\
  (ret = JAYLINK_OK ->
   1 <= n <= CHUNK_SIZE /\
   exists skipped o rest,
     in_pending (usb_devh devh) = skipped ++ o :: rest /\
     Forall (fun s => bulk_in_data CHUNK_SIZE s = []) skipped /\
     is_success (fst o) || is_timeout (fst o) = true /\
     in_pending (usb_devh devh') = rest /\
     n = Z.of_nat (List.length (bulk_in_data CHUNK_SIZE o)) /\
     firstn (Z.to_nat n) (skipn off buf') = bulk_in_data CHUNK_SIZE o).
Proof.
  intros Hoff.
  pose proof (usb_recv_length devh buf off Hoff) as Hlen.
  destruct (usb_recv devh buf off) as [[[ret devh'] buf'] n] eqn:E.
  cbn [fst snd] in Hlen. split; [exact Hlen|].
  pose proof E as Hn. unfold usb_recv in E.
  destruct (usb_recv_loop (in_pending (usb_devh devh)) devh buf off NUM_TIMEOUTS 0)
    as [[[early d1] b1] n1] eqn:L.
  pose proof L as L0.
  apply usb_recv_loop_window in L; [|exact Hoff].
  destruct L as (L1 & L2 & L3).
  destruct early as [e|].
  - injection E as <- <- <- <-. apply usb_recv_loop_early in L0 as ->.
    split; [exact L1|]. split; [exact L2|]. discriminate.
  - destruct (Z.eqb_spec n1 0) as [Hz|Hz]; cbn [negb] in E;
      injection E as <- <- <- <-.
    + split; [exact L1|]. split; [exact L2|]. discriminate.
    + split; [exact L1|]. split; [exact L2|]. intros _.
      apply usb_recv_ok_count in Hn. split; [exact Hn|].
      destruct (L3 eq_refl eq_refl Hz) as (sk & o & rest & F0 & F1 & F2 & F3 & F4 & F5).
      assert (Hu : uint16_t n1 = n1).
      { apply uint16_t_id. subst n1. pose proof (length_bulk_in_data o).
        unfold is_uint16, UINT16_MAX, CHUNK_SIZE in *. lia. }
      rewrite Hu in *.
      exists sk, o, rest.
      repeat match goal with |- _ /\ _ => split end; assumption.
Qed.

(** X2. usb_recv, given the area at [off] of [buf], where CHUNK_SIZE bytes
    have room: no byte before the area and no byte after it is written,
    whatever the status.  When it returns JAYLINK_OK it has come to a
    transfer, successful or timed out, that delivered [n] bytes, one at
    least and CHUNK_SIZE at most; these are the first [n] bytes of the
    area and [n] is the length stored; the transfers before it delivered
    nothing and the transfers behind it are still pending. *)
Theorem usb_recv_writes_one_chunk (devh : jaylink_device_handle) (buf : list byte)
  (off : nat) :
  (off + Z.to_nat CHUNK_SIZE <= List.length buf)%nat ->
  let '(ret, devh', buf', n) := usb_recv devh buf off in
  List.length buf' = List.length buf /\
  firstn off buf' = firstn off buf /\
  skipn (off + Z.to_nat CHUNK_SIZE) buf' = skipn (off + Z.to_nat CHUNK_SIZE) buf /\
  (ret = JAYLINK_OK ->
   1 <= n <= CHUNK_SIZE /\
   exists skipped o rest,
     in_pending (usb_devh devh) = skipped ++ o :: rest /\
     Forall (fun s => bulk_in_data CHUNK_SIZE s = []) skipped /\
     is_success (fst o) || is_timeout (fst o) = true /\
     in_pending (usb_devh devh') = rest /\
     n = Z.of_nat (List.length (bulk_in_data CHUNK_SIZE o)) /\
     firstn (Z.to_nat n) (skipn off buf') = bulk_in_data CHUNK_SIZE o).
Proof. exact (usb_recv_chunk devh buf off). Qed.

Lemma usb_recv_writes_one_chunk_witness :
  (0 + Z.to_nat CHUNK_SIZE <= List.length (repeat x00 2048))%nat /\
  fst (fst (fst (usb_recv (fresh_handle waking_device) (repeat x00 2048) 0)))
    = JAYLINK_OK /\
  snd (usb_recv (fresh_handle waking_device) (repeat x00 2048) 0) = 3 /\
  firstn 4 (snd (fst (usb_recv (fresh_handle waking_device) (repeat x00 2048) 0)))
    = [x0a; x0b; x0c; x00] /\
  List.length (snd (fst (usb_recv (fresh_handle waking_device) (repeat x00 2048) 0)))
    = 2048%nat.
Proof.
  assert (Hoff : (0 + Z.to_nat CHUNK_SIZE <= List.length (repeat x00 2048))%nat)
    by (vm_compute; repeat constructor).
  split; [exact Hoff|].
  split; [vm_compute; reflexivity|].
  split; [vm_compute; reflexivity|].
  split; [vm_compute; reflexivity|].
  pose proof (usb_recv_writes_one_chunk (fresh_handle waking_device)
                (repeat x00 2048) 0 Hoff) as H.
  destruct (usb_recv (fresh_handle waking_device) (repeat x00 2048) 0)
    as [[[ret devh'] buf'] n].
  cbn [fst snd]. destruct H as (H & _). rewrite H. apply repeat_length.
Defined.

(** ** The area of the caller transport_read writes to *)






(** ** The two directions of a handle *)

Lemma sent_read_side (d d' : jaylink_device_handle) :
  sent d d' -> read_side d' = read_side d.
Proof.
  intros (S1 & _ & S3). unfold read_side. unfold framing in S3.
  injection S3 as -> -> -> _ _. rewrite S1. reflexivity.
Qed.

Lemma usb_send_read_side (devh : jaylink_device_handle) (buf : list byte) (length : Z) :
  read_side (snd (usb_send devh buf length)) = read_side devh.
Proof. apply sent_read_side, usb_send_frame. Qed.

Lemma transport_write_read_side (devh : jaylink_device_handle) (buf : list byte)
  (length : Z) :
  read_side (snd (transport_write devh buf length)) = read_side devh.
Proof.
  unfold transport_write.
  destruct (length >? write_length devh); [reflexivity|].
  destruct (length <? write_length devh).
  { destruct (write_pos devh + length >? BUFFER_SIZE); reflexivity. }
  cbv zeta.
  destruct (write_pos (set_write_length devh 0) =? 0).
  { rewrite usb_send_read_side. reflexivity. }
  match goal with
  | |- context [MIN length ?f =? 0] => destruct (MIN length f =? 0)
  end.
  - match goal with
    | |- context [usb_send ?d ?b ?l] =>
        pose proof (usb_send_read_side d b l) as S1;
        destruct (usb_send d b l) as [ret d1]
    end.
    cbn [snd] in S1.
    destruct ret; cbn [snd]; try exact S1.
    destruct (length =? 0); [exact S1|].
    rewrite usb_send_read_side. exact S1.
  - match goal with
    | |- context [usb_send ?d ?b ?l] =>
        pose proof (usb_send_read_side d b l) as S1;
        destruct (usb_send d b l) as [ret d1]
    end.
    cbn [snd] in S1.
    destruct ret; cbn [snd]; try exact S1.
    match goal with
    | |- context [if ?c then _ else _] => destruct c
    end; [exact S1|].
    rewrite usb_send_read_side. exact S1.
Qed.

Lemma received_write_side (d d' : jaylink_device_handle)
  (rest : list (libusb_error * list byte)) :
  received d d' rest -> write_side d' = write_side d.
Proof.
  intros (R1 & _ & R3 & R4). unfold write_side. unfold framing in R3.
  injection R3 as _ _ _ -> ->. rewrite R1, R4. reflexivity.
Qed.

Lemma transport_read_loop_write_side (fuel : nat) :
  forall (devh : jaylink_device_handle) (buf : list byte) (off : nat) (length : Z)
         (ret : jaylink_error) (d' : jaylink_device_handle) (buf' : list byte),
    transport_read_loop fuel devh buf off length = Some (ret, d', buf') ->
    write_side d' = write_side devh.
Proof.
  induction fuel as [|fuel IH]; intros devh buf off length ret d' buf'.
  - cbn [transport_read_loop]. destruct (length =? 0); [|discriminate].
    intros [= _ <- _]. reflexivity.
  - destruct (Z.eq_dec length 0) as [->|Hz].
    { rewrite read_loop_done. intros [= _ <- _]. reflexivity. }
    destruct (Z_lt_le_dec length CHUNK_SIZE) as [Hs|Hs].
    + destruct (usb_recv devh (buffer devh) 0) as [[[r d] scratch] n] eqn:E.
      rewrite (read_turn_small fuel devh buf off length r d scratch n Hz Hs E).
      destruct (usb_recv_frame devh (buffer devh) 0) as (rest & R).
      rewrite E in R. cbn [fst snd] in R. apply received_write_side in R.
      destruct r; try (intros [= _ <- _]; exact R).
      cbv zeta.
      destruct (n >? read_length (set_buffer d scratch));
        [intros [= _ <- _]; exact R|].
      intros H. apply IH in H. rewrite H.
      destruct (n >? length); exact R.
    + destruct (usb_recv devh buf off) as [[[r d] b] n] eqn:E.
      rewrite (read_turn_large fuel devh buf off length r d b n Hz Hs E).
      destruct (usb_recv_frame devh buf off) as (rest & R).
      rewrite E in R. cbn [fst snd] in R. apply received_write_side in R.
      destruct r; try (intros [= _ <- _]; exact R).
      destruct (n >? read_length d); [intros [= _ <- _]; exact R|].
      cbv zeta. intros H. apply IH in H. rewrite H. exact R.
Qed.

Lemma transport_read_write_side (devh : jaylink_device_handle) (buf : list byte)
  (length : Z) (ret : jaylink_error) (devh' : jaylink_device_handle)
  (buf' : list byte) :
  transport_read devh buf length = Some (ret, devh', buf') ->
  write_side devh' = write_side devh.
Proof.
  intros E. unfold transport_read in E.
  destruct (length >? read_length devh + bytes_available devh);
    [injection E as _ <- _; reflexivity|].
  destruct (length <=? bytes_available devh);
    [injection E as _ <- _; reflexivity|].
  destruct (bytes_available devh =? 0).
  - apply transport_read_loop_write_side in E. exact E.
  - cbv zeta in E. apply transport_read_loop_write_side in E. exact E.
Qed.

(** X4. The two directions of a handle do not touch each other's cursors
    and endpoints.  transport_write, whatever it is given and whatever it
    returns, makes no transfer on the IN endpoint and leaves [read_length],
    [bytes_available] and [read_pos] as they were; transport_read makes no
    transfer on the OUT endpoint, calls usb_send never and leaves
    [write_length] and [write_pos] as they were. *)
Theorem directions_keep_apart (devh : jaylink_device_handle) (buf : list byte)
  (length : Z) :
  is_uint16 length -> is_uint16 (read_length devh) ->
  is_uint16 (bytes_available devh) ->
  read_side (snd (transport_write devh buf length)) = read_side devh /\
  exists ret devh' buf',
    transport_read devh buf length = Some (ret, devh', buf') /\
    write_side devh' = write_side devh.
Proof.
  intros Hl Hrl Hba.
  split; [apply transport_write_read_side|].
  destruct (transport_read_returns devh buf length Hl Hrl Hba) as ([[ret d'] buf'] & E).
  exists ret, d', buf'. split; [exact E|].
  exact (transport_read_write_side _ _ _ _ _ _ E).
Qed.

Lemma directions_keep_apart_witness :
  (is_uint16 1 /\ is_uint16 (read_length started_handle) /\
   is_uint16 (bytes_available started_handle)) /\
  (write_length started_handle, read_length started_handle) = (3, 5) /\
  read_side (snd (transport_write started_handle [x01] 1)) = read_side started_handle /\
  exists ret devh' buf',
    transport_read started_handle [x00] 1 = Some (ret, devh', buf') /\
    write_side devh' = write_side started_handle.
Proof.
  assert (Hu : is_uint16 1) by (vm_compute; split; discriminate).
  assert (Hrl : is_uint16 (read_length started_handle))
    by (vm_compute; split; discriminate).
  assert (Hba : is_uint16 (bytes_available started_handle))
    by (vm_compute; split; discriminate).
  split; [split; [exact Hu|split; [exact Hrl|exact Hba]]|]. split; [reflexivity|].
  split.
  - exact (proj1 (directions_keep_apart started_handle [x01] 1 Hu Hrl Hba)).
  - exact (proj2 (directions_keep_apart started_handle [x00] 1 Hu Hrl Hba)).
Defined.

(** ** Writes that do not complete the operation *)

(** X5. Calls of transport_write that together give fewer bytes than the
    write operation has outstanding, and no more than the buffer has room
    for: every call returns JAYLINK_OK, none makes a transfer or calls
    usb_send, and the bytes are put into the buffer behind those staged
    before, in the order of the calls; [write_pos] grows and [write_length]
    shrinks by their number. *)
Theorem small_writes_are_staged (calls : list (list byte)) :
  forall d : jaylink_device_handle,
    handle_ok d ->
    Z.of_nat (List.length (List.concat calls)) < write_length d ->
    write_pos d + Z.of_nat (List.length (List.concat calls)) <= BUFFER_SIZE ->
    let r := transport_writes d calls in
    let total := Z.of_nat (List.length (List.concat calls)) in
    fst r = map (fun _ => JAYLINK_OK) calls /\
    usb_devh (snd r) = usb_devh d /\
    usb_send_calls (snd r) = usb_send_calls d /\
    write_pos (snd r) = write_pos d + total /\
    write_length (snd r) = write_length d - total /\
    firstn (Z.to_nat (write_pos d + total)) (buffer (snd r))
      = firstn (Z.to_nat (write_pos d)) (buffer d) ++ List.concat calls.
Proof.
  induction calls as [|c calls IH]; intros d Hok Hlt Hfit; cbv zeta.
  - cbn [transport_writes List.concat List.length map fst snd Z.of_nat].
    rewrite !Z.add_0_r, Z.sub_0_r, app_nil_r. repeat split.
  - cbn [List.concat] in *. rewrite length_app, Nat2Z.inj_add in *.
    set (l := Z.of_nat (List.length c)) in *.
    set (t := Z.of_nat (List.length (List.concat calls))) in *.
    pose proof (ok_write_length _ Hok) as Hwl.
    pose proof (ok_write_pos _ Hok) as Hwp.
    unfold is_uint16 in Hwp.
    assert (Hl : 0 <= l) by (unfold l; lia).
    assert (Ht : 0 <= t) by (unfold t; lia).
    cbn [transport_writes]. fold l.
    pose proof (transport_write_buffered d c l ltac:(lia) Hwl ltac:(lia) ltac:(lia)) as W.
    assert (Hok1 : handle_ok (snd (transport_write d c l))).
    { apply handle_ok_buffered; try assumption; unfold l; lia. }
    rewrite W in Hok1 |- *. cbn [snd] in Hok1.
    match type of Hok1 with handle_ok ?x => set (d1 := x) in * end.
    specialize (IH d1 Hok1).
    assert (P1 : write_pos d1 = write_pos d + l) by reflexivity.
    assert (P2 : write_length d1 = write_length d - l) by reflexivity.
    assert (P3 : usb_devh d1 = usb_devh d) by reflexivity.
    assert (P4 : usb_send_calls d1 = usb_send_calls d) by reflexivity.
    assert (P5 : buffer d1
                 = memcpy (buffer d) (Z.to_nat (write_pos d)) c (Z.to_nat l))
      by reflexivity.
    clearbody d1.
    destruct (transport_writes d1 calls) as [rets d2] eqn:T.
    cbv zeta in IH. cbn [fst snd] in IH |- *. fold t in IH.
    destruct IH as (I1 & I2 & I3 & I4 & I5 & I6); [lia|lia|].
    rewrite P1, P2, ?P3, ?P4 in *.
    repeat match goal with |- _ /\ _ => split end.
    + cbn [map]. rewrite I1. reflexivity.
    + exact I2.
    + exact I3.
    + lia.
    + lia.
    + rewrite Z.add_assoc, I6, P5.
      replace (Z.to_nat (write_pos d + l))
        with (Z.to_nat (write_pos d) + Z.to_nat l)%nat by lia.
      pose proof (ok_buffer _ Hok) as Hbuf.
      rewrite firstn_memcpy by (unfold l; lia).
      replace (Z.to_nat l) with (List.length c) by (unfold l; lia).
      rewrite firstn_all, app_assoc. reflexivity.
Qed.

Lemma ten_byte_write_handle_ok : handle_ok ten_byte_write_handle.
Proof.
  apply handle_ok_start_write;
    [apply fresh_handle_ok|vm_compute; split; discriminate|discriminate].
Qed.

Lemma small_writes_are_staged_witness :
  (handle_ok ten_byte_write_handle /\
   Z.of_nat (List.length (List.concat [[x01; x02]; [x03]]))
     < write_length ten_byte_write_handle /\
   write_pos ten_byte_write_handle
   + Z.of_nat (List.length (List.concat [[x01; x02]; [x03]])) <= BUFFER_SIZE) /\
  fst (transport_writes ten_byte_write_handle [[x01; x02]; [x03]])
    = [JAYLINK_OK; JAYLINK_OK] /\
  usb_send_calls (snd (transport_writes ten_byte_write_handle [[x01; x02]; [x03]]))
    = [] /\
  firstn 3 (buffer (snd (transport_writes ten_byte_write_handle [[x01; x02]; [x03]])))
    = [x01; x02; x03].
Proof.
  assert (H1 : Z.of_nat (List.length (List.concat [[x01; x02]; [x03]]))
               < write_length ten_byte_write_handle) by (vm_compute; reflexivity).
  assert (H2 : write_pos ten_byte_write_handle
               + Z.of_nat (List.length (List.concat [[x01; x02]; [x03]]))
               <= BUFFER_SIZE) by (vm_compute; discriminate).
  split; [split; [apply ten_byte_write_handle_ok|split; assumption]|].
  destruct (small_writes_are_staged [[x01; x02]; [x03]] ten_byte_write_handle
              ten_byte_write_handle_ok H1 H2) as (R1 & _ & R3 & _ & _ & R6).
  split; [exact R1|]. split; [exact R3|]. exact R6.
Defined.

(** ** What the start functions log *)

(** The log of a start function after [name_let] and [warn_steps]: the
    entries are put together and the cursors they mention are those of
    [devh]. *)
Ltac start_log devh :=
  use_only_logged;
  repeat match goal with
         | H : only_logged devh ?d |- _ =>
             let E := fresh "E" in
             pose proof (only_logged_fields _ _ H) as E; clear H;
             destruct E as (? & ? & ? & ? & ?)
         end;
  repeat match goal with x := _ |- _ => subst x end;
  cbn [snd ctx set_write_pos set_write_length set_read_pos set_bytes_available
       set_read_length];
  repeat match goal with
         | H : ctx ?a = _ |- context [ctx ?a] => rewrite H
         end;
  repeat match goal with
         | H : _ ?d = _ devh |- _ => rewrite H
         end;
  rewrite <- ?app_assoc; reflexivity.

Lemma start_write_log (devh : jaylink_device_handle) (w : Z) (has_command : bool) :
  w <> 0 ->
  ctx (snd (transport_start_write devh w has_command))
  = ctx devh
    ++ mk_log LOG_LEVEL_DEBUG "Starting write operation (length = %u bytes)." [ArgU w]
    :: (if write_pos devh =? 0 then []
        else [mk_log LOG_LEVEL_WARNING
                "Last write operation left %u bytes in the buffer."
                [ArgU (write_pos devh)]])
    ++ (if write_length devh =? 0 then []
        else [mk_log LOG_LEVEL_WARNING "Last write operation was not performed." []]).
Proof.
  intros Hw.
  cbv beta delta [transport_start_write].
  rewrite (proj2 (Z.eqb_neq w 0) Hw).
  repeat name_let.
  assert (C0 : ctx d = ctx devh ++ [mk_log LOG_LEVEL_DEBUG
    "Starting write operation (length = %u bytes)." [ArgU w]]) by reflexivity.
  assert (L0 : only_logged devh d) by apply only_logged_log.
  clearbody d. warn_steps. start_log devh.
Qed.

Lemma start_read_log (devh : jaylink_device_handle) (r : Z) :
  r <> 0 ->
  ctx (snd (transport_start_read devh r))
  = ctx devh
    ++ mk_log LOG_LEVEL_DEBUG "Starting read operation (length = %u bytes)." [ArgU r]
    :: (if bytes_available devh =? 0 then []
        else [mk_log LOG_LEVEL_WARNING
                "Last read operation left %u bytes in the buffer."
                [ArgU (bytes_available devh)]])
    ++ (if read_length devh =? 0 then []
        else [mk_log LOG_LEVEL_WARNING
                "Last read operation left %u bytes on the device."
                [ArgU (read_length devh)]]).
Proof.
  intros Hr.
  cbv beta delta [transport_start_read].
  rewrite (proj2 (Z.eqb_neq r 0) Hr).
  repeat name_let.
  assert (C0 : ctx d = ctx devh ++ [mk_log LOG_LEVEL_DEBUG
    "Starting read operation (length = %u bytes)." [ArgU r]]) by reflexivity.
  assert (L0 : only_logged devh d) by apply only_logged_log.
  clearbody d. warn_steps. start_log devh.
Qed.

Lemma start_write_read_log (devh : jaylink_device_handle) (w r : Z)
  (has_command : bool) :
  w <> 0 -> r <> 0 ->
  ctx (snd (transport_start_write_read devh w r has_command))
  = ctx devh
    ++ mk_log LOG_LEVEL_DEBUG
      "Starting write / read operation (length = %u / %u bytes)." [ArgU w; ArgU r]
    :: (if write_pos devh =? 0 then []
        else [mk_log LOG_LEVEL_WARNING
                "Last write operation left %u bytes in the buffer."
                [ArgU (write_pos devh)]])
    ++ (if write_length devh =? 0 then []
        else [mk_log LOG_LEVEL_WARNING "Last write operation was not performed." []])
    ++ (if bytes_available devh =? 0 then []
        else [mk_log LOG_LEVEL_WARNING
                "Last read operation left %u bytes in the buffer."
                [ArgU (bytes_available devh)]])
    ++ (if read_length devh =? 0 then []
        else [mk_log LOG_LEVEL_WARNING
                "Last read operation left %u bytes on the device."
                [ArgU (read_length devh)]]).
Proof.
  intros Hw Hr.
  cbv beta delta [transport_start_write_read].
  rewrite (proj2 (Z.eqb_neq w 0) Hw), (proj2 (Z.eqb_neq r 0) Hr).
  cbv beta iota delta [orb].
  repeat name_let.
  assert (C0 : ctx d = ctx devh ++ [mk_log LOG_LEVEL_DEBUG
    "Starting write / read operation (length = %u / %u bytes)."
    [ArgU w; ArgU r]]) by reflexivity.
  assert (L0 : only_logged devh d) by apply only_logged_log.
  clearbody d. warn_steps. start_log devh.
Qed.

Lemma warned_iff (d d' : jaylink_device_handle) (es : list log_entry) :
  ctx d' = ctx d ++ es ->
  (warned d d' <-> warnings es <> []).
Proof.
  intros H. unfold warned. rewrite (logged_since_app _ _ _ H). unfold warnings.
  split.
  - intros (e & Hin & Hl) Hn.
    assert (Hf : In e (filter
                         (fun e => match log_lvl e with
                                   | LOG_LEVEL_WARNING => true
                                   | _ => false
                                   end) es)).
    { apply filter_In. split; [exact Hin|]. now rewrite Hl. }
    rewrite Hn in Hf. destruct Hf.
  - intros Hn.
    destruct (filter _ es) as [|e l] eqn:F; [congruence|].
    assert (Hf : In e (e :: l)) by (left; reflexivity).
    rewrite <- F in Hf. apply filter_In in Hf as [Hin Hl].
    exists e. split; [exact Hin|]. destruct (log_lvl e); congruence.
Qed.

(** X6. A start function with nonzero lengths logs a warning exactly when
    the direction it starts was left unfinished: transport_start_write when
    bytes are staged or outstanding, transport_start_read when bytes are
    buffered or still expected from the device, transport_start_write_read
    in each of the four cases.  After a finished operation it logs its
    debug message only. *)
Theorem start_warns_exactly_when_stale (devh : jaylink_device_handle) (w r : Z)
  (has_command : bool) :
  w <> 0 -> r <> 0 ->
  (warned devh (snd (transport_start_write devh w has_command))
   <-> write_pos devh <> 0 \/ write_length devh <> 0) /\
  (warned devh (snd (transport_start_read devh r))
   <-> bytes_available devh <> 0 \/ read_length devh <> 0) /\
  (warned devh (snd (transport_start_write_read devh w r has_command))
   <-> write_pos devh <> 0 \/ write_length devh <> 0 \/
       bytes_available devh <> 0 \/ read_length devh <> 0).
Proof.
  intros Hw Hr.
  repeat match goal with |- _ /\ _ => split end.
  - rewrite (warned_iff _ _ _ (start_write_log devh w has_command Hw)).
    destruct (Z.eqb_spec (write_pos devh) 0), (Z.eqb_spec (write_length devh) 0);
      cbn; split; intros H; try discriminate; try tauto; try congruence.
  - rewrite (warned_iff _ _ _ (start_read_log devh r Hr)).
    destruct (Z.eqb_spec (bytes_available devh) 0), (Z.eqb_spec (read_length devh) 0);
      cbn; split; intros H; try discriminate; try tauto; try congruence.
  - rewrite (warned_iff _ _ _ (start_write_read_log devh w r has_command Hw Hr)).
    destruct (Z.eqb_spec (write_pos devh) 0), (Z.eqb_spec (write_length devh) 0),
      (Z.eqb_spec (bytes_available devh) 0), (Z.eqb_spec (read_length devh) 0);
      cbn; split; intros H; try discriminate; try tauto; try congruence.
Qed.

Lemma start_warns_exactly_when_stale_witness :
  (4 <> 0 /\ 9 <> 0) /\
  (write_pos stale_handle, write_length stale_handle,
   bytes_available stale_handle, read_length stale_handle) = (2, 3, 0, 7) /\
  warned stale_handle (snd (transport_start_write_read stale_handle 4 9 true)) /\
  (write_pos started_handle, write_length started_handle,
   bytes_available started_handle, read_length started_handle) = (0, 3, 0, 5) /\
  ~ warned (fresh_handle no_device)
      (snd (transport_start_write_read (fresh_handle no_device) 4 9 true)).
Proof.
  assert (H4 : 4 <> 0) by discriminate.
  assert (H9 : 9 <> 0) by discriminate.
  split; [split; assumption|]. split; [reflexivity|]. split.
  - apply (start_warns_exactly_when_stale stale_handle 4 9 true H4 H9).
    left. discriminate.
  - split; [reflexivity|]. intros H.
    apply (start_warns_exactly_when_stale (fresh_handle no_device) 4 9 true H4 H9) in H.
    destruct H as [H|[H|[H|H]]]; apply H; reflexivity.
Defined.

(** X7. transport_start_write_read with nonzero lengths leaves the handle
    transport_start_write followed by transport_start_read leaves, but for
    the debug messages: the same cursors, the same buffer and device, and
    the same warnings in the same order.  With a zero length it differs:
    it returns JAYLINK_ERR_ARG and starts neither direction, the handle is
    left as it was. *)
Theorem start_write_read_is_write_then_read (devh : jaylink_device_handle)
  (w r : Z) (has_command : bool) :
  (w <> 0 -> r <> 0 ->
   let a := snd (transport_start_write_read devh w r has_command) in
   let b := snd (transport_start_read
                   (snd (transport_start_write devh w has_command)) r) in
   framing a = framing b /\ buffer a = buffer b /\ usb_devh a = usb_devh b /\
   usb_send_calls a = usb_send_calls b /\
   warnings (logged_since devh a) = warnings (logged_since devh b)) /\
  (w = 0 \/ r = 0 ->
   transport_start_write_read devh w r has_command = (JAYLINK_ERR_ARG, devh)).
Proof.
  split.
  - intros Hw Hr. cbv zeta.
    pose proof (start_write_read_log devh w r has_command Hw Hr) as La.
    pose proof (start_write_log devh w has_command Hw) as Lw.
    pose proof (start_read_log (snd (transport_start_write devh w has_command)) r Hr)
      as Lr.
    destruct (start_write_read_spec devh w r has_command Hw Hr) as (da & Ea & Oa & _).
    destruct (start_write_spec devh w has_command Hw) as (dw & Ew & Ow & _).
    rewrite Ea in La |- *. rewrite Ew in Lw, Lr |- *. cbn [snd] in La, Lw, Lr |- *.
    set (b1 := set_write_pos (set_write_length dw w) 0) in *.
    destruct (start_read_spec b1 r Hr) as (dr & Er & Or & _).
    rewrite Er in Lr |- *. cbn [snd] in Lr |- *.
    destruct Oa as (A1 & A2 & A3 & A4). destruct Ow as (W1 & W2 & W3 & W4).
    destruct Or as (R1 & R2 & R3 & R4).
    unfold framing in *. subst b1.
    cbn [usb_devh buffer read_length bytes_available read_pos write_length
         write_pos usb_send_calls set_read_pos set_bytes_available
         set_read_length set_write_pos set_write_length] in *.
    injection A3 as A31 A32 A33 A34 A35. injection W3 as W31 W32 W33 W34 W35.
    injection R3 as R31 R32 R33 R34 R35.
    repeat match goal with |- _ /\ _ => split end; try congruence.
    rewrite (logged_since_app _ _ _ La).
    rewrite Lw, <- app_assoc in Lr.
    rewrite ?W31, ?W32, ?W33, ?W34, ?W35 in Lr.
    rewrite (logged_since_app _ _ _ Lr).
    unfold warnings. rewrite !filter_app. cbn [filter log_lvl app].
    rewrite !filter_app, <- !app_assoc. reflexivity.
  - intros [->| ->]; unfold transport_start_write_read.
    + rewrite orb_true_r. reflexivity.
    + reflexivity.
Qed.

Lemma start_write_read_is_write_then_read_witness :
  (4 <> 0 /\ 9 <> 0) /\
  framing (snd (transport_start_write_read stale_handle 4 9 true)) = (9, 0, 0, 4, 0) /\
  framing (snd (transport_start_write_read stale_handle 4 9 true))
    = framing (snd (transport_start_read
                      (snd (transport_start_write stale_handle 4 true)) 9)) /\
  List.length
    (warnings (logged_since stale_handle
                 (snd (transport_start_read
                         (snd (transport_start_write stale_handle 4 true)) 9))))
    = 3%nat.
Proof.
  assert (H4 : 4 <> 0) by discriminate.
  assert (H9 : 9 <> 0) by discriminate.
  split; [split; assumption|]. split; [reflexivity|].
  destruct (proj1 (start_write_read_is_write_then_read stale_handle 4 9 true) H4 H9)
    as (F & _ & _ & _ & W).
  split; [exact F|]. rewrite <- W. vm_compute. reflexivity.
Defined.

(** ** The write cursors after the last byte was written *)

Lemma writes_cursors (calls : list (list byte)) :
  forall d : jaylink_device_handle,
    handle_ok d ->
    Z.of_nat (List.length (List.concat calls)) = write_length d ->
    (write_length d = 0 -> write_pos d = 0) ->
    staged_within (write_pos d) (write_length d) calls = true ->
    write_length (snd (transport_writes d calls)) = 0 /\
    write_pos (snd (transport_writes d calls)) = 0.
Proof.
  induction calls as [|c calls IH]; intros d Hok Hsum Hz Hst.
  - cbn [List.concat List.length Z.of_nat] in Hsum.
    cbn [transport_writes snd]. split; [lia|apply Hz; lia].
  - cbn [List.concat] in Hsum. rewrite length_app, Nat2Z.inj_add in Hsum.
    cbn [staged_within] in Hst. cbv zeta in Hst.
    cbn [transport_writes].
    set (l := Z.of_nat (List.length c)) in *.
    pose proof (ok_write_length _ Hok) as Hwl.
    pose proof (ok_write_pos _ Hok) as Hwp.
    unfold is_uint16 in Hwp.
    assert (Hl : 0 <= l) by (unfold l; lia).
    assert (Hul : is_uint16 l) by (unfold is_uint16 in *; lia).
    assert (Hok1 : handle_ok (snd (transport_write d c l))).
    { apply handle_ok_write; [exact Hok|exact Hul|unfold l; lia]. }
    destruct (Z.ltb_spec l (write_length d)) as [Hlt|Hge].
    + apply andb_true_iff in Hst as [Hfit Hst]. apply Z.leb_le in Hfit.
      pose proof (transport_write_buffered d c l ltac:(lia) Hwl ltac:(lia) Hfit) as W.
      rewrite W in Hok1 |- *. cbn [snd] in Hok1.
      match type of Hok1 with handle_ok ?x => set (d1 := x) in * end.
      assert (P1 : write_pos d1 = write_pos d + l) by reflexivity.
      assert (P2 : write_length d1 = write_length d - l) by reflexivity.
      clearbody d1.
      destruct (transport_writes d1 calls) as [rets d2] eqn:T. cbn [snd].
      specialize (IH d1 Hok1). rewrite T in IH. cbn [snd] in IH.
      apply IH; rewrite ?P1, ?P2; [lia|lia|exact Hst].
    + assert (El : l = write_length d) by lia.
      destruct (completing_write_cursors d c l Hok El) as (Q1 & Q2).
      destruct (transport_write d c l) as [ret d1]. cbn [snd] in *.
      destruct (transport_writes d1 calls) as [rets d2] eqn:T. cbn [snd].
      specialize (IH d1 Hok1). rewrite T in IH. cbn [snd] in IH.
      apply IH; rewrite ?Q1, ?Q2; [lia|reflexivity|].
      replace (write_length d - l) with 0 in Hst by lia. exact Hst.
Qed.

(** X8. A write operation of [n] bytes is started on a well-formed handle
    and transport_write is called with areas whose sizes add up to [n],
    each call that does not complete the operation fitting into the
    buffer.  Once the calls have given all the bytes, nothing of the
    operation is left in the handle: [write_length] and [write_pos] are
    zero, whether the calls of usb_send succeeded or not, and
    transport_start_write for the next operation logs no warning. *)
Theorem completed_write_leaves_nothing (devh0 : jaylink_device_handle) (n : Z)
  (has_command : bool) (calls : list (list byte)) :
  handle_ok devh0 -> is_uint16 n -> 1 <= n ->
  Z.of_nat (List.length (List.concat calls)) = n ->
  staged_within 0 n calls = true ->
  let d := snd (transport_writes
                  (snd (transport_start_write devh0 n has_command)) calls) in
  write_length d = 0 /\ write_pos d = 0 /\
  forall (m : Z) (has_command' : bool),
    m <> 0 -> ~ warned d (snd (transport_start_write d m has_command')).
Proof.
  intros Hok Hn H1 Hsum Hst. cbv zeta.
  assert (Hnz : n <> 0) by lia.
  pose proof (handle_ok_start_write devh0 n has_command Hok Hn Hnz) as Hok1.
  destruct (start_write_spec devh0 n has_command Hnz) as (d0 & E & _).
  rewrite E in Hok1 |- *. cbn [snd] in Hok1 |- *.
  set (d1 := set_write_pos (set_write_length d0 n) 0) in *.
  destruct (writes_cursors calls d1 Hok1) as (C1 & C2);
    [exact Hsum|intros Hz; reflexivity|exact Hst|].
  split; [exact C1|]. split; [exact C2|].
  intros m hc Hm H.
  apply (warned_iff _ _ _ (start_write_log _ m hc Hm)) in H. apply H.
  rewrite C1, C2. reflexivity.
Qed.

Lemma completed_write_leaves_nothing_witness :
  (handle_ok (fresh_handle no_device) /\ is_uint16 2049 /\ 1 <= 2049 /\
   Z.of_nat (List.length (List.concat [[x01]; repeat x02 2048])) = 2049 /\
   staged_within 0 2049 [[x01]; repeat x02 2048] = true) /\
  fst (transport_writes
         (snd (transport_start_write (fresh_handle no_device) 2049 true))
         [[x01]; repeat x02 2048])
    = [JAYLINK_OK; JAYLINK_ERR] /\
  framing
    (snd (transport_writes
            (snd (transport_start_write (fresh_handle no_device) 2049 true))
            [[x01]; repeat x02 2048]))
    = (0, 0, 0, 0, 0) /\
  ~ warned
      (snd (transport_writes
              (snd (transport_start_write (fresh_handle no_device) 2049 true))
              [[x01]; repeat x02 2048]))
      (snd (transport_start_write
              (snd (transport_writes
                      (snd (transport_start_write (fresh_handle no_device) 2049 true))
                      [[x01]; repeat x02 2048]))
              7 true)).
Proof.
  assert (Hu : is_uint16 2049) by (vm_compute; split; discriminate).
  assert (Hn : 1 <= 2049) by lia.
  assert (Hs : Z.of_nat (List.length (List.concat [[x01]; repeat x02 2048])) = 2049)
    by (vm_compute; reflexivity).
  assert (Hf : staged_within 0 2049 [[x01]; repeat x02 2048] = true)
    by (vm_compute; reflexivity).
  split; [split; [apply fresh_handle_ok|repeat split; assumption]|].
  split; [vm_compute; reflexivity|].
  split; [vm_compute; reflexivity|].
  destruct (completed_write_leaves_nothing (fresh_handle no_device) 2049 true
              [[x01]; repeat x02 2048] (fresh_handle_ok _) Hu Hn Hs Hf)
    as (_ & _ & W).
  apply W. discriminate.
Defined.

(** ** The bytes the device takes *)

Lemma write_call_taken (d : jaylink_device_handle) (c : list byte) :
  handle_ok d ->
  let l := Z.of_nat (List.length c) in
  let staged := firstn (Z.to_nat (write_pos d)) (buffer d) in
  let r := transport_write d c l in
  (l < write_length d -> write_pos d + l <= BUFFER_SIZE ->
   usb_devh (snd r) = usb_devh d) /\
  (l = write_length d ->
   exists ts,
     out_transfers (usb_devh (snd r)) = out_transfers (usb_devh d) ++ ts /\
     Forall chunk_transfer ts /\
     is_prefix (List.concat (map taken ts)) (staged ++ c) /\
     (fst r = JAYLINK_OK -> List.concat (map taken ts) = staged ++ c)).
Proof.
  intros Hok l staged r.
  pose proof (ok_write_pos _ Hok) as Hp1. pose proof (ok_write_window _ Hok) as Hp2.
  pose proof (ok_write_length _ Hok) as Hp3. pose proof (ok_buffer _ Hok) as Hp4.
  assert (Hl : 0 <= l) by (unfold l; lia).
  assert (Hc : firstn (Z.to_nat l) c = c).
  { unfold l. rewrite Nat2Z.id. apply firstn_all. }
  assert (Hlc : Z.to_nat l = List.length c) by (unfold l; lia).
  split.
  - intros Hlt Hfit. subst r.
    rewrite transport_write_buffered by (unfold is_uint16 in *; auto; lia).
    reflexivity.
  - intros He. subst r.
    destruct (Z.eq_dec (write_pos d) 0) as [Hz|Hnz].
    + rewrite transport_write_direct by assumption.
      destruct (usb_send_taken (set_write_length d 0) c l) as (ts & T1 & T2 & T3 & T4 & _);
        [rewrite He; exact Hp3|lia|].
      exists ts. unfold staged. rewrite Hz. cbn [Z.to_nat firstn app].
      rewrite Hc in T3, T4. repeat split; assumption.
    + unfold is_uint16, UINT16_MAX, BUFFER_SIZE in Hp1, Hp2, Hp3, Hp4.
      destruct (transport_write_flush d c l He) as (d1 & L & Bd & ->);
        [unfold is_uint16, UINT16_MAX; lia|unfold BUFFER_SIZE; lia|].
      set (fill := MIN l (CHUNK_SIZE - write_pos d)) in *.
      assert (Hf : 0 <= fill <= l /\ fill <= CHUNK_SIZE - write_pos d).
      { unfold fill. rewrite MIN_spec. lia. }
      destruct L as (Lu & _). cbn [usb_devh set_buffer set_write_length] in Lu.
      assert (Hlen1 : List.length (buffer d1) = List.length (buffer d)).
      { rewrite Bd. apply length_memcpy; unfold CHUNK_SIZE in *; lia. }
      assert (Hblock : firstn (Z.to_nat (write_pos d + fill)) (buffer d1)
                       = staged ++ firstn (Z.to_nat fill) c).
      { rewrite Bd, Z2Nat.inj_add by lia.
        apply firstn_memcpy; unfold CHUNK_SIZE in *; lia. }
      cbv zeta.
      destruct (usb_send_taken d1 (buffer d1) (write_pos d + fill))
        as (ts1 & T1 & T2 & T3 & T4 & _);
        [unfold is_uint16, UINT16_MAX, CHUNK_SIZE in *; lia
        |unfold CHUNK_SIZE in *; lia|].
      rewrite Hblock, Lu in *.
      assert (Hsplit : staged ++ c
                       = (staged ++ firstn (Z.to_nat fill) c)
                         ++ skipn (Z.to_nat fill) c).
      { rewrite <- app_assoc, firstn_skipn. reflexivity. }
      destruct (usb_send d1 (buffer d1) (write_pos d + fill)) as [ret1 d2] eqn:E1.
      cbn [fst snd] in *.
      assert (Hfail : ret1 <> JAYLINK_OK ->
        exists ts,
          out_transfers (usb_devh (set_write_pos d2 0))
            = out_transfers (usb_devh d) ++ ts /\
          Forall chunk_transfer ts /\
          is_prefix (List.concat (map taken ts)) (staged ++ c) /\
          (ret1 = JAYLINK_OK -> List.concat (map taken ts) = staged ++ c)).
      { intros Hr. exists ts1. split; [exact T1|]. split; [exact T2|].
        split; [|intros; contradiction].
        destruct T3 as (t & T3). exists (t ++ skipn (Z.to_nat fill) c).
        rewrite Hsplit, T3, <- app_assoc. reflexivity. }
      destruct ret1; try (cbn [fst snd]; apply Hfail; discriminate).
      specialize (T4 eq_refl).
      destruct (Z.eqb_spec (l - fill) 0) as [Hzf|Hzf]; cbn [fst snd].
      * exists ts1. split; [exact T1|]. split; [exact T2|].
        assert (Hall : staged ++ c = staged ++ firstn (Z.to_nat fill) c).
        { replace fill with l by lia. now rewrite Hc. }
        rewrite Hall, T4. split; [apply is_prefix_refl|reflexivity].
      * destruct (usb_send_taken (set_write_pos d2 0) (skipn (Z.to_nat fill) c)
                    (l - fill)) as (ts2 & U1 & U2 & U3 & U4 & _);
          [unfold is_uint16, UINT16_MAX; lia|rewrite length_skipn; lia|].
        assert (Hrest : firstn (Z.to_nat (l - fill)) (skipn (Z.to_nat fill) c)
                        = skipn (Z.to_nat fill) c).
        { apply firstn_all2. rewrite length_skipn. lia. }
        rewrite Hrest in U3, U4.
        cbn [usb_devh set_write_pos] in U1.
        exists (ts1 ++ ts2).
        split; [rewrite U1, T1, app_assoc; reflexivity|].
        split; [apply Forall_app; split; assumption|].
        rewrite map_app, concat_app, T4, Hsplit.
        split.
        -- destruct U3 as (t & U3). exists t. rewrite U3, <- !app_assoc. reflexivity.
        -- intros Hr. rewrite (U4 Hr). reflexivity.
Qed.

Lemma writes_taken (calls : list (list byte)) :
  forall d : jaylink_device_handle,
    handle_ok d ->
    Z.of_nat (List.length (List.concat calls)) = write_length d ->
    (write_length d = 0 -> write_pos d = 0) ->
    staged_within (write_pos d) (write_length d) calls = true ->
    let r := transport_writes d calls in
    let staged := firstn (Z.to_nat (write_pos d)) (buffer d) in
    exists ts,
      out_transfers (usb_devh (snd r)) = out_transfers (usb_devh d) ++ ts /\
      Forall chunk_transfer ts /\
      is_prefix (List.concat (map taken ts)) (staged ++ List.concat calls) /\
      (Forall (eq JAYLINK_OK) (fst r) ->
       List.concat (map taken ts) = staged ++ List.concat calls).
Proof.
  induction calls as [|c calls IH]; intros d Hok Hsum Hz Hfit.
  - cbn [transport_writes fst snd List.concat]. exists [].
    rewrite !app_nil_r. cbn [List.concat List.length Z.of_nat] in Hsum.
    rewrite Hz by congruence. cbn [Z.to_nat firstn List.concat map].
    split; [reflexivity|]. split; [constructor|].
    split; [apply is_prefix_refl|reflexivity].
  - cbn [List.concat] in Hsum. rewrite length_app, Nat2Z.inj_add in Hsum.
    cbn [staged_within] in Hfit. cbv zeta in Hfit.
    destruct (write_call d c Hok) as [Wb _]. cbv zeta in Wb.
    destruct (write_call_taken d c Hok) as [Tb Tc]. cbv zeta in Tb, Tc.
    assert (Hokc : handle_ok (snd (transport_write d c (Z.of_nat (List.length c))))).
    { apply handle_ok_write; [assumption| |rewrite Nat2Z.id; lia].
      pose proof (ok_write_length _ Hok). unfold is_uint16 in *. lia. }
    cbn [transport_writes]. cbv zeta.
    destruct (transport_write d c (Z.of_nat (List.length c))) as [ret d'] eqn:E.
    cbn [fst snd] in *.
    destruct (Z.ltb_spec (Z.of_nat (List.length c)) (write_length d)) as [Hlt|Hge].
    + apply andb_prop in Hfit. destruct Hfit as [Hfit1 Hfit2].
      apply Z.leb_le in Hfit1.
      destruct (Wb Hlt Hfit1) as (Wr & Wcalls & Wp & Wl & Wbuf).
      specialize (Tb Hlt Hfit1).
      rewrite <- Wp, <- Wl in Hfit2.
      destruct (IH d' Hokc) as (ts & S1 & S2 & S3 & S4); [lia|lia|exact Hfit2|].
      cbv zeta in S1, S3, S4. rewrite Wp, Wbuf, <- app_assoc in S3, S4.
      destruct (transport_writes d' calls) as [rets d''].
      cbn [fst snd] in *. exists ts.
      split; [congruence|]. split; [exact S2|]. split; [exact S3|].
      intros Hall. apply S4. now inversion Hall.
    + assert (He : Z.of_nat (List.length c) = write_length d) by lia.
      destruct (Tc He) as (ts1 & C1 & C2 & C3 & C4).
      destruct (completing_write_cursors d c _ Hok He) as [Zp Zl].
      rewrite E in Zp, Zl. cbn [snd] in Zp, Zl.
      replace (write_length d - Z.of_nat (List.length c)) with 0 in Hfit by lia.
      rewrite <- Zp in Hfit at 1. rewrite <- Zl in Hfit.
      destruct (IH d' Hokc) as (ts2 & S1 & S2 & S3 & S4); [lia|auto|exact Hfit|].
      cbv zeta in S1, S3, S4.
      assert (Hnil : List.concat calls = []).
      { apply length_zero_iff_nil. lia. }
      rewrite Zp, Hnil in S3, S4. cbn [Z.to_nat firstn app] in S3, S4.
      assert (Hnil2 : List.concat (map taken ts2) = []).
      { destruct S3 as [t St]. symmetry in St. now apply app_eq_nil in St. }
      destruct (transport_writes d' calls) as [rets d''].
      cbn [fst snd] in *. exists (ts1 ++ ts2).
      cbn [List.concat].
      rewrite map_app, concat_app, Hnil, Hnil2, !app_nil_r.
      split; [rewrite S1, C1; symmetry; apply app_assoc|].
      split; [apply Forall_app; split; assumption|].
      split; [exact C3|].
      intros Hall. apply C4. inversion Hall. congruence.
Qed.

(** X9. A write operation of [n] bytes is started on a well-formed handle
    and transport_write is called with areas whose sizes add up to [n].
    Every transfer made on the OUT endpoint offers between one byte and
    CHUNK_SIZE bytes; the bytes the device took, transfer after transfer,
    are a beginning of the bytes written, and when every call returned
    JAYLINK_OK the device took the bytes written, each once and in the
    order of the calls. *)
Theorem written_bytes_reach_the_device (devh0 : jaylink_device_handle) (n : Z)
  (has_command : bool) (calls : list (list byte)) :
  handle_ok devh0 -> is_uint16 n -> 1 <= n ->
  Z.of_nat (List.length (List.concat calls)) = n ->
  staged_within 0 n calls = true ->
  let r := transport_writes (snd (transport_start_write devh0 n has_command)) calls in
  let ts := transfers_since devh0 (snd r) in
  Forall chunk_transfer ts /\
  is_prefix (List.concat (map taken ts)) (List.concat calls) /\
  (Forall (eq JAYLINK_OK) (fst r) ->
   List.concat (map taken ts) = List.concat calls).
Proof.
  intros Hok Hu Hn Hsum Hfit. cbv zeta.
  assert (Hn0 : n <> 0) by lia.
  pose proof (handle_ok_start_write devh0 n has_command Hok Hu Hn0) as Hok1.
  destruct (start_write_spec devh0 n has_command Hn0) as (d & E & L & _).
  destruct L as (Lu & _).
  rewrite E in *. cbn [snd] in *.
  destruct (writes_taken calls _ Hok1) as (ts & S1 & S2 & S3 & S4);
    [exact Hsum|cbn; lia|exact Hfit|].
  cbv zeta in S1, S3, S4.
  cbn [write_pos set_write_pos Z.to_nat firstn app usb_devh set_write_length]
    in S1, S3, S4.
  rewrite Lu in S1. rewrite (transfers_since_app _ _ _ S1).
  repeat split; assumption.
Qed.

Lemma written_bytes_reach_the_device_witness :
  (handle_ok (fresh_handle accepting_device) /\ is_uint16 3 /\ 1 <= 3 /\
   Z.of_nat (List.length (List.concat [[x01; x02]; [x03]])) = 3 /\
   staged_within 0 3 [[x01; x02]; [x03]] = true) /\
  fst (transport_writes
         (snd (transport_start_write (fresh_handle accepting_device) 3 true))
         [[x01; x02]; [x03]])
    = [JAYLINK_OK; JAYLINK_OK] /\
  List.concat
    (map taken
       (transfers_since (fresh_handle accepting_device)
          (snd (transport_writes
                  (snd (transport_start_write (fresh_handle accepting_device) 3 true))
                  [[x01; x02]; [x03]]))))
    = [x01; x02; x03].
Proof.
  assert (Hu : is_uint16 3) by (vm_compute; split; discriminate).
  assert (Hn : 1 <= 3) by lia.
  assert (Hs : Z.of_nat (List.length (List.concat [[x01; x02]; [x03]])) = 3)
    by reflexivity.
  assert (Hf : staged_within 0 3 [[x01; x02]; [x03]] = true) by reflexivity.
  assert (Hr : fst (transport_writes
                      (snd (transport_start_write (fresh_handle accepting_device)
                              3 true))
                      [[x01; x02]; [x03]])
               = [JAYLINK_OK; JAYLINK_OK]) by (vm_compute; reflexivity).
  split; [split; [apply fresh_handle_ok|]|].
  { split; [exact Hu|]. split; [exact Hn|]. split; [exact Hs|exact Hf]. }
  split; [exact Hr|].
  destruct (written_bytes_reach_the_device (fresh_handle accepting_device) 3 true
              [[x01; x02]; [x03]] (fresh_handle_ok _) Hu Hn Hs Hf) as (_ & _ & E).
  apply E. rewrite Hr. repeat constructor.
Defined.

(** ** A device that takes what it is offered *)

Lemma usb_send_loop_accepting (k : nat) :
  forall (devh : jaylink_device_handle) (buf : list byte) (tries length : Z)
         (rest : list (libusb_error * Z)),
    tries <> 0 -> is_uint16 length -> length <= Z.of_nat k * CHUNK_SIZE ->
    out_pending (usb_devh devh) = repeat (LIBUSB_SUCCESS, CHUNK_SIZE) k ++ rest ->
    exists (devh' : jaylink_device_handle) (j : nat),
      usb_send_loop (repeat (LIBUSB_SUCCESS, CHUNK_SIZE) k ++ rest) devh buf tries length
        = (None, devh', 0) /\
      (j <= k)%nat /\ Z.of_nat j * CHUNK_SIZE < length + CHUNK_SIZE /\
      out_pending (usb_devh devh') = repeat (LIBUSB_SUCCESS, CHUNK_SIZE) (k - j) ++ rest.
Proof.
  induction k as [|k IH]; intros devh buf tries length rest Ht Hl Hk Hp.
  - assert (length = 0) by (unfold is_uint16 in Hl; lia). subst length.
    rewrite usb_send_loop_exit by (right; reflexivity).
    exists devh, 0%nat. split; [reflexivity|]. split; [lia|].
    split; [unfold CHUNK_SIZE; lia|exact Hp].
  - destruct (Z.eq_dec length 0) as [->|Hz].
    { rewrite usb_send_loop_exit by (right; reflexivity).
      exists devh, 0%nat. split; [reflexivity|]. split; [lia|].
      split; [unfold CHUNK_SIZE; lia|exact Hp]. }
    cbn [repeat app]. rewrite usb_send_loop_turn by assumption.
    cbv zeta. cbn [fst is_success].
    set (req := MIN CHUNK_SIZE length).
    assert (Hreq : 1 <= req <= CHUNK_SIZE /\ req <= length /\
                   (length <= CHUNK_SIZE -> req = length) /\
                   (CHUNK_SIZE <= length -> req = CHUNK_SIZE)).
    { unfold req. rewrite MIN_spec. unfold is_uint16, CHUNK_SIZE in *. lia. }
    assert (Hc : bulk_out_count req (LIBUSB_SUCCESS, CHUNK_SIZE) = req).
    { unfold bulk_out_count. cbn [snd]. lia. }
    rewrite Hc.
    rewrite (uint16_t_id (length - req)) by (unfold is_uint16, UINT16_MAX in *; lia).
    match goal with
    | |- context [usb_send_loop _ ?d ?b ?t ?l] =>
        destruct (IH d b t l rest) as (d' & j & E & J1 & J2 & J3)
    end.
    + unfold NUM_TIMEOUTS. discriminate.
    + unfold is_uint16, UINT16_MAX in *. lia.
    + rewrite Nat2Z.inj_succ in Hk. unfold CHUNK_SIZE in *. lia.
    + reflexivity.
    + exists d', (S j). split; [exact E|]. split; [lia|].
      split; [rewrite Nat2Z.inj_succ; unfold CHUNK_SIZE in *; lia|].
      exact J3.
Qed.

Lemma usb_send_accepting (devh : jaylink_device_handle) (buf : list byte)
  (length : Z) (k : nat) (rest : list (libusb_error * Z)) :
  is_uint16 length -> length <= Z.of_nat k * CHUNK_SIZE ->
  out_pending (usb_devh devh) = repeat (LIBUSB_SUCCESS, CHUNK_SIZE) k ++ rest ->
  exists (devh' : jaylink_device_handle) (j : nat),
    usb_send devh buf length = (JAYLINK_OK, devh') /\
    (j <= k)%nat /\ Z.of_nat j * CHUNK_SIZE < length + CHUNK_SIZE /\
    out_pending (usb_devh devh') = repeat (LIBUSB_SUCCESS, CHUNK_SIZE) (k - j) ++ rest.
Proof.
  intros Hl Hk Hp. unfold usb_send.
  cbn [usb_devh set_usb_send_calls]. rewrite Hp.
  match goal with
  | |- context [usb_send_loop _ ?d ?b ?t ?l] =>
      destruct (usb_send_loop_accepting k d b t l rest) as (d' & j & E & J)
  end; try assumption; [unfold NUM_TIMEOUTS; discriminate|].
  rewrite E. exists d', j. split; [reflexivity|exact J].
Qed.

(** The call completes the write operation and the device takes what it
    is offered, for 33 transfers at least: these are enough for 65535
    bytes and for the block that is sent first. *)
Lemma transport_write_accepting (d : jaylink_device_handle) (c : list byte)
  (l : Z) (k : nat) (rest : list (libusb_error * Z)) :
  handle_ok d -> l = write_length d ->
  out_pending (usb_devh d) = repeat (LIBUSB_SUCCESS, CHUNK_SIZE) k ++ rest ->
  (33 <= k)%nat ->
  fst (transport_write d c l) = JAYLINK_OK.
Proof.
  intros Hok He Hp Hk.
  pose proof (ok_write_pos _ Hok) as Hp1. pose proof (ok_write_window _ Hok) as Hp2.
  pose proof (ok_write_length _ Hok) as Hp3.
  unfold is_uint16, UINT16_MAX, BUFFER_SIZE in Hp1, Hp2, Hp3.
  destruct (Z.eq_dec (write_pos d) 0) as [Hz|Hnz].
  - rewrite transport_write_direct by assumption.
    destruct (usb_send_accepting (set_write_length d 0) c l k rest)
      as (d' & j & E & _);
      [unfold is_uint16, UINT16_MAX; lia|unfold CHUNK_SIZE; lia|exact Hp|].
    rewrite E. reflexivity.
  - destruct (transport_write_flush d c l He) as (d1 & L & Bd & ->);
      [unfold is_uint16, UINT16_MAX; lia|unfold BUFFER_SIZE; lia|].
    set (fill := MIN l (CHUNK_SIZE - write_pos d)) in *.
    assert (Hf : 0 <= fill <= l /\ fill <= CHUNK_SIZE - write_pos d).
    { unfold fill. rewrite MIN_spec. lia. }
    destruct L as (Lu & _). cbn [usb_devh set_buffer set_write_length] in Lu.
    cbv zeta.
    destruct (usb_send_accepting d1 (buffer d1) (write_pos d + fill) k rest)
      as (d2 & j & E & J1 & J2 & J3);
      [unfold is_uint16, UINT16_MAX, CHUNK_SIZE in *; lia
      |unfold CHUNK_SIZE in *; lia|rewrite Lu; exact Hp|].
    rewrite E. cbn [fst snd].
    destruct (l - fill =? 0); [reflexivity|].
    destruct (usb_send_accepting (set_write_pos d2 0) (skipn (Z.to_nat fill) c)
                (l - fill) (k - j) rest) as (d3 & j' & E' & _);
      [unfold is_uint16, UINT16_MAX; lia
      |unfold CHUNK_SIZE in *; lia|exact J3|].
    rewrite E'. reflexivity.
Qed.

(** ** A call of transport_read into a part of an area *)



(** ** FINE I/O *)

Lemma usb_send_nothing (d : jaylink_device_handle) (buf : list byte) :
  fst (usb_send d buf 0) = JAYLINK_OK.
Proof.
  unfold usb_send. rewrite usb_send_loop_exit by (right; reflexivity). reflexivity.
Qed.

(** The two calls of transport_write jaylink_fine_io makes: the 13 bytes
    of the command, then the data. *)
Lemma command_then_data (d0 : jaylink_device_handle) (command out : list byte) :
  handle_ok d0 -> write_pos d0 = 0 ->
  write_length d0 = 13 + Z.of_nat (List.length out) ->
  List.length command = 13%nat ->
  let w1 := transport_write d0 command 13 in
  let w2 := transport_write (snd w1) out (Z.of_nat (List.length out)) in
  handle_ok (snd w1) /\ handle_ok (snd w2) /\
  (exists ts1 ts2,
     out_transfers (usb_devh (snd w1)) = out_transfers (usb_devh d0) ++ ts1 /\
     out_transfers (usb_devh (snd w2)) = out_transfers (usb_devh d0) ++ ts1 ++ ts2 /\
     is_prefix (List.concat (map taken ts1)) (command ++ out) /\
     is_prefix (List.concat (map taken (ts1 ++ ts2))) (command ++ out) /\
     (fst w1 = JAYLINK_OK -> fst w2 = JAYLINK_OK ->
      List.concat (map taken (ts1 ++ ts2)) = command ++ out)) /\
  (write_length (snd w2) = 0 /\ write_pos (snd w2) = 0) /\
  (forall (k : nat) (rest : list (libusb_error * Z)),
     (33 <= k)%nat ->
     out_pending (usb_devh d0) = repeat (LIBUSB_SUCCESS, CHUNK_SIZE) k ++ rest ->
     fst w1 = JAYLINK_OK /\ fst w2 = JAYLINK_OK).
Proof.
  intros Hok Hwp Hwl Hc. cbv zeta.
  pose proof (ok_write_length _ Hok) as Hu. unfold is_uint16, UINT16_MAX in Hu.
  assert (H13 : 13 = Z.of_nat (List.length command)) by lia.
  rewrite H13.
  destruct (write_call d0 command Hok) as [Wb _]. cbv zeta in Wb.
  destruct (write_call_taken d0 command Hok) as [Tb Tc]. cbv zeta in Tb, Tc.
  assert (Hok1 : handle_ok (snd (transport_write d0 command
                                   (Z.of_nat (List.length command))))).
  { apply handle_ok_write; [exact Hok|unfold is_uint16, UINT16_MAX; lia|lia]. }
  assert (Hok2 : forall d1, handle_ok d1 ->
            handle_ok (snd (transport_write d1 out (Z.of_nat (List.length out))))).
  { intros d1 H1.
    apply handle_ok_write; [exact H1|unfold is_uint16, UINT16_MAX; lia|lia]. }
  split; [exact Hok1|]. split; [apply Hok2; exact Hok1|].
  destruct (Nat.eq_dec (List.length out) 0) as [Hz|Hnz].
  - (* no data: the command completes the operation *)
    apply length_zero_iff_nil in Hz. subst out.
    cbn [List.length Z.of_nat] in *. rewrite app_nil_r.
    assert (He : Z.of_nat (List.length command) = write_length d0) by lia.
    destruct (Tc He) as (ts1 & C1 & _ & C3 & C4).
    rewrite Hwp in C3, C4. cbn [Z.to_nat firstn app] in C3, C4.
    destruct (completing_write_cursors d0 command _ Hok He) as [Zp Zl].
    destruct (transport_write d0 command (Z.of_nat (List.length command)))
      as [r1 d1] eqn:E1.
    cbn [fst snd] in *.
    destruct (write_call_taken d1 [] Hok1) as [_ Tc2]. cbv zeta in Tc2.
    cbn [List.length Z.of_nat] in Tc2.
    destruct (Tc2 (eq_sym Zl)) as (ts2 & D1 & _ & D3 & _).
    rewrite Zp in D3. cbn [Z.to_nat firstn app] in D3.
    assert (Hnil : List.concat (map taken ts2) = []).
    { destruct D3 as [t Dt]. symmetry in Dt. now apply app_eq_nil in Dt. }
    destruct (completing_write_cursors d1 [] 0 Hok1 (eq_sym Zl)) as [Yp Yl].
    split; [|split].
    + exists ts1, ts2.
      rewrite map_app, concat_app, Hnil, app_nil_r.
      split; [exact C1|]. split; [rewrite D1, C1, app_assoc; reflexivity|].
      split; [exact C3|]. split; [exact C3|]. intros H1 _. exact (C4 H1).
    + split; assumption.
    + intros k rest Hk Hp.
      pose proof (transport_write_accepting d0 command _ k rest Hok He Hp Hk) as A1.
      rewrite E1 in A1. cbn [fst] in A1. split; [exact A1|].
      rewrite transport_write_direct by (first [assumption|symmetry; assumption]).
      apply usb_send_nothing.
  - (* the command is staged and the data completes the operation *)
    assert (Hlt : Z.of_nat (List.length command) < write_length d0) by lia.
    assert (Hfit : write_pos d0 + Z.of_nat (List.length command) <= BUFFER_SIZE)
      by (unfold BUFFER_SIZE, CHUNK_SIZE; lia).
    destruct (Wb Hlt Hfit) as (W1 & _ & W3 & W4 & W5).
    specialize (Tb Hlt Hfit).
    rewrite Hwp in W3, W5. cbn [Z.to_nat firstn app Z.add] in W3, W5.
    destruct (transport_write d0 command (Z.of_nat (List.length command)))
      as [r1 d1] eqn:E1.
    cbn [fst snd] in *. subst r1.
    assert (He : Z.of_nat (List.length out) = write_length d1) by lia.
    destruct (write_call_taken d1 out Hok1) as [_ Tc2]. cbv zeta in Tc2.
    destruct (Tc2 He) as (ts2 & D1 & _ & D3 & D4).
    rewrite W3, W5 in D3, D4.
    destruct (completing_write_cursors d1 out _ Hok1 He) as [Yp Yl].
    split; [|split].
    + exists [], ts2. cbn [app map List.concat].
      rewrite app_nil_r. split; [rewrite Tb; reflexivity|].
      split; [rewrite D1, Tb; reflexivity|].
      split; [exists (command ++ out); reflexivity|].
      split; [exact D3|]. intros _ H2. exact (D4 H2).
    + split; assumption.
    + intros k rest Hk Hp. split; [reflexivity|].
      apply (transport_write_accepting d1 out _ k rest Hok1 He); [|exact Hk].
      rewrite Tb. exact Hp.
Qed.


Section fine_properties.

Variable buffer_set_u32 : list byte -> Z -> nat -> list byte.
Variable buffer_get_u32 : list byte -> nat -> Z.
Variable jaylink_strerror : jaylink_error -> string.

(** buffer_set_u32 writes into the area it is given: four bytes at
    [offset]. *)
Hypothesis buffer_set_u32_length :
  forall (buf : list byte) (value : Z) (offset : nat),
    (offset + 4 <= List.length buf)%nat ->
    List.length (buffer_set_u32 buf value offset) = List.length buf.

Local Abbreviation fine_io :=
  (jaylink_fine_io buffer_set_u32 buffer_get_u32 jaylink_strerror).
Local Abbreviation command := (fine_io_command buffer_set_u32).

Lemma length_fine_io_command (buf : list byte) (out_length in_length other_param : Z) :
  List.length buf = 13%nat ->
  List.length (command buf out_length in_length other_param) = 13%nat.
Proof.
  intros H. unfold fine_io_command. cbv zeta.
  assert (M : List.length (memcpy buf 0 [CMD_FINE_IO] 1) = 13%nat).
  { rewrite length_memcpy; [exact H|rewrite H; cbn; lia|cbn; lia]. }
  set (b0 := memcpy buf 0 [CMD_FINE_IO] 1) in *.
  assert (M1 : List.length (buffer_set_u32 b0 out_length 1) = 13%nat)
    by (rewrite buffer_set_u32_length; lia).
  set (b1 := buffer_set_u32 b0 out_length 1) in *.
  assert (M2 : List.length (buffer_set_u32 b1 in_length 5) = 13%nat)
    by (rewrite buffer_set_u32_length; lia).
  set (b2 := buffer_set_u32 b1 in_length 5) in *.
  rewrite buffer_set_u32_length; lia.
Qed.

Lemma fine_io_lengths (m n : Z) :
  0 <= n -> 0 < m -> m + n <= 65535 ->
  uint16_t (uint32_t (m + n)) = m + n /\ uint16_t n = n.
Proof.
  intros H1 H2 H3. unfold uint16_t, uint32_t.
  rewrite (Z.mod_small (m + n) 4294967296) by lia.
  rewrite !Z.mod_small by lia. split; reflexivity.
Qed.

(** jaylink_fine_io after transport_start_write_read returned JAYLINK_OK
    and left the handle [d0]. *)
Lemma fine_io_started (devh : jaylink_device_handle) (out in_ : list byte)
  (other_param : Z) (buf : list byte) :
  handle_ok devh ->
  Z.of_nat (List.length out) <= 65522 -> Z.of_nat (List.length in_) <= 65531 ->
  let ol := Z.of_nat (List.length out) in
  let il := Z.of_nat (List.length in_) in
  let cmd := command buf ol il other_param in
  exists d0,
    handle_ok d0 /\ usb_devh d0 = usb_devh devh /\
    (read_length d0 = 4 + il /\ bytes_available d0 = 0 /\ read_pos d0 = 0 /\
     write_length d0 = 13 + ol /\ write_pos d0 = 0) /\
    fine_io (Some devh) (Some out) (Some in_) ol il other_param buf
    = (let '(ret, devh) := transport_write d0 cmd 13 in
       match ret with
       | JAYLINK_OK =>
           let '(ret, devh) := transport_write devh out ol in
           match ret with
           | JAYLINK_OK =>
               match transport_read devh in_ il with
               | None => None
               | Some (ret, devh, in_) =>
                   match ret with
                   | JAYLINK_OK =>
                       match transport_read devh cmd 4 with
                       | None => None
                       | Some (ret, devh, _) =>
                           match ret with
                           | JAYLINK_OK => Some (JAYLINK_OK, Some devh, Some in_)
                           | _ =>
                               Some (ret,
                                     Some (log_err devh "transport_read() failed: %s"
                                             [ArgS (jaylink_strerror ret)]),
                                     Some in_)
                           end
                       end
                   | _ =>
                       Some (ret,
                             Some (log_err devh "transport_read() failed: %s"
                                     [ArgS (jaylink_strerror ret)]),
                             Some in_)
                   end
               end
           | _ =>
               Some (ret,
                     Some (log_err devh "transport_write() failed: %s"
                             [ArgS (jaylink_strerror ret)]),
                     Some in_)
           end
       | _ =>
           Some (ret,
                 Some (log_err devh "transport_write() failed: %s"
                         [ArgS (jaylink_strerror ret)]),
                 Some in_)
       end).
Proof.
  intros Hok Ho Hi ol il cmd.
  destruct (fine_io_lengths 13 ol) as (L1 & L2); [unfold ol; lia|lia|unfold ol; lia|].
  destruct (fine_io_lengths 4 il) as (L3 & L4); [unfold il; lia|lia|unfold il; lia|].
  assert (Hw : 13 + ol <> 0) by (unfold ol; lia).
  assert (Hr : 4 + il <> 0) by (unfold il; lia).
  pose proof (handle_ok_start_write_read devh (13 + ol) (4 + il) true Hok) as Hok0.
  destruct (start_write_read_spec devh (13 + ol) (4 + il) true Hw Hr)
    as (d & E & L & _).
  rewrite E in Hok0. cbn [snd] in Hok0.
  eexists. split; [apply Hok0; unfold is_uint16, UINT16_MAX, ol, il; lia|].
  destruct L as (Lu & _).
  split; [exact Lu|]. split; [repeat split|].
  unfold jaylink_fine_io. rewrite L1, L2, L3, L4, E. reflexivity.
Qed.

Lemma fine_io_written (d0 devh : jaylink_device_handle) (cmd out : list byte) :
  handle_ok d0 -> usb_devh d0 = usb_devh devh ->
  write_pos d0 = 0 -> write_length d0 = 13 + Z.of_nat (List.length out) ->
  List.length cmd = 13%nat ->
  forall (r1 r2 : jaylink_error) (d1 d2 : jaylink_device_handle),
    transport_write d0 cmd 13 = (r1, d1) ->
    transport_write d1 out (Z.of_nat (List.length out)) = (r2, d2) ->
    handle_ok d1 /\ handle_ok d2 /\
    read_side d1 = read_side d0 /\ read_side d2 = read_side d0 /\
    is_prefix (List.concat (map taken (transfers_since devh d1))) (cmd ++ out) /\
    is_prefix (List.concat (map taken (transfers_since devh d2))) (cmd ++ out) /\
    (r1 = JAYLINK_OK -> r2 = JAYLINK_OK ->
     List.concat (map taken (transfers_since devh d2)) = cmd ++ out) /\
    write_length d2 = 0 /\ write_pos d2 = 0 /\
    (forall (k : nat) (rest : list (libusb_error * Z)),
       (33 <= k)%nat ->
       out_pending (usb_devh devh) = repeat (LIBUSB_SUCCESS, CHUNK_SIZE) k ++ rest ->
       r1 = JAYLINK_OK /\ r2 = JAYLINK_OK).
Proof.
  intros Hok Hu Hp Hl Hc r1 r2 d1 d2 E1 E2.
  pose proof (command_then_data d0 cmd out Hok Hp Hl Hc) as H. cbv zeta in H.
  pose proof (transport_write_read_side d0 cmd 13) as S1.
  pose proof (transport_write_read_side d1 out (Z.of_nat (List.length out))) as S2.
  rewrite E1 in H, S1. cbn [fst snd] in H, S1. rewrite E2 in H, S2.
  cbn [fst snd] in H, S2.
  destruct H as (H1 & H2 & (ts1 & ts2 & T1 & T2 & T3 & T4 & T5) & (H3 & H4) & H5).
  rewrite Hu in T1, T2, H5.
  rewrite (transfers_since_app _ _ _ T1), (transfers_since_app _ _ _ T2).
  repeat match goal with |- _ /\ _ => split end; try assumption; congruence.
Qed.

(** X11. jaylink_fine_io with areas [out] and [in] of [out_length] and
    [in_length] bytes that fit a transfer of the layer (13 + out_length
    and 4 + in_length are [uint16_t] values), on a well-formed handle and
    whatever the device does: the bytes the device took are a beginning of
    the 13 bytes of the command followed by the bytes of [out]; and when
    jaylink_fine_io returns JAYLINK_OK, or when it has made a transfer on
    the IN endpoint at all, the device took all of them before. *)
Theorem fine_io_writes_before_it_reads (devh : jaylink_device_handle)
  (out in_ : list byte) (other_param : Z) (buf : list byte) :
  handle_ok devh -> List.length buf = 13%nat ->
  Z.of_nat (List.length out) <= 65522 -> Z.of_nat (List.length in_) <= 65531 ->
  let ol := Z.of_nat (List.length out) in
  let il := Z.of_nat (List.length in_) in
  exists ret devh' in',
    fine_io (Some devh) (Some out) (Some in_) ol il other_param buf
      = Some (ret, Some devh', Some in') /\
    let written := command buf ol il other_param ++ out in
    let took := List.concat (map taken (transfers_since devh devh')) in
    is_prefix took written /\
    (ret = JAYLINK_OK \/ in_pending (usb_devh devh') <> in_pending (usb_devh devh) ->
     took = written).
Proof.
  intros Hok Hb Ho Hi. cbv zeta.
  destruct (fine_io_started devh out in_ other_param buf Hok Ho Hi)
    as (d0 & Hok0 & Hu0 & (F1 & F2 & F3 & F4 & F5) & ->).
  set (ol := Z.of_nat (List.length out)) in *.
  set (il := Z.of_nat (List.length in_)) in *.
  set (cmd := command buf ol il other_param).
  assert (Hc : List.length cmd = 13%nat) by (apply length_fine_io_command; exact Hb).
  destruct (transport_write d0 cmd 13) as [r1 d1] eqn:E1.
  destruct (transport_write d1 out ol) as [r2 d2] eqn:E2.
  destruct (fine_io_written d0 devh cmd out Hok0 Hu0 F5 F4 Hc r1 r2 d1 d2 E1 E2)
    as (Hok1 & Hok2 & S1 & S2 & P1 & P2 & T & _).
  assert (I0 : in_pending (usb_devh d0) = in_pending (usb_devh devh))
    by (rewrite Hu0; reflexivity).
  assert (I1 : in_pending (usb_devh d1) = in_pending (usb_devh devh)).
  { unfold read_side in S1. injection S1 as _ _ _ S1. congruence. }
  assert (I2 : in_pending (usb_devh d2) = in_pending (usb_devh devh)).
  { unfold read_side in S2. injection S2 as _ _ _ S2. congruence. }
  assert (Fail1 : r1 <> JAYLINK_OK ->
    exists ret devh' in',
      Some (r1, Some (log_err d1 "transport_write() failed: %s"
                        [ArgS (jaylink_strerror r1)]), Some in_)
        = Some (ret, Some devh', Some in') /\
      is_prefix (List.concat (map taken (transfers_since devh devh'))) (cmd ++ out) /\
      (ret = JAYLINK_OK \/ in_pending (usb_devh devh') <> in_pending (usb_devh devh) ->
       List.concat (map taken (transfers_since devh devh')) = cmd ++ out)).
  { intros Hr. eexists _, _, _. split; [reflexivity|]. split; [exact P1|].
    intros [H|H]; [contradiction|]. exfalso. apply H. exact I1. }
  destruct r1; try (apply Fail1; discriminate). clear Fail1.
  assert (Fail2 : r2 <> JAYLINK_OK ->
    exists ret devh' in',
      Some (r2, Some (log_err d2 "transport_write() failed: %s"
                        [ArgS (jaylink_strerror r2)]), Some in_)
        = Some (ret, Some devh', Some in') /\
      is_prefix (List.concat (map taken (transfers_since devh devh'))) (cmd ++ out) /\
      (ret = JAYLINK_OK \/ in_pending (usb_devh devh') <> in_pending (usb_devh devh) ->
       List.concat (map taken (transfers_since devh devh')) = cmd ++ out)).
  { intros Hr. eexists _, _, _. split; [reflexivity|]. split; [exact P2|].
    intros [H|H]; [contradiction|]. exfalso. apply H. exact I2. }
  destruct r2; try (apply Fail2; discriminate). clear Fail2.
  specialize (T eq_refl eq_refl).
  assert (After : forall d, write_side d = write_side d2 ->
            List.concat (map taken (transfers_since devh d)) = cmd ++ out).
  { intros d Hd. unfold write_side in Hd. injection Hd as _ _ _ Hd _.
    unfold transfers_since in *. rewrite Hd. exact T. }
  assert (Done : forall (ret : jaylink_error) (d : jaylink_device_handle)
                        (in' : list byte),
            write_side d = write_side d2 ->
            exists ret0 devh' in0,
              Some (ret, Some d, Some in') = Some (ret0, Some devh', Some in0) /\
              is_prefix (List.concat (map taken (transfers_since devh devh')))
                (cmd ++ out) /\
              (ret0 = JAYLINK_OK \/
               in_pending (usb_devh devh') <> in_pending (usb_devh devh) ->
               List.concat (map taken (transfers_since devh devh')) = cmd ++ out)).
  { intros ret d in' Hd. eexists _, _, _. split; [reflexivity|].
    rewrite (After d Hd). split; [apply is_prefix_refl|reflexivity]. }
  destruct (transport_read_returns d2 in_ il) as ([[r3 d3] in3] & E3);
    [unfold is_uint16, UINT16_MAX, il; lia
    |apply (ok_read_length _ Hok2)|apply (ok_bytes_available _ Hok2)|].
  rewrite E3.
  pose proof (transport_read_write_side _ _ _ _ _ _ E3) as W3.
  assert (Hok3 : handle_ok d3).
  { eapply handle_ok_read; [exact Hok2| |exact E3].
    unfold is_uint16, UINT16_MAX, il; lia. }
  destruct r3; try (apply Done; exact W3).
  destruct (transport_read_returns d3 cmd 4) as ([[r4 d4] b4] & E4);
    [unfold is_uint16, UINT16_MAX; lia
    |apply (ok_read_length _ Hok3)|apply (ok_bytes_available _ Hok3)|].
  rewrite E4.
  pose proof (transport_read_write_side _ _ _ _ _ _ E4) as W4.
  rewrite W3 in W4.
  destruct r4; apply Done; exact W4.
Qed.


(** X13. jaylink_fine_io checks its arguments before it makes a transfer.
    With a pointer that is NULL it returns JAYLINK_ERR_ARG and does nothing
    else.  With an [out_length] from 65523 to 65535, for which
    13 + out_length is no [uint16_t] value, it returns JAYLINK_ERR_ARG as
    well, whatever [in_length] is: no transfer is made, usb_send is not
    called and the area [in] is left as it was. *)
Theorem fine_io_checks_its_arguments (devh : option jaylink_device_handle)
  (out in_ : option (list byte)) (out_length in_length other_param : Z)
  (buf : list byte) :
  (devh = None \/ out = None \/ in_ = None ->
   fine_io devh out in_ out_length in_length other_param buf
     = Some (JAYLINK_ERR_ARG, devh, in_)) /\
  (forall (d : jaylink_device_handle) (o i : list byte),
     devh = Some d -> out = Some o -> in_ = Some i ->
     65523 <= out_length <= 65535 ->
     exists d',
       fine_io devh out in_ out_length in_length other_param buf
         = Some (JAYLINK_ERR_ARG, Some d', Some i) /\
       usb_devh d' = usb_devh d /\ usb_send_calls d' = usb_send_calls d /\
       buffer d' = buffer d).
Proof.
  split.
  - intros [H|[H|H]]; subst;
      repeat match goal with x : option _ |- _ => destruct x end; reflexivity.
  - intros d o i -> -> -> Hol.
    unfold jaylink_fine_io.
    set (W := uint16_t (uint32_t (13 + out_length))).
    set (R := uint16_t (uint32_t (4 + in_length))).
    assert (HW : 0 <= W < 13).
    { unfold W, uint16_t, uint32_t.
      rewrite (Z.mod_small (13 + out_length) 4294967296) by lia.
      replace (13 + out_length) with ((13 + out_length - 65536) + 1 * 65536) by lia.
      rewrite Z.mod_add by lia. rewrite Z.mod_small by lia. lia. }
    destruct (Z.eq_dec W 0) as [HW0|HW0].
    { unfold transport_start_write_read. rewrite HW0, orb_true_r.
      eexists. split; [reflexivity|]. repeat split. }
    destruct (Z.eq_dec R 0) as [HR0|HR0].
    { unfold transport_start_write_read. rewrite HR0. cbn [orb].
      eexists. split; [reflexivity|]. repeat split. }
    destruct (start_write_read_spec d W R true HW0 HR0) as (d0 & -> & L & _).
    cbv zeta.
    match goal with
    | |- context [transport_write ?h ?b 13] =>
        assert (E : transport_write h b 13
                    = (JAYLINK_ERR_ARG,
                       log_err h
                         "Requested to write %u bytes but only %u bytes are expected for the write operation."
                         [ArgU 13; ArgU (write_length h)]))
    end.
    { unfold transport_write.
      cbn [write_length set_read_pos set_bytes_available set_read_length
           set_write_pos set_write_length].
      destruct (Z.gtb_spec 13 W); [reflexivity|lia]. }
    rewrite E. destruct L as (L1 & L2 & _ & L4).
    eexists. split; [reflexivity|].
    repeat split; assumption.
Qed.

End fine_properties.

Lemma example_set_u32_length (buf : list byte) (value : Z) (offset : nat) :
  (offset + 4 <= List.length buf)%nat ->
  List.length (example_set_u32 buf value offset) = List.length buf.
Proof. intros H. apply length_memcpy; [exact H|cbn; lia]. Qed.

Lemma fine_io_writes_before_it_reads_witness :
  (handle_ok (fresh_handle no_device) /\ List.length (repeat x00 13) = 13%nat /\
   Z.of_nat (List.length [x01; x02]) <= 65522 /\
   Z.of_nat (List.length [x00; x00]) <= 65531) /\
  option_map (fun r => fst (fst r))
    (jaylink_fine_io example_set_u32 example_get_u32 example_strerror
       (Some (fresh_handle no_device)) (Some [x01; x02]) (Some [x00; x00]) 2 2 7
       (repeat x00 13))
    = Some JAYLINK_ERR /\
  exists ret devh' in',
    jaylink_fine_io example_set_u32 example_get_u32 example_strerror
      (Some (fresh_handle no_device)) (Some [x01; x02]) (Some [x00; x00]) 2 2 7
      (repeat x00 13)
    = Some (ret, Some devh', Some in') /\
    is_prefix
      (List.concat (map taken (transfers_since (fresh_handle no_device) devh')))
      (fine_io_command example_set_u32 (repeat x00 13) 2 2 7 ++ [x01; x02]).
Proof.
  assert (Hb : List.length (repeat x00 13) = 13%nat) by reflexivity.
  assert (Ho : Z.of_nat (List.length [x01; x02]) <= 65522) by (vm_compute; discriminate).
  assert (Hi : Z.of_nat (List.length [x00; x00]) <= 65531) by (vm_compute; discriminate).
  split; [split; [apply fresh_handle_ok|split; [exact Hb|split; assumption]]|].
  split; [vm_compute; reflexivity|].
  destruct (fine_io_writes_before_it_reads example_set_u32 example_get_u32
              example_strerror example_set_u32_length (fresh_handle no_device)
              [x01; x02] [x00; x00] 7 (repeat x00 13) (fresh_handle_ok _) Hb Ho Hi)
    as (ret & devh' & in' & E & P & _).
  exists ret, devh', in'. split; [exact E|exact P].
Defined.



Lemma fine_io_checks_its_arguments_witness :
  65523 <= 65530 <= 65535 /\
  jaylink_fine_io example_set_u32 example_get_u32 example_strerror
    None (Some [x01]) (Some [x00]) 1 1 7 (repeat x00 13)
  = Some (JAYLINK_ERR_ARG, None, Some [x00]) /\
  exists d',
    jaylink_fine_io example_set_u32 example_get_u32 example_strerror
      (Some (fresh_handle accepting_device)) (Some [x01]) (Some [x00])
      65530 1 7 (repeat x00 13)
    = Some (JAYLINK_ERR_ARG, Some d', Some [x00]) /\
    usb_devh d' = usb_devh (fresh_handle accepting_device).
Proof.
  assert (Hl : 65523 <= 65530 <= 65535) by lia.
  split; [exact Hl|]. split.
  - apply (fine_io_checks_its_arguments example_set_u32 example_get_u32
             example_strerror None (Some [x01]) (Some [x00]) 1 1 7 (repeat x00 13)).
    left. reflexivity.
  - destruct (proj2 (fine_io_checks_its_arguments example_set_u32 example_get_u32
                       example_strerror (Some (fresh_handle accepting_device))
                       (Some [x01]) (Some [x00]) 65530 1 7
                       (repeat x00 13))
                (fresh_handle accepting_device) [x01] [x00]
                eq_refl eq_refl eq_refl Hl) as (d' & E & U & _).
    exists d'. split; [exact E|exact U].
Defined.

(** ** Opening and closing a device *)

Lemma held_after_app (a b : list resource_call) :
  forall held : list resource,
    held_after held (a ++ b)
    = match held_after held a with
      | Some x => held_after x b
      | None => None
      end.
Proof.
  induction a as [|c a IH]; intros held; [reflexivity|].
  cbn [app held_after]. cbv zeta.
  destruct c; try destruct (is_success ret); try destruct ok;
    try match goal with |- context [give_back ?r ?l] => destruct (give_back r l) end;
    try apply IH; reflexivity.
Qed.

Lemma calls_since_app (h h' : Session.handle) (cs : list resource_call) :
  Session.calls h' = Session.calls h ++ cs -> Session.calls_since h h' = cs.
Proof.
  intros H. unfold Session.calls_since.
  rewrite H, skipn_app, skipn_all, Nat.sub_diag. reflexivity.
Qed.

Lemma find_interface_first (interface : list libusb_interface_descriptor) (n : Z)
  (desc : libusb_interface_descriptor) :
  Session.find_interface interface n = Some desc <->
  Session.first_interface n interface desc.
Proof.
  unfold Session.first_interface.
  induction interface as [|d l IH]; cbn [Session.find_interface].
  - split; [discriminate|]. intros (pre & post & H & _). destruct pre; discriminate.
  - destruct (Z.eqb_spec (bInterfaceNumber d) n) as [He|Hne].
    + split.
      * intros [= <-]. exists [], l. repeat split; [assumption|constructor].
      * intros (pre & post & H & Hn & Hp). destruct pre as [|p pre].
        -- injection H as -> _. reflexivity.
        -- injection H as -> _. inversion Hp. contradiction.
    + rewrite IH. split.
      * intros (pre & post & -> & Hn & Hp). exists (d :: pre), post.
        repeat split; [assumption|constructor; assumption].
      * intros (pre & post & H & Hn & Hp). destruct pre as [|p pre].
        -- injection H as -> _. contradiction.
        -- injection H as -> ->. inversion Hp. exists pre, post. repeat split; assumption.
Qed.

Lemma find_endpoints_last (endpoint : list libusb_endpoint_descriptor) :
  forall (h : Session.handle) (fi fo : bool) (h' : Session.handle) (fi' fo' : bool),
    Session.find_endpoints endpoint h fi fo = (h', fi', fo') ->
    Session.dev h' = Session.dev h /\
    Session.interface_number h' = Session.interface_number h /\
    Session.devh h' = Session.devh h /\ Session.calls h' = Session.calls h /\
    ((exists e, Session.last_endpoint true endpoint e /\ fi' = true /\
                Session.endpoint_in h' = bEndpointAddress e) \/
     (Forall (fun x => Session.is_in x = false) endpoint /\ fi' = fi /\
      Session.endpoint_in h' = Session.endpoint_in h)) /\
    ((exists e, Session.last_endpoint false endpoint e /\ fo' = true /\
                Session.endpoint_out h' = bEndpointAddress e) \/
     (Forall (fun x => Session.is_in x = true) endpoint /\ fo' = fo /\
      Session.endpoint_out h' = Session.endpoint_out h)).
Proof.
  unfold Session.last_endpoint.
  induction endpoint as [|e l IH]; intros h fi fo h' fi' fo'; cbn [Session.find_endpoints].
  - intros [= <- <- <-]. repeat split; right; repeat split; constructor.
  - fold (Session.is_in e). destruct (Session.is_in e) eqn:D; intros H; apply IH in H;
      destruct H as (H1 & H2 & H3 & H4 & Hi & Ho);
      cbn [Session.dev Session.interface_number Session.devh Session.calls
           Session.endpoint_in Session.endpoint_out Session.set_endpoint_in
           Session.set_endpoint_out] in *;
      (split; [exact H1|]); (split; [exact H2|]); (split; [exact H3|]);
      (split; [exact H4|]); split.
    + left. destruct Hi as [(x & (f & b & -> & X1 & X2) & X3 & X4)|(X1 & X2 & X3)].
      * exists x. split; [exists (e :: f), b; repeat split; assumption|].
        split; assumption.
      * exists e. split; [exists [], l; repeat split; assumption|].
        split; assumption.
    + destruct Ho as [(x & (f & b & -> & X1 & X2) & X3 & X4)|(X1 & X2 & X3)].
      * left. exists x. split; [exists (e :: f), b; repeat split; assumption|].
        split; assumption.
      * right. split; [constructor; assumption|]. split; assumption.
    + destruct Hi as [(x & (f & b & -> & X1 & X2) & X3 & X4)|(X1 & X2 & X3)].
      * left. exists x. split; [exists (e :: f), b; repeat split; assumption|].
        split; assumption.
      * right. split; [constructor; assumption|]. split; assumption.
    + left. destruct Ho as [(x & (f & b & -> & X1 & X2) & X3 & X4)|(X1 & X2 & X3)].
      * exists x. split; [exists (e :: f), b; repeat split; assumption|].
        split; assumption.
      * exists e. split; [exists [], l; repeat split; assumption|].
        split; assumption.
Qed.

Lemma initialize_handle_spec (h : Session.handle) (mem : option (list byte))
  (r : jaylink_error) (h' : Session.handle) :
  Session.initialize_handle h mem = (r, h') ->
  let n := if Session.onboard_device (Session.dev h) then USB_INTERFACE_NUMBER_OB
           else USB_INTERFACE_NUMBER in
  Session.dev h' = Session.dev h /\
  Session.interface_number h' = n /\
  (exists cs,
     Session.calls h' = Session.calls h ++ cs /\
     held_after [] cs
     = Some (match r with JAYLINK_OK => [Transport_buffer] | _ => [] end)) /\
  (r = JAYLINK_OK ->
   exists config desc ein eout area,
     active_config (Session.usb_dev (Session.dev h)) = (LIBUSB_SUCCESS, config) /\
     Session.first_interface n (interface config) desc /\
     Session.last_endpoint true (endpoint desc) ein /\
     Session.endpoint_in h' = bEndpointAddress ein /\
     Session.last_endpoint false (endpoint desc) eout /\
     Session.endpoint_out h' = bEndpointAddress eout /\
     mem = Some area /\ buffer (Session.devh h') = area /\
     framing (Session.devh h') = (0, 0, 0, 0, 0) /\
     usb_devh (Session.devh h') = usb_devh (Session.devh h) /\
     usb_send_calls (Session.devh h') = usb_send_calls (Session.devh h)) /\
  (r = JAYLINK_OK \/ r = JAYLINK_ERR \/ (r = JAYLINK_ERR_MALLOC /\ mem = None)).
Proof.
  intros R. cbv zeta. unfold Session.initialize_handle in R.
  set (n := if Session.onboard_device (Session.dev h) then USB_INTERFACE_NUMBER_OB
            else USB_INTERFACE_NUMBER).
  set (h0 := if Session.onboard_device (Session.dev h)
             then Session.set_interface_number h USB_INTERFACE_NUMBER_OB
             else Session.set_interface_number h USB_INTERFACE_NUMBER) in R.
  assert (H0 : Session.dev h0 = Session.dev h /\ Session.interface_number h0 = n /\
               Session.devh h0 = Session.devh h /\ Session.calls h0 = Session.calls h).
  { subst h0 n. destruct (Session.onboard_device (Session.dev h)); repeat split. }
  clearbody h0. destruct H0 as (D0 & N0 & V0 & C0). rewrite D0 in R.
  destruct (active_config (Session.usb_dev (Session.dev h))) as [ret config] eqn:A.
  cbv zeta in R.
  destruct (is_success ret) eqn:S; cbn [negb] in R.
  2:{ injection R as <- <-.
      cbn [Session.dev Session.interface_number Session.calls Session.call
           Session.log_err Session.set_devh].
      split; [exact D0|]. split; [exact N0|].
      split; [exists [Get_active_config_descriptor ret]; split;
              [rewrite C0; reflexivity|cbn; rewrite S; reflexivity]|].
      split; [discriminate|]. right. left. reflexivity. }
  assert (Hret : ret = LIBUSB_SUCCESS) by (destruct ret; try discriminate; reflexivity).
  subst ret.
  cbn [Session.interface_number Session.call] in R.
  destruct (Session.find_interface (interface config) (Session.interface_number h0))
    as [desc|] eqn:F.
  2:{ injection R as <- <-.
      cbn [Session.dev Session.interface_number Session.calls Session.call
           Session.log_err Session.set_devh].
      split; [exact D0|]. split; [exact N0|].
      split; [exists [Get_active_config_descriptor LIBUSB_SUCCESS;
                      Free_config_descriptor]; split;
              [rewrite C0, <- app_assoc; reflexivity|reflexivity]|].
      split; [discriminate|]. right. left. reflexivity. }
  apply find_interface_first in F. rewrite N0 in F.
  match type of R with
  | context [Session.find_endpoints ?e ?x ?a ?b] =>
      destruct (Session.find_endpoints e x a b) as [[h1 fi] fo] eqn:E
  end.
  apply find_endpoints_last in E.
  cbn [Session.dev Session.interface_number Session.devh Session.calls
       Session.endpoint_in Session.endpoint_out Session.call] in E.
  destruct E as (D1 & N1 & V1 & C1 & Ei & Eo).
  assert (Hcs : forall tail,
            (Session.calls h1 ++ [Free_config_descriptor]) ++ tail
            = Session.calls h
              ++ Get_active_config_descriptor LIBUSB_SUCCESS
                 :: Free_config_descriptor :: tail).
  { intros tail. rewrite C1, C0, <- !app_assoc. reflexivity. }
  destruct fi; cbn [negb] in R.
  2:{ injection R as <- <-.
      cbn [Session.dev Session.interface_number Session.calls Session.call
           Session.log_err Session.set_devh].
      split; [congruence|]. split; [congruence|].
      split; [eexists; split; [rewrite <- (app_nil_r (_ ++ [_])), Hcs; reflexivity
                              |reflexivity]|].
      split; [discriminate|]. right. left. reflexivity. }
  destruct fo; cbn [negb] in R.
  2:{ injection R as <- <-.
      cbn [Session.dev Session.interface_number Session.calls Session.call
           Session.log_err Session.set_devh].
      split; [congruence|]. split; [congruence|].
      split; [eexists; split; [rewrite <- (app_nil_r (_ ++ [_])), Hcs; reflexivity
                              |reflexivity]|].
      split; [discriminate|]. right. left. reflexivity. }
  destruct Ei as [(ein & Li & _ & Ai)|(_ & Hf & _)]; [|discriminate].
  destruct Eo as [(eout & Lo & _ & Ao)|(_ & Hf & _)]; [|discriminate].
  destruct mem as [area|]; injection R as <- <-;
    cbn [Session.dev Session.interface_number Session.calls Session.call
         Session.log_err Session.log_dbg Session.set_devh Session.devh
         Session.endpoint_in Session.endpoint_out].
  - split; [congruence|]. split; [congruence|].
    split; [eexists; split; [rewrite Hcs; reflexivity|reflexivity]|].
    split; [|left; reflexivity].
    intros _. exists config, desc, ein, eout, area.
    rewrite V1, V0.
    repeat match goal with |- _ /\ _ => split end;
      try assumption; try reflexivity.
  - split; [congruence|]. split; [congruence|].
    split; [eexists; split; [rewrite Hcs; reflexivity|reflexivity]|].
    split; [discriminate|]. right. right. split; reflexivity.
Qed.

Lemma transport_open_spec (h : Session.handle) (mem : option (list byte))
  (r : jaylink_error) (h' : Session.handle) :
  Session.transport_open h mem = (r, h') ->
  (forall area, mem = Some area -> Z.of_nat (List.length area) = BUFFER_SIZE) ->
  Session.dev h' = Session.dev h /\
  (exists cs,
     Session.calls h' = Session.calls h ++ cs /\
     held_after [] cs
     = Some (match r with
             | JAYLINK_OK =>
                 [Interface (Session.interface_number h'); Usb_handle; Transport_buffer]
             | _ => []
             end)) /\
  (r = JAYLINK_OK ->
   usb_devh (Session.devh h') = opened (Session.usb_dev (Session.dev h)) /\
   framing (Session.devh h') = (0, 0, 0, 0, 0) /\
   handle_ok (Session.devh h') /\
   mem = Some (buffer (Session.devh h')) /\
   open_status (Session.usb_dev (Session.dev h)) = LIBUSB_SUCCESS /\
   claim_status (Session.usb_dev (Session.dev h)) = LIBUSB_SUCCESS) /\
  (r = JAYLINK_OK \/ r = JAYLINK_ERR \/ (r = JAYLINK_ERR_MALLOC /\ mem = None)).
Proof.
  intros R Hmem. unfold Session.transport_open in R.
  match type of R with
  | context [Session.initialize_handle ?x mem] =>
      destruct (Session.initialize_handle x mem) as [ri hi] eqn:I
  end.
  apply initialize_handle_spec in I. cbv zeta in I.
  cbn [Session.dev Session.calls Session.devh Session.log_dbg Session.set_devh] in I.
  destruct I as (D & N & (cs & C & Hh) & Hok & Hr).
  assert (Fail : ri <> JAYLINK_OK ->
            (ri, Session.log_err hi "Initialize device handle failed." []) = (r, h') ->
            Session.dev h' = Session.dev h /\
            (exists cs0,
               Session.calls h' = Session.calls h ++ cs0 /\
               held_after [] cs0
               = Some (match r with
                       | JAYLINK_OK =>
                           [Interface (Session.interface_number h'); Usb_handle;
                            Transport_buffer]
                       | _ => []
                       end)) /\
            (r = JAYLINK_OK ->
             usb_devh (Session.devh h') = opened (Session.usb_dev (Session.dev h)) /\
             framing (Session.devh h') = (0, 0, 0, 0, 0) /\
             handle_ok (Session.devh h') /\
             mem = Some (buffer (Session.devh h')) /\
             open_status (Session.usb_dev (Session.dev h)) = LIBUSB_SUCCESS /\
             claim_status (Session.usb_dev (Session.dev h)) = LIBUSB_SUCCESS) /\
            (r = JAYLINK_OK \/ r = JAYLINK_ERR \/
             (r = JAYLINK_ERR_MALLOC /\ mem = None))).
  { intros Hn [= <- <-].
    cbn [Session.dev Session.calls Session.log_err Session.set_devh].
    split; [exact D|].
    split; [exists cs; split; [exact C|destruct ri; try exact Hh; contradiction]|].
    split; [intros; contradiction|].
    destruct Hr as [Hr|Hr]; [contradiction|right; exact Hr]. }
  destruct ri; try (apply Fail; [discriminate|exact R]). clear Fail.
  destruct (Hok eq_refl)
    as (config & desc & ein & eout & area & _ & _ & _ & _ & _ & _ & Hm & Hb & Hf & Hu & _).
  rewrite D in R. cbv zeta in R.
  destruct (is_success (open_status (Session.usb_dev (Session.dev h)))) eqn:So;
    cbn [negb] in R.
  2:{ injection R as <- <-.
      cbn [Session.dev Session.calls Session.call Session.log_err Session.set_devh
           Session.cleanup_handle].
      split; [exact D|].
      split; [eexists; split; [rewrite C, <- !app_assoc; reflexivity|]|].
      { rewrite held_after_app, Hh. cbn. rewrite So. reflexivity. }
      split; [discriminate|]. right. left. reflexivity. }
  cbn [Session.dev Session.interface_number Session.call] in R. rewrite D in R.
  destruct (is_success (claim_status (Session.usb_dev (Session.dev h)))) eqn:Sc;
    cbn [negb] in R.
  2:{ injection R as <- <-.
      cbn [Session.dev Session.calls Session.call Session.log_err Session.set_devh
           Session.cleanup_handle].
      split; [exact D|].
      split; [eexists; split; [rewrite C, <- !app_assoc; reflexivity|]|].
      { rewrite held_after_app, Hh. cbn. rewrite So, Sc. reflexivity. }
      split; [discriminate|]. right. left. reflexivity. }
  injection R as <- <-.
  cbn [Session.dev Session.calls Session.call Session.log_dbg Session.set_devh
       Session.devh Session.interface_number].
  split; [exact D|].
  split; [eexists; split; [rewrite C, <- !app_assoc; reflexivity|]|].
  { rewrite held_after_app, Hh. cbn. rewrite So, Sc. reflexivity. }
  split; [|left; reflexivity].
  intros _. unfold framing in *.
  cbn [usb_devh buffer read_length bytes_available read_pos write_length write_pos
       set_usb_devh log set_ctx].
  injection Hf as F1 F2 F3 F4 F5.
  split; [rewrite D; reflexivity|]. split; [congruence|].
  split.
  - constructor;
      cbn [usb_devh buffer read_length bytes_available read_pos write_length
           write_pos set_usb_devh log set_ctx];
      rewrite ?F1, ?F2, ?F3, ?F4, ?F5, ?Hb;
      try (apply Hmem; exact Hm);
      unfold is_uint16, UINT16_MAX, BUFFER_SIZE, CHUNK_SIZE; lia.
  - split; [congruence|].
    split; [destruct (open_status _); try discriminate; reflexivity|].
    destruct (claim_status _); try discriminate; reflexivity.
Qed.

(** X14. initialize_handle takes the interface 2 of an on-board device and
    the interface 0 of any other.  When it returns JAYLINK_OK the active
    configuration was read, [endpoint_in] and [endpoint_out] are the
    addresses of the last IN and of the last OUT endpoint of the first
    interface with this number, the buffer is the area malloc returned
    and the five cursors are zero.  Otherwise it returns JAYLINK_ERR, or
    JAYLINK_ERR_MALLOC when malloc returned NULL.  The configuration
    descriptor is always given back: all that is held afterwards is the
    buffer, when JAYLINK_OK is returned. *)
Theorem initialize_handle_finds_the_endpoints (h : Session.handle)
  (mem : option (list byte)) :
  let r := Session.initialize_handle h mem in
  let n := if Session.onboard_device (Session.dev h) then USB_INTERFACE_NUMBER_OB
           else USB_INTERFACE_NUMBER in
  Session.interface_number (snd r) = n /\
  (fst r = JAYLINK_OK ->
   exists config desc ein eout area,
     active_config (Session.usb_dev (Session.dev h)) = (LIBUSB_SUCCESS, config) /\
     Session.first_interface n (interface config) desc /\
     Session.last_endpoint true (endpoint desc) ein /\
     Session.endpoint_in (snd r) = bEndpointAddress ein /\
     Session.last_endpoint false (endpoint desc) eout /\
     Session.endpoint_out (snd r) = bEndpointAddress eout /\
     mem = Some area /\ buffer (Session.devh (snd r)) = area /\
     framing (Session.devh (snd r)) = (0, 0, 0, 0, 0)) /\
  (fst r = JAYLINK_OK \/ fst r = JAYLINK_ERR \/
   (fst r = JAYLINK_ERR_MALLOC /\ mem = None)) /\
  held_after [] (Session.calls_since h (snd r))
  = Some (match fst r with JAYLINK_OK => [Transport_buffer] | _ => [] end).
Proof.
  cbv zeta.
  destruct (Session.initialize_handle h mem) as [r h'] eqn:E. cbn [fst snd].
  apply initialize_handle_spec in E. cbv zeta in E.
  destruct E as (_ & N & (cs & C & Hh) & Hok & Hr).
  split; [exact N|]. split.
  - intros H. destruct (Hok H)
      as (config & desc & ein & eout & area & A1 & A2 & A3 & A4 & A5 & A6 & A7 & A8
          & A9 & _).
    exists config, desc, ein, eout, area.
    repeat match goal with |- _ /\ _ => split end; assumption.
  - split; [exact Hr|]. rewrite (calls_since_app _ _ _ C). exact Hh.
Qed.

Lemma initialize_handle_finds_the_endpoints_witness :
  fst (Session.initialize_handle (closed_handle example_usb_device)
         (Some (repeat x00 2048))) = JAYLINK_OK /\
  (let h := snd (Session.initialize_handle (closed_handle example_usb_device)
                   (Some (repeat x00 2048))) in
   (Session.interface_number h, Session.endpoint_in h, Session.endpoint_out h)
   = (0, 130, 1)) /\
  held_after []
    (Session.calls_since (closed_handle example_usb_device)
       (snd (Session.initialize_handle (closed_handle example_usb_device)
               (Some (repeat x00 2048)))))
  = Some [Transport_buffer].
Proof.
  assert (E : fst (Session.initialize_handle (closed_handle example_usb_device)
                     (Some (repeat x00 2048))) = JAYLINK_OK)
    by (vm_compute; reflexivity).
  split; [exact E|]. split; [vm_compute; reflexivity|].
  destruct (initialize_handle_finds_the_endpoints (closed_handle example_usb_device)
              (Some (repeat x00 2048))) as (_ & _ & _ & H).
  rewrite E in H. exact H.
Defined.

(** X15. transport_open, when malloc returns an area of BUFFER_SIZE bytes
    or NULL, takes all or nothing.  When it returns JAYLINK_OK the device
    is open, its interface is claimed and the buffer is allocated, and the
    handle is well-formed with its five cursors at zero: no operation is
    started.  When it returns another status, JAYLINK_ERR or
    JAYLINK_ERR_MALLOC, whatever it had taken is given back: nothing is
    held, and nothing was given back twice. *)
Theorem transport_open_takes_all_or_nothing (h : Session.handle)
  (mem : option (list byte)) :
  (forall area, mem = Some area -> Z.of_nat (List.length area) = BUFFER_SIZE) ->
  let r := Session.transport_open h mem in
  held_after [] (Session.calls_since h (snd r))
  = Some (match fst r with
          | JAYLINK_OK =>
              [Interface (Session.interface_number (snd r)); Usb_handle;
               Transport_buffer]
          | _ => []
          end) /\
  (fst r = JAYLINK_OK ->
   usb_devh (Session.devh (snd r)) = opened (Session.usb_dev (Session.dev h)) /\
   framing (Session.devh (snd r)) = (0, 0, 0, 0, 0) /\
   handle_ok (Session.devh (snd r)) /\
   mem = Some (buffer (Session.devh (snd r)))) /\
  (fst r = JAYLINK_OK \/ fst r = JAYLINK_ERR \/
   (fst r = JAYLINK_ERR_MALLOC /\ mem = None)).
Proof.
  intros Hmem. cbv zeta.
  destruct (Session.transport_open h mem) as [r h'] eqn:E. cbn [fst snd].
  destruct (transport_open_spec h mem r h' E Hmem) as (_ & (cs & C & Hh) & Hok & Hr).
  rewrite (calls_since_app _ _ _ C).
  split; [exact Hh|]. split; [|exact Hr].
  intros H. destruct (Hok H) as (A1 & A2 & A3 & A4 & _).
  split; [exact A1|]. split; [exact A2|]. split; [exact A3|exact A4].
Qed.

Lemma transport_open_takes_all_or_nothing_witness :
  (forall area, Some (repeat x00 2048) = Some area ->
                Z.of_nat (List.length area) = BUFFER_SIZE) /\
  fst (Session.transport_open (closed_handle example_usb_device)
         (Some (repeat x00 2048))) = JAYLINK_OK /\
  handle_ok
    (Session.devh
       (snd (Session.transport_open (closed_handle example_usb_device)
               (Some (repeat x00 2048))))) /\
  fst (Session.transport_open (closed_handle busy_usb_device)
         (Some (repeat x00 2048))) = JAYLINK_ERR /\
  Session.calls
    (snd (Session.transport_open (closed_handle busy_usb_device)
            (Some (repeat x00 2048))))
  = [Get_active_config_descriptor LIBUSB_SUCCESS; Free_config_descriptor;
     Malloc true; Libusb_open LIBUSB_SUCCESS; Claim_interface 0 LIBUSB_ERROR_OTHER;
     Free; Libusb_close] /\
  held_after []
    (Session.calls_since (closed_handle busy_usb_device)
       (snd (Session.transport_open (closed_handle busy_usb_device)
               (Some (repeat x00 2048)))))
  = Some [].
Proof.
  assert (Hmem : forall area, Some (repeat x00 2048) = Some area ->
                              Z.of_nat (List.length area) = BUFFER_SIZE).
  { intros area [= <-]. reflexivity. }
  assert (E1 : fst (Session.transport_open (closed_handle example_usb_device)
                      (Some (repeat x00 2048))) = JAYLINK_OK)
    by (vm_compute; reflexivity).
  assert (E2 : fst (Session.transport_open (closed_handle busy_usb_device)
                      (Some (repeat x00 2048))) = JAYLINK_ERR)
    by (vm_compute; reflexivity).
  split; [exact Hmem|]. split; [exact E1|]. split.
  - destruct (transport_open_takes_all_or_nothing (closed_handle example_usb_device)
                (Some (repeat x00 2048)) Hmem) as (_ & H & _).
    destruct (H E1) as (_ & _ & Hok & _). exact Hok.
  - split; [exact E2|]. split; [vm_compute; reflexivity|].
    destruct (transport_open_takes_all_or_nothing (closed_handle busy_usb_device)
                (Some (repeat x00 2048)) Hmem) as (H & _).
    rewrite E2 in H. exact H.
Defined.

(** X16. transport_close releases the interface, closes the device and
    frees the buffer, in this order and whatever libusb_release_interface
    returned; it returns JAYLINK_OK when the release succeeded and
    JAYLINK_ERR when it did not.  On a handle transport_open left with
    JAYLINK_OK, nothing is held afterwards but the interface, when it could
    not be released. *)
Theorem transport_close_gives_everything_back (h : Session.handle) :
  let r := Session.transport_close h in
  let ret := release_status (Session.usb_dev (Session.dev h)) in
  Session.calls_since h (snd r)
  = [Release_interface (Session.interface_number h) ret; Libusb_close; Free] /\
  fst r = (if is_success ret then JAYLINK_OK else JAYLINK_ERR) /\
  (forall (h0 : Session.handle) (mem : option (list byte)),
     (forall area, mem = Some area -> Z.of_nat (List.length area) = BUFFER_SIZE) ->
     Session.transport_open h0 mem = (JAYLINK_OK, h) ->
     held_after [] (Session.calls_since h0 (snd r))
     = Some (if is_success ret then [] else [Interface (Session.interface_number h)])).
Proof.
  cbv zeta. unfold Session.transport_close. cbv zeta.
  cbn [Session.dev Session.interface_number Session.log_dbg Session.set_devh
       Session.call Session.cleanup_handle].
  set (ret := release_status (Session.usb_dev (Session.dev h))).
  assert (C : forall (d : jaylink_device_handle),
            Session.calls
              (Session.set_devh
                 (Session.cleanup_handle
                    (Session.call
                       (Session.call
                          (Session.log_dbg h
                             "Closing device (bus:address = %03u:%03u)."
                             [ArgU (bus_number (Session.usb_dev (Session.dev h)));
                              ArgU (device_address
                                      (Session.usb_dev (Session.dev h)))])
                          (Release_interface (Session.interface_number h) ret))
                       Libusb_close)) d)
            = Session.calls h
              ++ [Release_interface (Session.interface_number h) ret; Libusb_close;
                  Free]).
  { intros d.
    cbn [Session.calls Session.call Session.cleanup_handle Session.log_dbg
         Session.set_devh].
    rewrite <- !app_assoc. reflexivity. }
  assert (Held : forall (h0 : Session.handle) (mem : option (list byte)),
            (forall area, mem = Some area ->
                          Z.of_nat (List.length area) = BUFFER_SIZE) ->
            Session.transport_open h0 mem = (JAYLINK_OK, h) ->
            forall h', Session.calls h'
                       = Session.calls h
                         ++ [Release_interface (Session.interface_number h) ret;
                             Libusb_close; Free] ->
            held_after [] (Session.calls_since h0 h')
            = Some (if is_success ret then []
                    else [Interface (Session.interface_number h)])).
  { intros h0 mem Hmem E h' Hc.
    destruct (transport_open_spec h0 mem _ _ E Hmem) as (_ & (cs & C0 & Hh) & _).
    rewrite C0, <- app_assoc in Hc.
    rewrite (calls_since_app _ _ _ Hc), held_after_app, Hh.
    cbn [held_after]. cbv zeta.
    destruct (is_success ret); [|reflexivity].
    cbn [give_back resource_eqb]. rewrite Z.eqb_refl. reflexivity. }
  destruct (is_success ret) eqn:S; cbn [negb fst snd].
  - split; [apply calls_since_app; apply (C (Session.devh _))|].
    split; [reflexivity|].
    intros h0 mem Hmem E. apply (Held h0 mem Hmem E). apply (C (Session.devh _)).
  - split; [apply calls_since_app; apply C|].
    split; [reflexivity|].
    intros h0 mem Hmem E. apply (Held h0 mem Hmem E). apply C.
Qed.

Lemma transport_close_gives_everything_back_witness :
  Session.transport_open (closed_handle example_usb_device) (Some (repeat x00 2048))
  = (JAYLINK_OK,
     snd (Session.transport_open (closed_handle example_usb_device)
            (Some (repeat x00 2048)))) /\
  fst (Session.transport_close
         (snd (Session.transport_open (closed_handle example_usb_device)
                 (Some (repeat x00 2048)))))
  = JAYLINK_OK /\
  held_after []
    (Session.calls_since (closed_handle example_usb_device)
       (snd (Session.transport_close
               (snd (Session.transport_open (closed_handle example_usb_device)
                       (Some (repeat x00 2048)))))))
  = Some [].
Proof.
  assert (Hmem : forall area, Some (repeat x00 2048) = Some area ->
                              Z.of_nat (List.length area) = BUFFER_SIZE).
  { intros area [= <-]. reflexivity. }
  assert (E : Session.transport_open (closed_handle example_usb_device)
                (Some (repeat x00 2048))
              = (JAYLINK_OK,
                 snd (Session.transport_open (closed_handle example_usb_device)
                        (Some (repeat x00 2048))))).
  { assert (E1 : fst (Session.transport_open (closed_handle example_usb_device)
                        (Some (repeat x00 2048))) = JAYLINK_OK)
      by (vm_compute; reflexivity).
    rewrite <- E1. apply surjective_pairing. }
  split; [exact E|].
  destruct (transport_close_gives_everything_back
              (snd (Session.transport_open (closed_handle example_usb_device)
                      (Some (repeat x00 2048))))) as (_ & R & H).
  split; [exact R|].
  exact (H (closed_handle example_usb_device) (Some (repeat x00 2048)) Hmem E).
Defined.
